(** * ArgusSentinel: the snapshot-diff engine, its filter and its configuration

    A shallow embedding of the Go sources

      - [types/events.go]                 (the data model),
      - [config/config.go], [config/filter.go] (configuration, validation,
        the [ProcessFilter]),
      - [utils/helper.go]                 ([SetField]),
      - [collector/process_collector.go]  (enumeration, diff, poll loop),

    followed by the theorems that settle the properties of the
    specification against that code.

    Conventions.  Go's [int32]/[int64]/[uint64] are integers of [Z] with
    the wrap-around written out; [float64] is IEEE-754 binary64 through
    the standard library's [SpecFloat] (round to nearest even); a Go
    [string] is a [string] of bytes; a Go [map[int32]ProcessInfo] is a
    [gmap Z ProcessInfo]. *)

From Stdlib Require Import ZArith Ascii String List Bool Lia.
From Stdlib Require Import Floats.SpecFloat.
From stdpp Require Import base option list gmap strings pretty.

Local Open Scope string_scope.
Local Open Scope list_scope.
Local Open Scope Z_scope.

(* ===================================================================== *)
(** * Go standard library routines used by the program                   *)
(* ===================================================================== *)

(** ** [strings.ToLower], [strings.EqualFold]

    Both are modelled on ASCII text, byte by byte, the way the two Go
    routines treat bytes below [0x80]; bytes from [0x80] on are left
    alone by [ToLower] and compared for equality by [EqualFold].  The
    Go routines go further on other text: [ToLower] lower-cases the
    letters of Unicode and rewrites invalid UTF-8, and [EqualFold]
    folds by Unicode simple folding.  The model is the two routines on
    ASCII strings ([isASCII] below), and a statement that rests on the
    folding of arbitrary strings says so in its hypotheses. *)
Module strings.

Definition isUpper (c : ascii) : bool :=
  ((65 <=? nat_of_ascii c) && (nat_of_ascii c <=? 90))%nat.

Definition lowerByte (c : ascii) : ascii :=
  if isUpper c then ascii_of_nat (nat_of_ascii c + 32) else c.

Fixpoint ToLower (s : string) : string :=
  match s with
  | EmptyString => EmptyString
  | String c s' => String (lowerByte c) (ToLower s')
  end.

(** One step of [EqualFold]'s ASCII loop: [sr == tr], or after
    ordering the two bytes so that [sr < tr], [sr] is an upper-case
    letter and [tr == sr + 'a' - 'A']. *)
Definition foldEq (sr tr : ascii) : bool :=
  if Ascii.eqb sr tr then true
  else
    let lo := if (nat_of_ascii tr <? nat_of_ascii sr)%nat then tr else sr in
    let hi := if (nat_of_ascii tr <? nat_of_ascii sr)%nat then sr else tr in
    isUpper lo && (nat_of_ascii hi =? nat_of_ascii lo + 32)%nat.

Fixpoint EqualFold (s t : string) : bool :=
  match s, t with
  | EmptyString, EmptyString => true
  | String a s', String b t' => foldEq a b && EqualFold s' t'
  | _, _ => false
  end.

(** [strings.Contains(s, string(c))] for a one-byte needle. *)
Fixpoint ContainsByte (s : string) (c : ascii) : bool :=
  match s with
  | EmptyString => false
  | String a s' => Ascii.eqb a c || ContainsByte s' c
  end.

End strings.

(** ** [path/filepath.Match]

    The shell pattern matcher of the Go standard library, byte by byte:
    the Go routine reads the name and the character classes of the
    pattern rune by rune, and a rune is one byte exactly on ASCII text,
    so the model is the routine on ASCII patterns and names.  As in
    [path/filepath] (and unlike [path.Match]) a failed match returns
    [false, nil] without looking at the rest of the pattern.  [windows]
    stands for [runtime.GOOS == "windows"]: there the separator is the
    backslash and the backslash does not escape. *)
Module filepath.

Inductive error := ErrBadPattern.

Section Match.
Variable windows : bool.

Definition Separator : ascii := if windows then "\"%char else "/"%char.

(** The leading [for len(pattern) > 0 && pattern[0] == '*'] loop of
    [scanChunk]. *)
Fixpoint scanStars (pattern : string) (star : bool) : bool * string :=
  match pattern with
  | String c p =>
      if Ascii.eqb c "*" then scanStars p true else (star, pattern)
  | EmptyString => (star, pattern)
  end.

(** The [Scan:] loop of [scanChunk]: the index [i] at which it stops. *)
Fixpoint scanIndex (inrange : bool) (pattern : string) : nat :=
  match pattern with
  | EmptyString => 0%nat
  | String c p =>
      if Ascii.eqb c "\" then
        if windows then S (scanIndex inrange p)
        else match p with
             | String _ p' => S (S (scanIndex inrange p'))
             | EmptyString => 1%nat
             end
      else if Ascii.eqb c "[" then S (scanIndex true p)
      else if Ascii.eqb c "]" then S (scanIndex false p)
      else if Ascii.eqb c "*" then
             if inrange then S (scanIndex inrange p) else 0%nat
      else S (scanIndex inrange p)
  end.

Fixpoint drop_bytes (n : nat) (s : string) : string :=
  match n, s with
  | O, _ => s
  | S n', String _ s' => drop_bytes n' s'
  | S _, EmptyString => EmptyString
  end.

Fixpoint take_bytes (n : nat) (s : string) : string :=
  match n, s with
  | O, _ => EmptyString
  | S n', String c s' => String c (take_bytes n' s')
  | S _, EmptyString => EmptyString
  end.

(** [scanChunk]: [(star, chunk, rest)]. *)
Definition scanChunk (pattern : string) : bool * string * string :=
  let '(star, pattern) := scanStars pattern false in
  let i := scanIndex false pattern in
  (star, take_bytes i pattern, drop_bytes i pattern).

(** [getEsc]: [(r, nchunk, err)]. *)
Definition getEsc (chunk : string) : ascii * string * option error :=
  match chunk with
  | EmptyString => (zero, EmptyString, Some ErrBadPattern)
  | String c0 tl0 =>
      if Ascii.eqb c0 "-" || Ascii.eqb c0 "]" then
        (zero, EmptyString, Some ErrBadPattern)
      else
        let chunk1 :=
          if Ascii.eqb c0 "\" && negb windows then tl0 else chunk in
        match chunk1 with
        | EmptyString => (zero, EmptyString, Some ErrBadPattern)
        | String r nchunk =>
            (r, nchunk,
             match nchunk with
             | EmptyString => Some ErrBadPattern
             | _ => None
             end)
        end
  end.

Definition byte_le (a b : ascii) : bool :=
  (nat_of_ascii a <=? nat_of_ascii b)%nat.

(** The [for { ... }] loop that parses the ranges of one character
    class; [r] is the rune read from the name.  The result is the
    rest of the chunk and the [match] flag, or the pattern error.
    Every turn consumes at least one byte of [chunk], so
    more than [length chunk] turns are never needed. *)
Fixpoint classRanges (fuel : nat) (r : ascii) (chunk : string)
         (mtch : bool) (nrange : nat) : (string * bool) + error :=
  match fuel with
  | O => inr ErrBadPattern
  | S fuel' =>
      let ranges :=
        match getEsc chunk with
        | (_, _, Some err) => inr err
        | (lo, chunk1, None) =>
            match chunk1 with
            | EmptyString => inr ErrBadPattern (* excluded by [getEsc] *)
            | String c1 tl1 =>
                if Ascii.eqb c1 "-" then
                  match getEsc tl1 with
                  | (_, _, Some err) => inr err
                  | (hi, chunk2, None) =>
                      classRanges fuel' r chunk2
                        (if byte_le lo r && byte_le r hi then true else mtch)
                        (S nrange)
                  end
                else
                  classRanges fuel' r chunk1
                    (if byte_le lo r && byte_le r lo then true else mtch)
                    (S nrange)
            end
        end in
      match chunk with
      | String c tl =>
          if Ascii.eqb c "]" && (0 <? nrange)%nat then inl (tl, mtch)
          else ranges
      | EmptyString => ranges
      end
  end.

Definition is_empty (s : string) : bool :=
  match s with EmptyString => true | _ => false end.

(** The loop of [matchChunk] over [chunk]; [failed] records that the
    match has failed, after which the chunk is still checked for
    well-formedness but [s] is no longer read.  Result:
    [(rest, ok, err)]. *)
Fixpoint matchChunkLoop (fuel : nat) (chunk s : string) (failed : bool)
  : string * bool * option error :=
  match fuel with
  | O => (EmptyString, false, Some ErrBadPattern)
  | S fuel' =>
      match chunk with
      | EmptyString =>
          if failed then (EmptyString, false, None) else (s, true, None)
      | String c0 ctl =>
          let failed := if negb failed && is_empty s then true else failed in
          if Ascii.eqb c0 "[" then
            (* character class *)
            let '(r, s) :=
              if failed then (zero, s)
              else match s with
                   | String r s' => (r, s')
                   | EmptyString => (zero, s)
                   end in
            let '(negated, chunk) :=
              match ctl with
              | String c1 tl =>
                  if Ascii.eqb c1 "^" then (true, tl) else (false, ctl)
              | EmptyString => (false, ctl)
              end in
            match classRanges (S (String.length chunk)) r chunk false 0 with
            | inr err => (EmptyString, false, Some err)
            | inl (chunk, mtch) =>
                let failed := if Bool.eqb mtch negated then true else failed in
                matchChunkLoop fuel' chunk s failed
            end
          else if Ascii.eqb c0 "?" then
            let '(s, failed) :=
              if failed then (s, failed)
              else match s with
                   | String s0 s' =>
                       (s', if Ascii.eqb s0 Separator then true else failed)
                   | EmptyString => (s, failed)
                   end in
            matchChunkLoop fuel' ctl s failed
          else
            (* case '\\' (falling through) and default *)
            let literal (lit : ascii) (chunk' : string) :=
              let '(s, failed) :=
                if failed then (s, failed)
                else match s with
                     | String s0 s' =>
                         (s', if Ascii.eqb lit s0 then failed else true)
                     | EmptyString => (s, failed)
                     end in
              matchChunkLoop fuel' chunk' s failed in
            if Ascii.eqb c0 "\" && negb windows then
              match ctl with
              | EmptyString => (EmptyString, false, Some ErrBadPattern)
              | String c1 ctl1 => literal c1 ctl1
              end
            else literal c0 ctl
      end
  end.

Definition matchChunk (chunk s : string) : string * bool * option error :=
  matchChunkLoop (S (String.length chunk)) chunk s false.

(** The inner [for i := 0; i < len(name) && name[i] != Separator; i++]
    loop of [Match], which retries the chunk after skipping [i+1]
    bytes of the name. *)
Inductive starOutcome :=
| StarContinue (t : string)      (* [name = t; continue Pattern] *)
| StarError (e : error)          (* [return false, err] *)
| StarExhausted.                 (* the loop ran to its end *)

Fixpoint starLoop (chunk pattern name : string) : starOutcome :=
  match name with
  | EmptyString => StarExhausted
  | String c name' =>
      if Ascii.eqb c Separator then StarExhausted
      else
        let '(t, ok, err) := matchChunk chunk name' in
        if ok then
          if is_empty pattern && negb (is_empty t)
          then starLoop chunk pattern name'
          else StarContinue t
        else match err with
             | Some e => StarError e
             | None => starLoop chunk pattern name'
             end
  end.

(** The [Pattern:] loop of [Match]. *)
Fixpoint MatchLoop (fuel : nat) (pattern name : string) : bool * option error :=
  match fuel with
  | O => (false, Some ErrBadPattern)
  | S fuel' =>
      match pattern with
      | EmptyString => (is_empty name, None)
      | _ =>
          let '(star, chunk, pattern') := scanChunk pattern in
          if star && is_empty chunk then
            (negb (strings.ContainsByte name Separator), None)
          else
            let '(t, ok, err) := matchChunk chunk name in
            if ok && (is_empty t || negb (is_empty pattern')) then
              MatchLoop fuel' pattern' t
            else
              match err with
              | Some e => (false, Some e)
              | None =>
                  if star then
                    match starLoop chunk pattern' name with
                    | StarContinue t => MatchLoop fuel' pattern' t
                    | StarError e => (false, Some e)
                    | StarExhausted => (false, None)
                    end
                  else (false, None)
              end
      end
  end.

Definition Match (pattern name : string) : bool * option error :=
  MatchLoop (S (String.length pattern)) pattern name.

End Match.
End filepath.

(** ** IEEE-754 binary64: Go's [float64]

    The operations are those of [SpecFloat] at precision 53 and maximal
    exponent 1024, which round to nearest even as Go's do. *)
Module f64.

Definition prec : Z := 53.
Definition emax : Z := 1024.

(** A [float64] value: a binary64 datum in canonical form. *)
Record float64 := mk {
  val : spec_float;
  val_ok : valid_binary prec emax val = true
}.

Definition add := SFadd prec emax.
Definition sub := SFsub prec emax.
Definition div := SFdiv prec emax.
Definition abs := SFabs.

(** Go's [<], [<=], [>]: false as soon as an operand is NaN. *)
Definition lt := SFltb.
Definition le := SFleb.
Definition gt (x y : spec_float) : bool := SFltb y x.

(** The conversion [float64(n)] of an integer. *)
Definition of_Z (n : Z) : spec_float := binary_normalize prec emax n 0 false.

Definition zero : spec_float := S754_zero false.
Definition one : spec_float := S754_finite false 4503599627370496 (-52).
Definition pinf : spec_float := S754_infinity false.

(** The conversion [int32(x)]: truncation toward zero.  Where the
    value does not fit (or is NaN or infinite) Go leaves the result to
    the implementation; amd64 gives [-2^31], which is what is modelled. *)
Definition trunc (x : spec_float) : option Z :=
  match x with
  | S754_zero _ => Some 0
  | S754_finite s m e =>
      let v := if 0 <=? e then Z.pos m * 2 ^ e else Z.pos m / 2 ^ (- e) in
      Some (if s then - v else v)
  | _ => None
  end.

Definition to_int32 (x : spec_float) : Z :=
  match trunc x with
  | Some v => if (- 2 ^ 31 <=? v) && (v <? 2 ^ 31) then v else - 2 ^ 31
  | None => - 2 ^ 31
  end.

End f64.

Abbreviation float64 := f64.float64.

(** Wrap-around of Go's [int32] arithmetic. *)
Definition wrap32 (z : Z) : Z := (z + 2 ^ 31) mod 2 ^ 32 - 2 ^ 31.

(** A Go [error] value made by [fmt.Errorf]. *)
Inductive goerror := Errorf (msg : string).

(** [time.Time] and [time.Duration] (nanoseconds). *)
Definition Time := Z.
Definition Duration := Z.
Definition Millisecond : Duration := 1000000.
Definition Second : Duration := 1000 * Millisecond.
Definition Minute : Duration := 60 * Second.

(* ===================================================================== *)
(** * [types/events.go]                                                  *)
(* ===================================================================== *)
Module types.

Inductive EventType := ProcessCreated | ProcessTerminated | ProcessModified.

Inductive ModificationType :=
| MemoryModification
| ThreadCreation
| HandleTableChange
| PrivilegeChange
| BehaviorChange
| CommandLineChange
| ThreadCountChange
| HandleCountChange
| WorkingDirectoryChange.

Record MemoryRegion := {
  BaseAddress : Z;
  Size : Z;
  Protection : Z;
  State : Z;
  Type_ : Z;
  Usage : string
}.

Record NetworkConnection := {
  LocalIP : string;
  LocalPort : Z;
  RemoteIP : string;
  RemotePort : Z;
  Status : string;
  Protocol : string;
  ProcessID_ : Z;
  CreateTime_ : Time
}.

Record ProcessInfo := {
  PID : Z;                 (* int32 *)
  Name : string;
  CreateTime : Z;          (* int64 *)
  ParentPID : Z;           (* int32 *)
  Executable : string;
  CommandLine : string;
  Username : string;
  CPUPercent : float64;
  MemoryUsage : Z;         (* uint64 *)
  NumThreads : Z;          (* int32 *)
  Cwd : string;
  ThreadCount : Z;         (* int32 *)
  HandleCount : Z;         (* int32 *)
  MemoryRegions : list MemoryRegion;
  Privileges : list string;
  NetworkConns : list NetworkConnection
}.

(** The zero value of [float64]. *)
Definition float_zero : float64 := f64.mk f64.zero eq_refl.

(** The record [types.ProcessInfo{PID: pid}]: every other field at its
    zero value. *)
Definition zeroInfo (pid : Z) : ProcessInfo :=
  {| PID := pid; Name := ""; CreateTime := 0; ParentPID := 0;
     Executable := ""; CommandLine := ""; Username := "";
     CPUPercent := float_zero; MemoryUsage := 0; NumThreads := 0;
     Cwd := ""; ThreadCount := 0; HandleCount := 0;
     MemoryRegions := []; Privileges := []; NetworkConns := [] |}.

(** The [interface{}] values stored in [OldValue]/[NewValue]. *)
Inductive Value :=
| VString (s : string)
| VInt32 (n : Z)
| VUint64 (n : Z).

Record ProcessModification := {
  Timestamp : Time;
  ProcessID : Z;
  ModType : ModificationType;
  OldValue : Value;
  NewValue : Value;
  Description : string
}.

Record ProcessEvent := {
  EvType : EventType;
  EvTimestamp : Time;
  EvProcess : ProcessInfo;
  EvModType : ModificationType;   (* only used when Type is ProcessModified *)
  EvDescription : string
}.

End types.
Import types.

(* ===================================================================== *)
(** * [config/config.go] and [config/filter.go]                          *)
(* ===================================================================== *)
Module config.

Record MonitoringConfig := {
  (* General settings *)
  PollInterval : Duration;
  EnableEventLogging : bool;
  LogPath : string;
  (* Process monitoring thresholds *)
  MemoryChangeThreshold : float64;
  CPUThreshold : float64;
  ThreadChangeThreshold : Z;      (* int32 *)
  HandleChangeThreshold : Z;      (* int32 *)
  (* Feature flags *)
  MonitorCommandLine : bool;
  MonitorMemory : bool;
  MonitorThreads : bool;
  MonitorHandles : bool;
  MonitorWorkingDir : bool;
  MonitorConnections : bool;
  (* Process filtering *)
  ExcludedProcesses : list string;
  IncludedProcesses : list string;
  ExcludedUsers : list string;
  (* Thresholds *)
  ProcessPriorityThreshold : Z;
  MaxProcessesToMonitor : Z;
  ProcessAgeThreshold : Duration
}.

(** The literals [0.1] and [0.75] as binary64. *)
Definition f_0_1 : float64 :=
  f64.mk (S754_finite false 7205759403792794 (-56)) eq_refl.
Definition f_0_75 : float64 :=
  f64.mk (S754_finite false 6755399441055744 (-53)) eq_refl.

Definition DefaultConfig : MonitoringConfig :=
  {| PollInterval := Second;
     EnableEventLogging := true;
     LogPath := "process_monitor.log";
     MemoryChangeThreshold := f_0_1;
     CPUThreshold := f_0_75;
     ThreadChangeThreshold := 2;
     HandleChangeThreshold := 10;
     MonitorCommandLine := true;
     MonitorMemory := true;
     MonitorThreads := true;
     MonitorHandles := true;
     MonitorWorkingDir := true;
     MonitorConnections := false;
     ExcludedProcesses := ["svchost.exe"; "RuntimeBroker.exe"];
     IncludedProcesses := [];
     ExcludedUsers := ["root"];
     ProcessPriorityThreshold := 32768;
     MaxProcessesToMonitor := 1000;
     ProcessAgeThreshold := 1 * Minute |}.

(** [Validate]: [None] is the [nil] error. *)
Definition Validate (c : MonitoringConfig) : option goerror :=
  if PollInterval c <? Millisecond * 100 then
    Some (Errorf "poll interval too short, minimum 100ms")
  else if f64.le (f64.val (MemoryChangeThreshold c)) f64.zero
          || f64.gt (f64.val (MemoryChangeThreshold c)) f64.one then
    Some (Errorf "memory change threshold must be between 0 and 1")
  else if f64.le (f64.val (CPUThreshold c)) f64.zero
          || f64.gt (f64.val (CPUThreshold c)) f64.one then
    Some (Errorf "CPU threshold must be between 0 and 1")
  else if ThreadChangeThreshold c <? 0 then
    Some (Errorf "thread change threshold must be non-negative")
  else if HandleChangeThreshold c <? 0 then
    Some (Errorf "handle change threshold must be non-negative")
  else None.

Section Filter.
Variable windows : bool.

(** The two [for ... range] loops over patterns of
    [ShouldMonitorProcess]: does some entry, lower-cased, match
    [processName]?  The error of [filepath.Match] is dropped
    ([match, _ := ...]). *)
Fixpoint anyMatch (patterns : list string) (processName : string) : bool :=
  match patterns with
  | [] => false
  | pattern :: rest =>
      if fst (filepath.Match windows (strings.ToLower pattern) processName)
      then true
      else anyMatch rest processName
  end.

(** The loop over [ExcludedUsers]. *)
Fixpoint anyUser (users : list string) (username : string) : bool :=
  match users with
  | [] => false
  | excludedUser :: rest =>
      if String.eqb (strings.ToLower excludedUser) username then true
      else anyUser rest username
  end.

(** The method [ShouldMonitorProcess] of [ProcessFilter]; the filter
    holds only the configuration. *)
Definition ShouldMonitorProcess (c : MonitoringConfig) (info : ProcessInfo) : bool :=
  let processName := strings.ToLower (Name info) in
  if anyMatch (ExcludedProcesses c) processName then false
  else if (0 <? length (IncludedProcesses c))%nat
          && negb (anyMatch (IncludedProcesses c) processName) then false
  else
    let username := strings.ToLower (Username info) in
    if anyUser (ExcludedUsers c) username then false
    else true.

End Filter.
End config.
Import config.

(* ===================================================================== *)
(** * [utils/helper.go]                                                  *)
(* ===================================================================== *)
Module utils.

(** [SetField(&field, getter)]: the call [getter()] has returned
    [(value, err)]; the field is overwritten only when [err == nil].
    The new content of the field is returned. *)
Definition SetField {T : Type} (field : T) (getter : T * option goerror) : T :=
  match getter with
  | (value, None) => value
  | (_, Some _) => field
  end.

End utils.

(* ===================================================================== *)
(** * The process source ([gopsutil/v3/process])                         *)
(* ===================================================================== *)

(** A process handle is modelled by its [Pid] and by what each of its
    accessors returns when [getProcessInfo] calls it: a value and an
    error. *)
Module process.

Record MemoryInfoStat := { RSS : Z (* uint64 *) }.

Record Process := {
  Pid : Z;
  Name : string * option goerror;
  CreateTime : Z * option goerror;
  Ppid : Z * option goerror;
  Exe : string * option goerror;
  Cmdline : string * option goerror;
  Username : string * option goerror;
  CPUPercent : float64 * option goerror;
  NumThreads : Z * option goerror;
  Cwd : string * option goerror;
  (* a nil pointer is [None] *)
  MemoryInfo : option MemoryInfoStat * option goerror
}.

End process.

(* ===================================================================== *)
(** * [collector/process_collector.go]                                   *)
(* ===================================================================== *)
Module collector.

(** ** Effects: the clock and the event channel

    [time.Now()] reads a logical clock that advances at every reading;
    a send on [pc.events] adds an event to the sequence of events
    sent, oldest first.  A computation takes the clock and returns its
    result, the clock afterwards and the events it has sent.

    The channel is bounded and a send on it blocks while it is full:
    what is modelled is a run in which every send completes (the
    channel has room, or the event loop is receiving).  The events of a
    computation are those it sends when it runs to its end; a send
    that never completes, which can happen once the event loop has
    left, is outside the model. *)
Definition M (A : Type) : Type := Time -> A * Time * list ProcessEvent.

Definition ret {A} (a : A) : M A := fun t => (a, t, []).

Definition bind {A B} (m : M A) (k : A -> M B) : M B :=
  fun t =>
    let '(a, t1, sent1) := m t in
    let '(b, t2, sent2) := k a t1 in
    (b, t2, (sent1 ++ sent2)%list).

Notation "'let*' x ':=' m 'in' k" := (bind m (fun x => k))
  (at level 10, x name, m at level 100, k at level 200).
Notation "m ;;; k" := (bind m (fun _ => k))
  (at level 100, k at level 200, right associativity).

Definition timeNow : M Time := fun t => (t, t + 1, []).

Definition send (ev : ProcessEvent) : M unit := fun t => (tt, t, [ev]).

(** The result and the events of a run. *)
Definition value {A} (r : A * Time * list ProcessEvent) : A := fst (fst r).
Definition clockAfter {A} (r : A * Time * list ProcessEvent) : Time := snd (fst r).
Definition sent {A} (r : A * Time * list ProcessEvent) : list ProcessEvent := snd r.

(** A [for _, x := range l] loop whose body only has effects. *)
Fixpoint forEach {A} (l : list A) (body : A -> M unit) : M unit :=
  match l with
  | [] => ret tt
  | x :: rest => body x ;;; forEach rest body
  end.

Section Collector.
(** [runtime.GOOS == "windows"], and the configuration shared by
    [pc.config] and [pc.filter]. *)
Variable windows : bool.
Variable cfg : MonitoringConfig.

(** ** [getProcessInfo] *)
Definition getProcessInfo (p : process.Process) : ProcessInfo * option goerror :=
  let info := zeroInfo (process.Pid p) in
  let info :=
    {| PID := PID info;
       Name := utils.SetField (Name info) (process.Name p);
       CreateTime := utils.SetField (CreateTime info) (process.CreateTime p);
       ParentPID := utils.SetField (ParentPID info) (process.Ppid p);
       Executable := utils.SetField (Executable info) (process.Exe p);
       CommandLine := utils.SetField (CommandLine info) (process.Cmdline p);
       Username := utils.SetField (Username info) (process.Username p);
       CPUPercent := utils.SetField (CPUPercent info) (process.CPUPercent p);
       MemoryUsage :=
         (* MemoryInfo requires custom handling *)
         match process.MemoryInfo p with
         | (Some memInfo, None) => process.RSS memInfo
         | _ => MemoryUsage info
         end;
       NumThreads := utils.SetField (NumThreads info) (process.NumThreads p);
       Cwd := utils.SetField (Cwd info) (process.Cwd p);
       ThreadCount := ThreadCount info;
       HandleCount := HandleCount info;
       MemoryRegions := MemoryRegions info;
       Privileges := Privileges info;
       NetworkConns := NetworkConns info |} in
  (info, None).

(** ** [getRunningProcesses]

    [enum] is what [process.Processes()] returned. *)
Definition addProcess (processes : gmap Z ProcessInfo) (p : process.Process)
  : gmap Z ProcessInfo :=
  match getProcessInfo p with
  | (_, Some _) => processes                       (* continue *)
  | (info, None) =>
      (* Apply filter before adding to the map *)
      if ShouldMonitorProcess windows cfg info
      then <[process.Pid p := info]> processes
      else processes
  end.

Definition getRunningProcesses (enum : list process.Process * option goerror)
  : option (gmap Z ProcessInfo) * option goerror :=
  match enum with
  | (_, Some (Errorf msg)) =>
      (None, Some (Errorf ("failed to get processes: " +:+ msg)))
  | (procs, None) => (Some (fold_left addProcess procs ∅), None)
  end.

(** ** [shouldMonitorProcess], the collector's own predicate

    The calls of [log.Printf] are not modelled. *)
Fixpoint excludedByPattern (excluded : list string) (processName : string) : bool :=
  match excluded with
  | [] => false
  | e :: rest =>
      match filepath.Match windows (strings.ToLower e) processName with
      | (true, None) => true
      | _ => excludedByPattern rest processName
      end
  end.

Fixpoint anyEqualFold (entries : list string) (s : string) : bool :=
  match entries with
  | [] => false
  | e :: rest => if strings.EqualFold s e then true else anyEqualFold rest s
  end.

Definition shouldMonitorProcess (info : ProcessInfo) : bool :=
  let processName := strings.ToLower (Name info) in
  if excludedByPattern (ExcludedProcesses cfg) processName then false
  (* Check excluded processes *)
  else if anyEqualFold (ExcludedProcesses cfg) (Name info) then false
  (* Check included processes *)
  else if (0 <? length (IncludedProcesses cfg))%nat
          && negb (anyEqualFold (IncludedProcesses cfg) (Name info)) then false
  (* Check excluded users *)
  else if anyEqualFold (ExcludedUsers cfg) (Username info) then false
  else true.

(** ** [detectModifications] *)

(** [int32(math.Abs(float64(d)))] *)
Definition absDiff (d : Z) : Z :=
  f64.to_int32 (f64.abs (f64.of_Z d)).

(** [float64(new) / float64(old)] *)
Definition memRatio (old new : Z) : spec_float :=
  f64.div (f64.of_Z new) (f64.of_Z old).

Definition memChanged (old new : Z) : bool :=
  let memDiff := memRatio old new in
  f64.lt memDiff (f64.sub f64.one (f64.val (MemoryChangeThreshold cfg)))
  || f64.gt memDiff (f64.add f64.one (f64.val (MemoryChangeThreshold cfg))).

Definition fieldChecks (timestamp : Time) (old new : ProcessInfo)
  : list ProcessModification :=
  let modifications : list ProcessModification := [] in
  (* Check command line changes *)
  let modifications :=
    if MonitorCommandLine cfg && negb (String.eqb (CommandLine old) (CommandLine new))
    then app modifications
         [ {| Timestamp := timestamp; ProcessID := PID new;
              ModType := CommandLineChange;
              OldValue := VString (CommandLine old);
              NewValue := VString (CommandLine new);
              Description := "Command line modified" |} ]
    else modifications in
  (* Check thread count changes *)
  let modifications :=
    if MonitorThreads cfg then
      let threadDiff := absDiff (wrap32 (ThreadCount new - ThreadCount old)) in
      if ThreadChangeThreshold cfg <=? threadDiff
      then app modifications
           [ {| Timestamp := timestamp; ProcessID := PID new;
                ModType := ThreadCountChange;
                OldValue := VInt32 (ThreadCount old);
                NewValue := VInt32 (ThreadCount new);
                Description := "Thread count changed by " +:+ pretty threadDiff |} ]
      else modifications
    else modifications in
  let modifications :=
    if MonitorHandles cfg then
      let handleDiff := absDiff (wrap32 (HandleCount new - HandleCount old)) in
      if HandleChangeThreshold cfg <=? handleDiff
      then app modifications
           [ {| Timestamp := timestamp; ProcessID := PID new;
                ModType := HandleCountChange;
                OldValue := VInt32 (HandleCount old);
                NewValue := VInt32 (HandleCount new);
                Description := "Handle count changed by " +:+ pretty handleDiff |} ]
      else modifications
    else modifications in
  let modifications :=
    if MonitorMemory cfg then
      if memChanged (MemoryUsage old) (MemoryUsage new)
      then app modifications
           [ {| Timestamp := timestamp; ProcessID := PID new;
                ModType := MemoryModification;
                OldValue := VUint64 (MemoryUsage old);
                NewValue := VUint64 (MemoryUsage new);
                Description := "Significant memory usage change" |} ]
      else modifications
    else modifications in
  let modifications :=
    if MonitorWorkingDir cfg && negb (String.eqb (Cwd old) (Cwd new))
    then app modifications
         [ {| Timestamp := timestamp; ProcessID := PID new;
              ModType := WorkingDirectoryChange;
              OldValue := VString (Cwd old);
              NewValue := VString (Cwd new);
              Description := "Working directory changed" |} ]
    else modifications in
  modifications.

Definition detectModifications (old new : ProcessInfo) : M (list ProcessModification) :=
  if negb (shouldMonitorProcess new) then ret []
  else
    let* timestamp := timeNow in
    ret (fieldChecks timestamp old new).

(** ** [Monitor] *)

Definition modifiedEvent (newInfo : ProcessInfo) (modif : ProcessModification)
  : ProcessEvent :=
  {| EvType := ProcessModified;
     EvTimestamp := Timestamp modif;
     EvProcess := newInfo;
     EvModType := ModType modif;
     EvDescription := Description modif |}.

(** An event without modification details: [ModType] and
    [Description] keep their zero values. *)
Definition plainEvent (ty : EventType) (timestamp : Time) (info : ProcessInfo)
  : ProcessEvent :=
  {| EvType := ty;
     EvTimestamp := timestamp;
     EvProcess := info;
     EvModType := MemoryModification;
     EvDescription := "" |}.

(** The body of [for pid, newInfo := range newSnapshot]. *)
Definition checkNew (currentProcesses : gmap Z ProcessInfo)
           (entry : Z * ProcessInfo) : M unit :=
  let '(pid, newInfo) := entry in
  match currentProcesses !! pid with
  | Some oldInfo =>
      if ShouldMonitorProcess windows cfg newInfo then
        (* Process exists in both snapshots - check for modifications *)
        let* mods := detectModifications oldInfo newInfo in
        if (0 <? length mods)%nat
        then forEach mods (fun modif => send (modifiedEvent newInfo modif))
        else ret tt
      else ret tt
  | None =>
      if ShouldMonitorProcess windows cfg newInfo then
        (* New process created *)
        let* timestamp := timeNow in
        send (plainEvent ProcessCreated timestamp newInfo)
      else ret tt
  end.

(** The body of [for pid, info := range pc.currentProcesses]. *)
Definition checkOld (newSnapshot : gmap Z ProcessInfo)
           (entry : Z * ProcessInfo) : M unit :=
  let '(pid, info) := entry in
  match newSnapshot !! pid with
  | Some _ => ret tt
  | None =>
      if ShouldMonitorProcess windows cfg info then
        let* timestamp := timeNow in
        send (plainEvent ProcessTerminated timestamp info)
      else ret tt
  end.

(** Go leaves the order of a [range] over a map unspecified: a tick
    takes the two orders as inputs, [rangeNew] for [newSnapshot] and
    [rangeOld] for [pc.currentProcesses]. *)
Definition range_of (m : gmap Z ProcessInfo) (l : list (Z * ProcessInfo)) : Prop :=
  l ≡ₚ map_to_list m.

(** The compare-and-replace section of one tick (between
    [pc.mutex.Lock()] and [pc.mutex.Unlock()]); the result is the
    new content of [pc.currentProcesses]. *)
Definition diffAndReplace (currentProcesses newSnapshot : gmap Z ProcessInfo)
           (rangeNew rangeOld : list (Z * ProcessInfo)) : M (gmap Z ProcessInfo) :=
  forEach rangeNew (checkNew currentProcesses) ;;;
  forEach rangeOld (checkOld newSnapshot) ;;;
  ret newSnapshot.

(** What one turn of the [select] receives. *)
Inductive Select :=
| CtxDone
| TickerC (enum : list process.Process * option goerror)
          (rangeNew rangeOld : list (Z * ProcessInfo)).

(** The [case <-ticker.C] branch. *)
Definition tick (currentProcesses : gmap Z ProcessInfo)
           (enum : list process.Process * option goerror)
           (rangeNew rangeOld : list (Z * ProcessInfo)) : M (gmap Z ProcessInfo) :=
  match getRunningProcesses enum with
  | (Some newSnapshot, None) =>
      diffAndReplace currentProcesses newSnapshot rangeNew rangeOld
  | _ => ret currentProcesses                       (* continue *)
  end.

(** The poll loop, run on a sequence of [select] outcomes.  The
    boolean tells whether [Monitor] has returned (with [nil]); it is
    [false] when the loop is still waiting after the last outcome.
    This is the loop after [time.NewTicker(pc.config.PollInterval)]
    has returned, which takes a positive interval (the call panics
    otherwise; [Validate] asks for 100ms at least). *)
Fixpoint Monitor (sel : list Select) (currentProcesses : gmap Z ProcessInfo)
  : M (gmap Z ProcessInfo * bool) :=
  match sel with
  | [] => ret (currentProcesses, false)
  | CtxDone :: _ => ret (currentProcesses, true)
  | TickerC enum rangeNew rangeOld :: rest =>
      let* retained := tick currentProcesses enum rangeNew rangeOld in
      Monitor rest retained
  end.

End Collector.
End collector.
Import collector.


(* ===================================================================== *)
(** * The vocabulary of the specification                                *)
(* ===================================================================== *)

(** Copies of a configuration with other thresholds, or with other
    filter lists. *)
Definition withThresholds (c : MonitoringConfig) (mem : float64) (threads handles : Z)
  : MonitoringConfig :=
  {| PollInterval := PollInterval c;
     EnableEventLogging := EnableEventLogging c;
     LogPath := LogPath c;
     MemoryChangeThreshold := mem;
     CPUThreshold := CPUThreshold c;
     ThreadChangeThreshold := threads;
     HandleChangeThreshold := handles;
     MonitorCommandLine := MonitorCommandLine c;
     MonitorMemory := MonitorMemory c;
     MonitorThreads := MonitorThreads c;
     MonitorHandles := MonitorHandles c;
     MonitorWorkingDir := MonitorWorkingDir c;
     MonitorConnections := MonitorConnections c;
     ExcludedProcesses := ExcludedProcesses c;
     IncludedProcesses := IncludedProcesses c;
     ExcludedUsers := ExcludedUsers c;
     ProcessPriorityThreshold := ProcessPriorityThreshold c;
     MaxProcessesToMonitor := MaxProcessesToMonitor c;
     ProcessAgeThreshold := ProcessAgeThreshold c |}.

Definition withFilter (c : MonitoringConfig) (excluded included users : list string)
  : MonitoringConfig :=
  {| PollInterval := PollInterval c;
     EnableEventLogging := EnableEventLogging c;
     LogPath := LogPath c;
     MemoryChangeThreshold := MemoryChangeThreshold c;
     CPUThreshold := CPUThreshold c;
     ThreadChangeThreshold := ThreadChangeThreshold c;
     HandleChangeThreshold := HandleChangeThreshold c;
     MonitorCommandLine := MonitorCommandLine c;
     MonitorMemory := MonitorMemory c;
     MonitorThreads := MonitorThreads c;
     MonitorHandles := MonitorHandles c;
     MonitorWorkingDir := MonitorWorkingDir c;
     MonitorConnections := MonitorConnections c;
     ExcludedProcesses := excluded;
     IncludedProcesses := included;
     ExcludedUsers := users;
     ProcessPriorityThreshold := ProcessPriorityThreshold c;
     MaxProcessesToMonitor := MaxProcessesToMonitor c;
     ProcessAgeThreshold := ProcessAgeThreshold c |}.

Module spec.

(** "ratio in (0, 1]": a number above zero and not above one. *)
Definition inUnitInterval (x : spec_float) : bool :=
  f64.lt f64.zero x && f64.le x f64.one.

(** The invariant of a snapshot: every entry is stored under its own
    PID and satisfies the filter. *)
Definition snapshot_ok (windows : bool) (cfg : MonitoringConfig)
           (m : gmap Z ProcessInfo) : Prop :=
  forall pid info, m !! pid = Some info ->
    PID info = pid /\ ShouldMonitorProcess windows cfg info = true.

(** "case-insensitively glob-matches" *)
Definition globMatchesFold (windows : bool) (name entry : string) : Prop :=
  fst (filepath.Match windows (strings.ToLower entry) (strings.ToLower name)) = true.

(** "case-insensitively equals" *)
Definition equalsFold (a b : string) : Prop :=
  strings.ToLower a = strings.ToLower b.

Section Rules.
Variable windows : bool.
Variable cfg : MonitoringConfig.
Variable info : ProcessInfo.

(** Rule 1: the name matches an entry of the excluded-process list. *)
Definition rule1 : Prop :=
  exists entry, entry ∈ ExcludedProcesses cfg /\ globMatchesFold windows (Name info) entry.

(** Rule 2: the included-process list is non-empty and the name matches
    none of its entries. *)
Definition rule2 : Prop :=
  IncludedProcesses cfg <> [] /\
  forall entry, entry ∈ IncludedProcesses cfg -> ~ globMatchesFold windows (Name info) entry.

(** Rule 3: the user name equals an entry of the excluded-user list. *)
Definition rule3 : Prop :=
  exists entry, entry ∈ ExcludedUsers cfg /\ equalsFold (Username info) entry.
End Rules.

(** The four classes of the snapshot partition. *)
Inductive PidClass :=
| ClassCreated
| ClassTerminated
| ClassUnchangedNoMod
| ClassUnchangedModified.

Definition eventAbout (ty : EventType) (pid : Z) (e : ProcessEvent) : Prop :=
  EvType e = ty /\ PID (EvProcess e) = pid.

(** The class of a PID, read off the events of one diff cycle: a PID is
    created, terminated or modified when an event of that type was sent
    for it, and unchanged without modification when it is in both
    snapshots and no event mentions it. *)
Definition classified (evs : list ProcessEvent) (prev cur : gmap Z ProcessInfo)
           (pid : Z) (cls : PidClass) : Prop :=
  match cls with
  | ClassCreated => exists e, e ∈ evs /\ eventAbout ProcessCreated pid e
  | ClassTerminated => exists e, e ∈ evs /\ eventAbout ProcessTerminated pid e
  | ClassUnchangedModified => exists e, e ∈ evs /\ eventAbout ProcessModified pid e
  | ClassUnchangedNoMod =>
      is_Some (prev !! pid) /\ is_Some (cur !! pid)
      /\ forall e, e ∈ evs -> PID (EvProcess e) <> pid
  end.

Section Diff.
Variable windows : bool.
Variable cfg : MonitoringConfig.

(** What an event of a diff cycle can be. *)
Inductive diffEvent (prev cur : gmap Z ProcessInfo) (e : ProcessEvent) : Prop :=
| DiffCreated pid info ts :
    cur !! pid = Some info -> prev !! pid = None ->
    ShouldMonitorProcess windows cfg info = true ->
    e = plainEvent ProcessCreated ts info -> diffEvent prev cur e
| DiffModified pid oldInfo newInfo ts modif :
    prev !! pid = Some oldInfo -> cur !! pid = Some newInfo ->
    ShouldMonitorProcess windows cfg newInfo = true ->
    shouldMonitorProcess windows cfg newInfo = true ->
    modif ∈ fieldChecks cfg ts oldInfo newInfo ->
    e = modifiedEvent newInfo modif -> diffEvent prev cur e
| DiffTerminated pid info ts :
    prev !! pid = Some info -> cur !! pid = None ->
    ShouldMonitorProcess windows cfg info = true ->
    e = plainEvent ProcessTerminated ts info -> diffEvent prev cur e.

(** The two loop bodies of [Monitor] and its compare-and-replace section
    with the calls of [pc.filter.ShouldMonitorProcess] left out: a diff
    layer that "does not re-filter". *)
Definition checkNewUnfiltered (currentProcesses : gmap Z ProcessInfo)
           (entry : Z * ProcessInfo) : M unit :=
  let '(pid, newInfo) := entry in
  match currentProcesses !! pid with
  | Some oldInfo =>
      bind (detectModifications windows cfg oldInfo newInfo) (fun mods =>
      if (0 <? length mods)%nat
      then forEach mods (fun modif => send (modifiedEvent newInfo modif))
      else ret tt)
  | None =>
      bind timeNow (fun timestamp =>
      send (plainEvent ProcessCreated timestamp newInfo))
  end.

Definition checkOldUnfiltered (newSnapshot : gmap Z ProcessInfo)
           (entry : Z * ProcessInfo) : M unit :=
  let '(pid, info) := entry in
  match newSnapshot !! pid with
  | Some _ => ret tt
  | None =>
      bind timeNow (fun timestamp =>
      send (plainEvent ProcessTerminated timestamp info))
  end.

Definition diffUnfiltered (currentProcesses newSnapshot : gmap Z ProcessInfo)
           (rangeNew rangeOld : list (Z * ProcessInfo)) : M (gmap Z ProcessInfo) :=
  bind (forEach rangeNew (checkNewUnfiltered currentProcesses)) (fun _ =>
  bind (forEach rangeOld (checkOldUnfiltered newSnapshot)) (fun _ =>
  ret newSnapshot)).
End Diff.

End spec.
Import spec.

(* ===================================================================== *)
(** * Concrete configurations, records and snapshots                     *)
(* ===================================================================== *)
Module Examples.

Definition mkInfo (pid : Z) (name user cmd : string) (mem threads : Z) : ProcessInfo :=
  {| PID := pid; Name := name; CreateTime := 0; ParentPID := 0;
     Executable := ""; CommandLine := cmd; Username := user;
     CPUPercent := float_zero; MemoryUsage := mem; NumThreads := 0;
     Cwd := ""; ThreadCount := threads; HandleCount := 0;
     MemoryRegions := []; Privileges := []; NetworkConns := [] |}.

Definition f_nan : float64 := f64.mk S754_nan eq_refl.

(** The default configuration with a thread threshold of zero. *)
Definition cfgZeroThreads : MonitoringConfig :=
  withThresholds DefaultConfig f_0_1 0 10.

(** The default configuration with a NaN memory threshold (in a
    configuration file: [memoryChangeThreshold: .nan]). *)
Definition cfgNaN : MonitoringConfig :=
  withThresholds DefaultConfig f_nan 2 10.

(** The default configuration with the inclusion pattern [n*]. *)
Definition cfgIncludeGlob : MonitoringConfig :=
  withFilter DefaultConfig ["svchost.exe"; "RuntimeBroker.exe"] ["n*"] ["root"].

(** The exclusion list of the default configuration, extended by one
    pattern. *)
Definition excludeMore : list string := ["svchost.exe"; "RuntimeBroker.exe"; "lsass*"].

Definition procA : ProcessInfo := mkInfo 100 "a.exe" "alice" "a.exe --serve" 4096 5.
Definition procA0 : ProcessInfo := mkInfo 100 "a.exe" "alice" "a.exe --serve" 0 5.
Definition procA6 : ProcessInfo := mkInfo 100 "a.exe" "alice" "a.exe --serve" 4096 6.
Definition procA7 : ProcessInfo := mkInfo 100 "a.exe" "alice" "a.exe --serve" 4096 7.

Definition nginxOld : ProcessInfo := mkInfo 7 "nginx" "www" "nginx -c a.conf" 0 5.
Definition nginxNew : ProcessInfo := mkInfo 7 "nginx" "www" "nginx -c b.conf" 5 7.

Definition snapA : gmap Z ProcessInfo := {[ 100 := procA ]}.
Definition rangeA : list (Z * ProcessInfo) := [(100, procA)].
Definition snapOld : gmap Z ProcessInfo := {[ 7 := nginxOld ]}.
Definition snapNew : gmap Z ProcessInfo := {[ 7 := nginxNew ]}.

(** A process handle some of whose accessors fail. *)
Definition handle (pid : Z) (name user : string) : process.Process :=
  {| process.Pid := pid;
     process.Name := (name, None);
     process.CreateTime := (0, Some (Errorf "access denied"));
     process.Ppid := (1, None);
     process.Exe := ("", Some (Errorf "access denied"));
     process.Cmdline := (name, None);
     process.Username := (user, None);
     process.CPUPercent := (float_zero, None);
     process.NumThreads := (4, None);
     process.Cwd := ("/", None);
     process.MemoryInfo := (None, Some (Errorf "access denied")) |}.

Definition procs2 : list process.Process :=
  [handle 10 "nginx" "www"; handle 11 "svchost.exe" "SYSTEM"].

End Examples.
Import Examples.

(* ===================================================================== *)
(** * Further parts of the program                                       *)
(* ===================================================================== *)

(** ** [NewProcessCollector]

    The retained snapshot of a new collector is the empty map;
    [pc.filter] is [NewProcessFilter(config)], which holds the same
    configuration as [pc.config]. *)
Definition NewProcessCollector : gmap Z ProcessInfo := ∅.

(** The iteration orders that a run of [Monitor] is given are orders of
    the maps they range over: at each tick whose enumeration succeeds,
    [rangeNew] is an order of the new snapshot and [rangeOld] one of
    the retained snapshot. *)
Fixpoint ranges_ok (windows : bool) (cfg : MonitoringConfig)
         (currentProcesses : gmap Z ProcessInfo) (sel : list Select) : Prop :=
  match sel with
  | [] => True
  | CtxDone :: _ => True
  | TickerC enum rangeNew rangeOld :: rest =>
      match getRunningProcesses windows cfg enum with
      | (Some newSnapshot, None) =>
          range_of newSnapshot rangeNew /\ range_of currentProcesses rangeOld
          /\ ranges_ok windows cfg newSnapshot rest
      | _ => ranges_ok windows cfg currentProcesses rest
      end
  end.

(** The events of a loop that reports every entry of [l] with type [ty]:
    one event per entry, in the order of [l], the clock being read once
    for each. *)
Fixpoint stamped (ty : EventType) (t : Time) (l : list (Z * ProcessInfo))
  : list ProcessEvent :=
  match l with
  | [] => []
  | (_, info) :: rest => plainEvent ty t info :: stamped ty (t + 1) rest
  end.


(** ** Literal patterns

    A pattern without any of the bytes that [filepath.Match] treats
    specially ([*], [?], [[] and the backslash, which escapes on Unix
    and separates on Windows). *)
Definition isMeta (c : ascii) : bool :=
  Ascii.eqb c "*" || Ascii.eqb c "?" || Ascii.eqb c "[" || Ascii.eqb c "\".

Fixpoint literal (s : string) : bool :=
  match s with
  | EmptyString => true
  | String c s' => negb (isMeta c) && literal s'
  end.

(** What is left of [s] after the prefix [p], if [s] starts with [p]. *)
Fixpoint stripPrefix (p s : string) : option string :=
  match p with
  | EmptyString => Some s
  | String c p' =>
      match s with
      | String d s' => if Ascii.eqb c d then stripPrefix p' s' else None
      | EmptyString => None
      end
  end.

(** All pairs of bytes. *)
Definition allBytePairs (P : ascii -> ascii -> bool) : bool :=
  forallb (fun x => forallb (fun y => P (ascii_of_nat x) (ascii_of_nat y)) (seq 0 256))
          (seq 0 256).

(** ** ASCII text

    The strings on which the models of [strings.ToLower],
    [strings.EqualFold] and [filepath.Match] are the Go routines. *)
Fixpoint isASCII (s : string) : bool :=
  match s with
  | EmptyString => true
  | String c s' => (nat_of_ascii c <? 128)%nat && isASCII s'
  end.

(** ** [LoadConfig]

    The two library calls are inputs: [ReadFile path] is the outcome of
    [os.ReadFile(path)], and [Unmarshal file config] the outcome of
    [yaml.Unmarshal(file, config)], which decodes into the
    configuration it is given: the configuration as the call leaves it,
    and the error. *)
Section LoadConfig.
Variable ReadFile : string -> string * option goerror.
Variable Unmarshal : string -> MonitoringConfig -> MonitoringConfig * option goerror.

(** [fmt.Errorf(prefix + "%w", err)] *)
Definition wrapError (prefix : string) (err : goerror) : goerror :=
  match err with
  | Errorf msg => Errorf (prefix +:+ msg)
  end.

Definition LoadConfig (path : string) : option MonitoringConfig * option goerror :=
  match ReadFile path with
  | (_, Some err) => (None, Some (wrapError "error reading config file: " err))
  | (configFile, None) =>
      let config := DefaultConfig in
      match Unmarshal configFile config with
      | (_, Some err) => (None, Some (wrapError "error parsing config file: " err))
      | (config, None) =>
          match Validate config with
          | Some err => (None, Some (wrapError "invalid configuration: " err))
          | None => (Some config, None)
          end
      end
  end.
End LoadConfig.

(** ** The filter rules in the words of the specification

    "Case-insensitively equals" and "case-insensitively glob-matches",
    stated without the routines the program calls.  Two bytes are the
    same letter when they are equal or are the two cases of one ASCII
    letter.  A pattern is made of ordinary bytes, of [?], which stands
    for one byte other than the separator, and of [*], which stands
    for any run of such bytes; patterns with a character class or an
    escape are not given a meaning here. *)
Module rules.

Definition caseVariant (a b : ascii) : Prop :=
  (65 <= nat_of_ascii a <= 90)%nat /\ nat_of_ascii b = (nat_of_ascii a + 32)%nat.

Definition sameLetter (a b : ascii) : Prop :=
  a = b \/ caseVariant a b \/ caseVariant b a.

Inductive EqualsFold : string -> string -> Prop :=
| EqualsFold_nil : EqualsFold EmptyString EmptyString
| EqualsFold_cons a b s t :
    sameLetter a b -> EqualsFold s t -> EqualsFold (String a s) (String b t).

Definition ordinary (c : ascii) : Prop :=
  c <> "*"%char /\ c <> "?"%char /\ c <> "["%char /\ c <> "\"%char.

Inductive GlobFold (sep : ascii) : string -> string -> Prop :=
| GlobFold_nil : GlobFold sep EmptyString EmptyString
| GlobFold_byte a pattern c name :
    ordinary a -> sameLetter a c -> GlobFold sep pattern name ->
    GlobFold sep (String a pattern) (String c name)
| GlobFold_any pattern c name :
    c <> sep -> GlobFold sep pattern name ->
    GlobFold sep (String "?" pattern) (String c name)
| GlobFold_star_end pattern name :
    GlobFold sep pattern name -> GlobFold sep (String "*" pattern) name
| GlobFold_star_more pattern c name :
    c <> sep -> GlobFold sep (String "*" pattern) name ->
    GlobFold sep (String "*" pattern) (String c name).

Section Rules.
Variable sep : ascii.
Variable cfg : MonitoringConfig.
Variable info : ProcessInfo.

(** Rule 1: the name matches an entry of the excluded-process list. *)
Definition excludedName : Prop :=
  exists entry, entry ∈ ExcludedProcesses cfg /\ GlobFold sep entry (Name info).

(** Rule 2: the included-process list is not empty and the name matches
    none of its entries. *)
Definition notIncluded : Prop :=
  IncludedProcesses cfg <> [] /\
  forall entry, entry ∈ IncludedProcesses cfg -> ~ GlobFold sep entry (Name info).

(** Rule 3: the user name equals an entry of the excluded-user list. *)
Definition excludedUser : Prop :=
  exists entry, entry ∈ ExcludedUsers cfg /\ EqualsFold (Username info) entry.

(** Rule 4: otherwise accept. *)
Definition accepts : Prop := ~ excludedName /\ ~ notIncluded /\ ~ excludedUser.
End Rules.

End rules.

(** Further concrete data. *)
Module MoreExamples.

(** The record that [getProcessInfo] builds for [handle 10 "nginx" "www"]. *)
Definition info10 : ProcessInfo := fst (getProcessInfo (handle 10 "nginx" "www")).

(** One successful tick on [procs2], then cancellation. *)
Definition oneTick : list Select :=
  [TickerC (procs2, None) [(10, info10)] []; CtxDone].





(** [info] with another handle count. *)
Definition withHandleCount (info : ProcessInfo) (handles : Z) : ProcessInfo :=
  {| PID := PID info; Name := Name info; CreateTime := CreateTime info;
     ParentPID := ParentPID info; Executable := Executable info;
     CommandLine := CommandLine info; Username := Username info;
     CPUPercent := CPUPercent info; MemoryUsage := MemoryUsage info;
     NumThreads := NumThreads info; Cwd := Cwd info;
     ThreadCount := ThreadCount info; HandleCount := handles;
     MemoryRegions := MemoryRegions info; Privileges := Privileges info;
     NetworkConns := NetworkConns info |}.

Definition procH5 : ProcessInfo := withHandleCount procA 5.
Definition procH20 : ProcessInfo := withHandleCount procA 20.

(** The handle [p] when the process has another number of threads. *)
Definition grown (p : process.Process) (threads : Z) : process.Process :=
  {| process.Pid := process.Pid p;
     process.Name := process.Name p;
     process.CreateTime := process.CreateTime p;
     process.Ppid := process.Ppid p;
     process.Exe := process.Exe p;
     process.Cmdline := process.Cmdline p;
     process.Username := process.Username p;
     process.CPUPercent := process.CPUPercent p;
     process.NumThreads := (threads, None);
     process.Cwd := process.Cwd p;
     process.MemoryInfo := process.MemoryInfo p |}.

Definition info10grown : ProcessInfo :=
  fst (getProcessInfo (grown (handle 10 "nginx" "www") 6)).

(** Two successful ticks: [nginx] appears with 4 threads, then has 6. *)
Definition growTicks : list Select :=
  [TickerC (procs2, None) [(10, info10)] [];
   TickerC ([grown (handle 10 "nginx" "www") 6], None)
     [(10, info10grown)] [(10, info10)]].

(** The default configuration with the inclusion pattern [*.exe], and
    a process it is meant to include. *)
Definition cfgIncludeExe : MonitoringConfig :=
  withFilter DefaultConfig ["svchost.exe"; "RuntimeBroker.exe"] ["*.exe"] ["root"].

Definition notepad : ProcessInfo :=
  mkInfo 42 "Notepad.EXE" "alice" "notepad.exe" 4096 1.

End MoreExamples.
Import MoreExamples.

(* ===================================================================== *)
(** * Facts about filepath.Match                                     *)
(* ===================================================================== *)

Section MatchFuel.
Variable windows : bool.

Lemma getEsc_shorter (chunk : string) (r : ascii) (nchunk : string) :
  filepath.getEsc windows chunk = (r, nchunk, None) ->
  (String.length nchunk < String.length chunk)%nat.
Proof.
  unfold filepath.getEsc. destruct chunk as [| c0 tl0]; [discriminate|].
  destruct (Ascii.eqb c0 "-" || Ascii.eqb c0 "]"); [discriminate|].
  destruct (Ascii.eqb c0 "\" && negb windows).
  - destruct tl0 as [| r' n']; [discriminate|].
    destruct n'; [discriminate|]. intros [= _ <-]. cbn. lia.
  - destruct tl0; [discriminate|]. intros [= _ <-]. cbn. lia.
Qed.

(** More turns than the chunk has bytes are never used. *)
Lemma classRanges_fuel (fuel1 fuel2 : nat) (r : ascii) (chunk : string)
      (mtch : bool) (nrange : nat) :
  (String.length chunk < fuel1)%nat -> (String.length chunk < fuel2)%nat ->
  filepath.classRanges windows fuel1 r chunk mtch nrange
  = filepath.classRanges windows fuel2 r chunk mtch nrange.
Proof.
  revert fuel2 chunk mtch nrange.
  induction fuel1 as [| fuel1 IH]; intros fuel2 chunk mtch nrange H1 H2; [lia|].
  destruct fuel2 as [| fuel2]; [lia|].
  cbn [filepath.classRanges].
  assert (Hranges :
    match filepath.getEsc windows chunk with
    | (_, _, Some err) => inr err
    | (lo, chunk1, None) =>
        match chunk1 with
        | EmptyString => inr filepath.ErrBadPattern
        | String c1 tl1 =>
            if Ascii.eqb c1 "-" then
              match filepath.getEsc windows tl1 with
              | (_, _, Some err) => inr err
              | (hi, chunk2, None) =>
                  filepath.classRanges windows fuel1 r chunk2
                    (if filepath.byte_le lo r && filepath.byte_le r hi then true else mtch)
                    (S nrange)
              end
            else
              filepath.classRanges windows fuel1 r chunk1
                (if filepath.byte_le lo r && filepath.byte_le r lo then true else mtch)
                (S nrange)
        end
    end =
    match filepath.getEsc windows chunk with
    | (_, _, Some err) => inr err
    | (lo, chunk1, None) =>
        match chunk1 with
        | EmptyString => inr filepath.ErrBadPattern
        | String c1 tl1 =>
            if Ascii.eqb c1 "-" then
              match filepath.getEsc windows tl1 with
              | (_, _, Some err) => inr err
              | (hi, chunk2, None) =>
                  filepath.classRanges windows fuel2 r chunk2
                    (if filepath.byte_le lo r && filepath.byte_le r hi then true else mtch)
                    (S nrange)
              end
            else
              filepath.classRanges windows fuel2 r chunk1
                (if filepath.byte_le lo r && filepath.byte_le r lo then true else mtch)
                (S nrange)
        end
    end).
  { destruct (filepath.getEsc windows chunk) as [[lo chunk1] [err|]] eqn:He1; [reflexivity|].
    apply getEsc_shorter in He1.
    destruct chunk1 as [| c1 tl1]; [reflexivity|].
    destruct (Ascii.eqb c1 "-").
    - destruct (filepath.getEsc windows tl1) as [[hi chunk2] [err|]] eqn:He2; [reflexivity|].
      apply getEsc_shorter in He2. cbn [String.length] in He1.
      apply IH; lia.
    - apply IH; cbn [String.length] in *; lia. }
  rewrite Hranges. reflexivity.
Qed.

Lemma classRanges_shorter (fuel : nat) (r : ascii) (chunk : string)
      (mtch : bool) (nrange : nat) (rest : string) (res : bool) :
  filepath.classRanges windows fuel r chunk mtch nrange = inl (rest, res) ->
  (String.length rest < String.length chunk)%nat.
Proof.
  revert chunk mtch nrange.
  induction fuel as [| fuel IH]; intros chunk mtch nrange H; [discriminate|].
  cbn [filepath.classRanges] in H.
  assert (Hranges :
    match filepath.getEsc windows chunk with
    | (_, _, Some err) => inr err
    | (lo, chunk1, None) =>
        match chunk1 with
        | EmptyString => inr filepath.ErrBadPattern
        | String c1 tl1 =>
            if Ascii.eqb c1 "-" then
              match filepath.getEsc windows tl1 with
              | (_, _, Some err) => inr err
              | (hi, chunk2, None) =>
                  filepath.classRanges windows fuel r chunk2
                    (if filepath.byte_le lo r && filepath.byte_le r hi then true else mtch)
                    (S nrange)
              end
            else
              filepath.classRanges windows fuel r chunk1
                (if filepath.byte_le lo r && filepath.byte_le r lo then true else mtch)
                (S nrange)
        end
    end = inl (rest, res) -> (String.length rest < String.length chunk)%nat).
  { destruct (filepath.getEsc windows chunk) as [[lo chunk1] [err|]] eqn:He1; [discriminate|].
    apply getEsc_shorter in He1.
    destruct chunk1 as [| c1 tl1]; [discriminate|].
    destruct (Ascii.eqb c1 "-").
    - destruct (filepath.getEsc windows tl1) as [[hi chunk2] [err|]] eqn:He2; [discriminate|].
      apply getEsc_shorter in He2. cbn [String.length] in He1.
      intros Hrec. apply IH in Hrec. lia.
    - intros Hrec. apply IH in Hrec. cbn [String.length] in *. lia. }
  destruct chunk as [| c tl]; [now apply Hranges|].
  destruct (Ascii.eqb c "]" && (0 <? nrange)%nat).
  - injection H as <- _. cbn. lia.
  - now apply Hranges.
Qed.

Lemma matchChunkLoop_fuel (fuel1 fuel2 : nat) (chunk s : string) (failed : bool) :
  (String.length chunk < fuel1)%nat -> (String.length chunk < fuel2)%nat ->
  filepath.matchChunkLoop windows fuel1 chunk s failed
  = filepath.matchChunkLoop windows fuel2 chunk s failed.
Proof.
  revert fuel2 chunk s failed.
  induction fuel1 as [| fuel1 IH]; intros fuel2 chunk s failed H1 H2; [lia|].
  destruct fuel2 as [| fuel2]; [lia|].
  cbn [filepath.matchChunkLoop].
  destruct chunk as [| c0 ctl]; [reflexivity|]. cbn [String.length] in H1, H2.
  destruct (Ascii.eqb c0 "[").
  - assert (Hcls : forall r chunk' mtch nrange fld s0,
               (String.length chunk' <= String.length ctl)%nat ->
               match filepath.classRanges windows (S (String.length chunk')) r chunk' mtch nrange with
               | inl (chunk1, res) =>
                   filepath.matchChunkLoop windows fuel1 chunk1 s0
                     (if Bool.eqb res fld then true
                      else if negb failed && filepath.is_empty s then true else failed)
               | inr err => (EmptyString, false, Some err)
               end =
               match filepath.classRanges windows (S (String.length chunk')) r chunk' mtch nrange with
               | inl (chunk1, res) =>
                   filepath.matchChunkLoop windows fuel2 chunk1 s0
                     (if Bool.eqb res fld then true
                      else if negb failed && filepath.is_empty s then true else failed)
               | inr err => (EmptyString, false, Some err)
               end).
    { intros r chunk' mtch nrange fld s0 Hlen.
      destruct (filepath.classRanges windows (S (String.length chunk')) r chunk' mtch nrange)
        as [[chunk1 res] | err] eqn:Hc; [|reflexivity].
      apply classRanges_shorter in Hc. apply IH; lia. }
    destruct (if negb failed && filepath.is_empty s then true else failed) eqn:Hf.
    + destruct ctl as [| c1 tl]; [apply Hcls; lia|].
      destruct (Ascii.eqb c1 "^"); apply Hcls; cbn [String.length]; lia.
    + destruct s as [| r s']; (destruct ctl as [| c1 tl]; [apply Hcls; lia|]);
        destruct (Ascii.eqb c1 "^"); apply Hcls; cbn [String.length]; lia.
  - destruct (Ascii.eqb c0 "?").
    + destruct (if negb failed && filepath.is_empty s then true else failed);
        [apply IH; lia | destruct s; apply IH; lia].
    + destruct (Ascii.eqb c0 "\" && negb windows).
      * destruct ctl as [| c1 ctl1]; [reflexivity|]. cbn [String.length] in H1, H2.
        destruct (if negb failed && filepath.is_empty s then true else failed);
          [apply IH; lia | destruct s; apply IH; lia].
      * destruct (if negb failed && filepath.is_empty s then true else failed);
          [apply IH; lia | destruct s; apply IH; lia].
Qed.

Lemma drop_bytes_length (n : nat) (s : string) :
  String.length (filepath.drop_bytes n s) = (String.length s - n)%nat.
Proof.
  revert s. induction n as [| n IH]; intros s; [cbn; lia|].
  destruct s as [| c s']; [reflexivity|]. cbn. apply IH.
Qed.

Lemma scanStars_length (pattern : string) (star : bool) :
  (String.length (snd (filepath.scanStars pattern star)) <= String.length pattern)%nat.
Proof.
  revert star. induction pattern as [| c p IH]; intros star; [cbn; lia|].
  cbn [filepath.scanStars]. destruct (Ascii.eqb c "*").
  - specialize (IH true). cbn [String.length]. lia.
  - cbn. lia.
Qed.

Lemma scanStars_head (pattern : string) (star : bool) :
  match snd (filepath.scanStars pattern star) with
  | String c _ => Ascii.eqb c "*" = false
  | EmptyString => True
  end.
Proof.
  revert star. induction pattern as [| c p IH]; intros star; [exact I|].
  cbn [filepath.scanStars]. destruct (Ascii.eqb c "*") eqn:Hc; [apply IH | exact Hc].
Qed.

Lemma scanIndex_pos (inrange : bool) (c : ascii) (p : string) :
  Ascii.eqb c "*" = false ->
  (1 <= filepath.scanIndex windows inrange (String c p))%nat.
Proof.
  intros Hc. cbn [filepath.scanIndex]. rewrite Hc.
  destruct (Ascii.eqb c "\"); [destruct windows; [lia | destruct p; lia]|].
  destruct (Ascii.eqb c "["); [lia|]. destruct (Ascii.eqb c "]"); lia.
Qed.

(** [scanChunk] consumes at least one byte of a non-empty pattern. *)
Lemma scanChunk_shorter (pattern : string) :
  pattern <> EmptyString ->
  (String.length (snd (filepath.scanChunk windows pattern)) < String.length pattern)%nat.
Proof.
  intros Hne. unfold filepath.scanChunk.
  pose proof (scanStars_length pattern false) as Hlen.
  pose proof (scanStars_head pattern false) as Hhead.
  destruct (filepath.scanStars pattern false) as [star p'] eqn:Hs. cbn [snd] in *.
  rewrite drop_bytes_length.
  destruct p' as [| c p''].
  - destruct pattern; [congruence | cbn; lia].
  - pose proof (scanIndex_pos false c p'' Hhead). cbn [String.length] in *. lia.
Qed.

(** The result of the [Pattern:] loop does not depend on the number of
    turns allowed, once it exceeds the length of the pattern. *)
Lemma MatchLoop_fuel (fuel1 fuel2 : nat) (pattern name : string) :
  (String.length pattern < fuel1)%nat -> (String.length pattern < fuel2)%nat ->
  filepath.MatchLoop windows fuel1 pattern name
  = filepath.MatchLoop windows fuel2 pattern name.
Proof.
  revert fuel2 pattern name.
  induction fuel1 as [| fuel1 IH]; intros fuel2 pattern name H1 H2; [lia|].
  destruct fuel2 as [| fuel2]; [lia|].
  cbn [filepath.MatchLoop].
  destruct pattern as [| c p] eqn:Hp; [reflexivity|]. rewrite <- Hp in *.
  assert (Hne : pattern <> EmptyString) by (subst; discriminate).
  pose proof (scanChunk_shorter pattern Hne) as Hsh.
  destruct (filepath.scanChunk windows pattern) as [[star chunk] pattern'].
  cbn [snd] in Hsh.
  destruct (star && filepath.is_empty chunk); [reflexivity|].
  destruct (filepath.matchChunk windows chunk name) as [[t ok] err].
  destruct (ok && (filepath.is_empty t || negb (filepath.is_empty pattern')));
    [apply IH; lia|].
  destruct err; [reflexivity|].
  destruct star; [|reflexivity].
  destruct (filepath.starLoop windows chunk pattern' name); [apply IH; lia | reflexivity..].
Qed.

(** Whenever [Match] reports an error, it reports no match. *)
Lemma MatchLoop_error (fuel : nat) (pattern name : string) (e : filepath.error) :
  snd (filepath.MatchLoop windows fuel pattern name) = Some e ->
  fst (filepath.MatchLoop windows fuel pattern name) = false.
Proof.
  revert pattern name.
  induction fuel as [| fuel IH]; intros pattern name; [reflexivity|].
  cbn [filepath.MatchLoop].
  destruct pattern as [| c p] eqn:Hp; [discriminate|]. rewrite <- Hp in *.
  destruct (filepath.scanChunk windows pattern) as [[star chunk] pattern'].
  destruct (star && filepath.is_empty chunk); [discriminate|].
  destruct (filepath.matchChunk windows chunk name) as [[t ok] err].
  destruct (ok && (filepath.is_empty t || negb (filepath.is_empty pattern')));
    [apply IH|].
  destruct err; [reflexivity|].
  destruct star; [|reflexivity].
  destruct (filepath.starLoop windows chunk pattern' name);
    [apply IH | reflexivity..].
Qed.

Lemma Match_error (pattern name : string) (e : filepath.error) :
  snd (filepath.Match windows pattern name) = Some e ->
  fst (filepath.Match windows pattern name) = false.
Proof. apply MatchLoop_error. Qed.

(** The first loop of the collector's predicate, which also looks at the
    error, excludes what the filter's first loop excludes. *)
Lemma excludedByPattern_anyMatch (excluded : list string) (processName : string) :
  excludedByPattern windows excluded processName = anyMatch windows excluded processName.
Proof.
  induction excluded as [| e rest IH]; [reflexivity|].
  cbn [excludedByPattern anyMatch].
  pose proof (Match_error (strings.ToLower e) processName) as Herr.
  destruct (filepath.Match windows (strings.ToLower e) processName) as [[|] [err|]];
    cbn [fst snd] in *; try reflexivity; try exact IH.
  specialize (Herr err eq_refl). discriminate Herr.
Qed.
End MatchFuel.

(* ===================================================================== *)
(** * Facts about binary64 arithmetic                                    *)
(* ===================================================================== *)

Abbreviation fexp64 := (fexp f64.prec f64.emax).

(** ** Digits, shifts and rounding *)

Lemma digits2_pos_bounds (p : positive) :
  2 ^ (Z.pos (digits2_pos p) - 1) <= Z.pos p < 2 ^ Z.pos (digits2_pos p).
Proof.
  induction p as [p IH | p IH |]; simpl digits2_pos.
  - rewrite Pos2Z.inj_succ.
    replace (Z.succ (Z.pos (digits2_pos p)) - 1) with (Z.succ (Z.pos (digits2_pos p) - 1)) by lia.
    rewrite !Z.pow_succ_r by lia. lia.
  - rewrite Pos2Z.inj_succ.
    replace (Z.succ (Z.pos (digits2_pos p)) - 1) with (Z.succ (Z.pos (digits2_pos p) - 1)) by lia.
    rewrite !Z.pow_succ_r by lia. lia.
  - simpl. lia.
Qed.

Lemma digits2_pos_unique (p : positive) (d : Z) :
  2 ^ (d - 1) <= Z.pos p < 2 ^ d -> Z.pos (digits2_pos p) = d.
Proof.
  intros [Hlo Hhi].
  pose proof (digits2_pos_bounds p) as [Hlo' Hhi'].
  assert (0 < d).
  { destruct (Z_lt_le_dec 0 d); [lia|].
    assert (2 ^ d <= 2 ^ 0) by (destruct (Z.eq_dec d 0); [subst; lia|rewrite Z.pow_neg_r by lia; simpl; lia]).
    simpl in *. lia. }
  destruct (Z_lt_le_dec (Z.pos (digits2_pos p)) d) as [Hlt|Hge].
  - assert (2 ^ Z.pos (digits2_pos p) <= 2 ^ (d - 1)) by (apply Z.pow_le_mono_r; lia). lia.
  - destruct (Z.eq_dec (Z.pos (digits2_pos p)) d); [assumption|].
    assert (2 ^ d <= 2 ^ (Z.pos (digits2_pos p) - 1)) by (apply Z.pow_le_mono_r; lia). lia.
Qed.

Lemma iter_xO_pow2 (n m : positive) :
  Z.pos (Pos.iter xO m n) = Z.pos m * 2 ^ Z.pos n.
Proof.
  revert m. induction n as [n IH | n IH |]; intros m; simpl Pos.iter.
  - rewrite Pos2Z.inj_xO, !IH.
    replace (Z.pos n~1) with (Z.pos n + Z.pos n + 1) by lia.
    rewrite !Z.pow_add_r by lia. lia.
  - rewrite !IH.
    replace (Z.pos n~0) with (Z.pos n + Z.pos n) by lia.
    rewrite !Z.pow_add_r by lia. lia.
  - lia.
Qed.

Lemma shr_1_m (mrs : shr_record) :
  0 <= shr_m mrs -> shr_m (shr_1 mrs) = shr_m mrs / 2.
Proof.
  destruct mrs as [m r s]. cbn [shr_m]. intros Hm.
  destruct m as [| [p | p |] | p]; cbn [shr_1 shr_m].
  - reflexivity.
  - apply Z.div_unique with 1; lia.
  - apply Z.div_unique with 0; lia.
  - reflexivity.
  - lia.
Qed.

Lemma iter_shr_1_m (n : positive) (mrs : shr_record) :
  0 <= shr_m mrs ->
  shr_m (SpecFloat.iter_pos shr_1 n mrs) = shr_m mrs / 2 ^ Z.pos n.
Proof.
  revert mrs. induction n as [n IH | n IH |]; intros mrs Hm; cbn [SpecFloat.iter_pos].
  - assert (H1 : 0 <= shr_m (shr_1 mrs)) by (rewrite shr_1_m by lia; apply Z.div_pos; lia).
    assert (H2 : 0 <= shr_m (SpecFloat.iter_pos shr_1 n (shr_1 mrs))) by (rewrite IH by lia; apply Z.div_pos; lia).
    rewrite IH, IH, shr_1_m by lia.
    rewrite !Z.div_div by lia.
    f_equal.
    replace (Z.pos n~1) with (1 + Z.pos n + Z.pos n) by lia.
    rewrite !Z.pow_add_r by lia. lia.
  - assert (H2 : 0 <= shr_m (SpecFloat.iter_pos shr_1 n mrs)) by (rewrite IH by lia; apply Z.div_pos; lia).
    rewrite IH, IH by lia.
    rewrite !Z.div_div by lia.
    f_equal.
    replace (Z.pos n~0) with (Z.pos n + Z.pos n) by lia.
    rewrite !Z.pow_add_r by lia. lia.
  - rewrite shr_1_m by lia. reflexivity.
Qed.


Lemma fexp64_eq (e : Z) : fexp64 e = Z.max (e - 53) (-1074).
Proof. reflexivity. Qed.

Lemma shr_record_of_loc_m (m : Z) (l : location) : shr_m (shr_record_of_loc m l) = m.
Proof. destruct l as [| []]; reflexivity. Qed.

Lemma shr_fexp_spec (m e : Z) (l : location) (mrs' : shr_record) (e' : Z) :
  0 <= m ->
  shr_fexp f64.prec f64.emax m e l = (mrs', e') ->
  let n := fexp64 (Zdigits2 m + e) - e in
  (0 < n -> shr_m mrs' = m / 2 ^ n /\ e' = e + n) /\
  (n <= 0 -> mrs' = shr_record_of_loc m l /\ e' = e).
Proof.
  intros Hm H n. unfold shr_fexp, shr in H. fold n in H.
  destruct n as [| p | p] eqn:Hn.
  - inversion H; subst. split; [lia|]. intros _. split; reflexivity.
  - inversion H; subst. split; [|lia]. intros _. split; [|reflexivity].
    rewrite iter_shr_1_m by (rewrite shr_record_of_loc_m; lia).
    now rewrite shr_record_of_loc_m.
  - inversion H; subst. split; [lia|]. intros _. split; reflexivity.
Qed.

Lemma round_nearest_even_bounds (m : Z) (l : location) :
  round_nearest_even m l = m \/ round_nearest_even m l = m + 1.
Proof.
  destruct l as [| []]; simpl; auto. destruct (Z.even m); auto.
Qed.

(** Rounding a positive mantissa that already sits at its target
    exponent changes nothing. *)
Lemma binary_round_aux_fixed (s : bool) (mz : positive) (E : Z) :
  fexp64 (Z.pos (digits2_pos mz) + E) = E -> E <= 971 ->
  binary_round_aux f64.prec f64.emax s (Z.pos mz) E loc_Exact = S754_finite s mz E.
Proof.
  intros Hfix HE. unfold binary_round_aux.
  destruct (shr_fexp f64.prec f64.emax (Z.pos mz) E loc_Exact) as [mrs1 e1] eqn:H1.
  apply shr_fexp_spec in H1; [|lia]. cbn [Zdigits2] in H1. rewrite Hfix in H1.
  destruct H1 as [_ H1]. destruct H1 as [Hm1 He1]; [lia|]. subst e1 mrs1.
  cbn [shr_record_of_loc loc_of_shr_record shr_m round_nearest_even].
  destruct (shr_fexp f64.prec f64.emax (Z.pos mz) E loc_Exact) as [mrs2 e2] eqn:H2.
  apply shr_fexp_spec in H2; [|lia]. cbn [Zdigits2] in H2. rewrite Hfix in H2.
  destruct H2 as [_ H2]. destruct H2 as [Hm2 He2]; [lia|]. subst e2 mrs2.
  cbn [shr_record_of_loc shr_m].
  replace (E <=? f64.emax - f64.prec) with true; [reflexivity|].
  symmetry. apply Z.leb_le. unfold f64.emax, f64.prec. lia.
Qed.

(** Left alignment, or none: the value is represented exactly. *)
Lemma binary_round_exact (s : bool) (M : positive) (e E : Z) :
  E = fexp64 (Z.pos (digits2_pos M) + e) ->
  E <= e -> E <= 971 ->
  binary_round f64.prec f64.emax s M e
  = S754_finite s (Z.to_pos (Z.pos M * 2 ^ (e - E))) E.
Proof.
  intros HE0 HEe HE. unfold binary_round, shl_align. rewrite <- HE0.
  destruct (E - e) as [| p | p] eqn:Hd; try lia.
  - assert (E = e) by lia. subst e.
    rewrite Z.sub_diag, Z.mul_1_r. cbn [Z.to_pos].
    apply binary_round_aux_fixed; [congruence | lia].
  - assert (Hmz : Z.pos (Pos.iter xO M p) = Z.pos M * 2 ^ (e - E)).
    { rewrite iter_xO_pow2. f_equal. f_equal. lia. }
    rewrite <- Hmz. cbn [Z.to_pos].
    apply binary_round_aux_fixed; [|lia].
    assert (Hdig : Z.pos (digits2_pos (Pos.iter xO M p)) = Z.pos (digits2_pos M) + (e - E)).
    { apply digits2_pos_unique. rewrite Hmz.
      pose proof (digits2_pos_bounds M) as [Hlo Hhi].
      replace (Z.pos (digits2_pos M) + (e - E) - 1) with ((Z.pos (digits2_pos M) - 1) + (e - E)) by lia.
      rewrite !Z.pow_add_r by lia.
      assert (0 < 2 ^ (e - E)) by (apply Z.pow_pos_nonneg; lia).
      split; nia. }
    rewrite Hdig. replace (Z.pos (digits2_pos M) + (e - E) + E) with (Z.pos (digits2_pos M) + e) by lia.
    congruence.
Qed.

(** Right shift in the normal range: the result is a normal number at
    the target exponent, or the next power of two. *)
Lemma binary_round_aux_shift (s : bool) (mx : positive) (ex : Z) (lx : location) (E : Z) :
  E = Z.pos (digits2_pos mx) + ex - 53 ->
  ex < E -> -1074 <= E -> E + 1 <= 971 ->
  exists m' e',
    binary_round_aux f64.prec f64.emax s (Z.pos mx) ex lx = S754_finite s m' e' /\
    ((e' = E /\ 2 ^ 52 <= Z.pos m' < 2 ^ 53) \/ (e' = E + 1 /\ Z.pos m' = 2 ^ 52)).
Proof.
  intros HE0 Hlt Hmin Hmax. unfold binary_round_aux.
  destruct (shr_fexp f64.prec f64.emax (Z.pos mx) ex lx) as [mrs1 e1] eqn:H1.
  apply shr_fexp_spec in H1; [|lia]. cbn [Zdigits2] in H1.
  rewrite fexp64_eq in H1.
  replace (Z.max (Z.pos (digits2_pos mx) + ex - 53) (-1074) - ex) with (E - ex) in H1 by lia.
  destruct H1 as [H1 _]. destruct H1 as [Hm1 He1]; [lia|].
  replace (ex + (E - ex)) with E in He1 by lia. subst e1.
  pose proof (digits2_pos_bounds mx) as [Hlo Hhi].
  assert (Hp : 0 < 2 ^ (E - ex)) by (apply Z.pow_pos_nonneg; lia).
  assert (Hb1 : 2 ^ 52 <= shr_m mrs1 < 2 ^ 53).
  { rewrite Hm1. split.
    - apply Z.div_le_lower_bound; [lia|].
      rewrite <- Z.pow_add_r by lia.
      replace (E - ex + 52) with (Z.pos (digits2_pos mx) - 1) by lia. lia.
    - apply Z.div_lt_upper_bound; [lia|].
      rewrite <- Z.pow_add_r by lia.
      replace (E - ex + 53) with (Z.pos (digits2_pos mx)) by lia. lia. }
  set (r := round_nearest_even (shr_m mrs1) (loc_of_shr_record mrs1)).
  assert (Hr : 2 ^ 52 <= r <= 2 ^ 53).
  { destruct (round_nearest_even_bounds (shr_m mrs1) (loc_of_shr_record mrs1)) as [Hq|Hq];
      fold r in Hq; lia. }
  destruct (shr_fexp f64.prec f64.emax r E loc_Exact) as [mrs2 e2] eqn:H2.
  apply shr_fexp_spec in H2; [|lia].
  destruct r as [| rp | rp] eqn:Hrp; try lia. cbn [Zdigits2] in H2.
  destruct (Z.eq_dec (Z.pos rp) (2 ^ 53)) as [Htop | Hntop].
  - (* the mantissa has overflowed to 2^53: one more shift *)
    assert (Hd : Z.pos (digits2_pos rp) = 54) by (apply digits2_pos_unique; rewrite Htop; simpl; lia).
    rewrite Hd, fexp64_eq in H2.
    replace (Z.max (54 + E - 53) (-1074) - E) with 1 in H2 by lia.
    destruct H2 as [H2 _]. destruct H2 as [Hm2 He2]; [lia|]. subst e2.
    rewrite Hm2, Htop. change (2 ^ 53 / 2 ^ 1) with (Z.pos 4503599627370496).
    replace (E + 1 <=? f64.emax - f64.prec) with true
      by (symmetry; apply Z.leb_le; unfold f64.emax, f64.prec; lia).
    eexists _, _. split; [reflexivity|]. right. split; [reflexivity|]. reflexivity.
  - assert (Hd : Z.pos (digits2_pos rp) = 53) by (apply digits2_pos_unique; simpl; lia).
    rewrite Hd, fexp64_eq in H2.
    replace (Z.max (53 + E - 53) (-1074) - E) with 0 in H2 by lia.
    destruct H2 as [_ H2]. destruct H2 as [Hm2 He2]; [lia|]. subst e2 mrs2.
    cbn [shr_record_of_loc shr_m].
    replace (E <=? f64.emax - f64.prec) with true
      by (symmetry; apply Z.leb_le; unfold f64.emax, f64.prec; lia).
    eexists _, _. split; [reflexivity|]. left. split; [reflexivity|]. lia.
Qed.

Lemma binary_round_shift (s : bool) (M : positive) (e E : Z) :
  E = Z.pos (digits2_pos M) + e - 53 ->
  e < E -> -1074 <= E -> E + 1 <= 971 ->
  exists m' e',
    binary_round f64.prec f64.emax s M e = S754_finite s m' e' /\
    ((e' = E /\ 2 ^ 52 <= Z.pos m' < 2 ^ 53) \/ (e' = E + 1 /\ Z.pos m' = 2 ^ 52)).
Proof.
  intros HE0 Hlt Hmin Hmax. unfold binary_round, shl_align.
  rewrite fexp64_eq.
  destruct (Z.max (Z.pos (digits2_pos M) + e - 53) (-1074) - e) as [| p | p] eqn:Hd; try lia.
  now apply binary_round_aux_shift.
Qed.

Lemma shl_align_fst (mx : positive) (ex ez : Z) :
  ez <= ex -> Z.pos (fst (shl_align mx ex ez)) = Z.pos mx * 2 ^ (ex - ez).
Proof.
  intros Hle. unfold shl_align.
  destruct (ez - ex) as [| p | p] eqn:Hd; try lia; cbn [fst].
  - replace (ex - ez) with 0 by lia. lia.
  - rewrite iter_xO_pow2. f_equal. f_equal. lia.
Qed.

(** [float64(n)] is a positive finite number for [0 < n < 2^64]. *)
Lemma of_Z_pos_finite (n : Z) :
  0 < n < 2 ^ 64 -> exists m e, f64.of_Z n = S754_finite false m e.
Proof.
  intros [Hpos Hlt]. destruct n as [| p | p]; try lia.
  unfold f64.of_Z, binary_normalize.
  pose proof (digits2_pos_bounds p) as [Hlo Hhi].
  assert (Hd : Z.pos (digits2_pos p) <= 64).
  { destruct (Z_le_gt_dec (Z.pos (digits2_pos p)) 64); [assumption|].
    assert (2 ^ 64 <= 2 ^ (Z.pos (digits2_pos p) - 1)) by (apply Z.pow_le_mono_r; lia). lia. }
  destruct (Z_le_gt_dec (Z.pos (digits2_pos p)) 53) as [Hs | Hl].
  - rewrite (binary_round_exact false p 0 (Z.pos (digits2_pos p) - 53)); [eauto | rewrite fexp64_eq; lia | lia | lia].
  - destruct (binary_round_shift false p 0 (Z.pos (digits2_pos p) - 53)) as (m' & e' & Heq & _); [lia..|].
    eauto.
Qed.

(** [int32(math.Abs(float64(d)))] is [|d|] whenever [|d|] is an [int32]. *)
Lemma absDiff_exact (d : Z) : - 2 ^ 31 < d < 2 ^ 31 -> absDiff d = Z.abs d.
Proof.
  intros Hd. unfold absDiff, f64.of_Z, binary_normalize.
  assert (Hgen : forall (s : bool) (p : positive), Z.pos p < 2 ^ 31 ->
            f64.to_int32 (f64.abs (binary_round f64.prec f64.emax s p 0)) = Z.pos p).
  { intros s p Hp.
    pose proof (digits2_pos_bounds p) as [Hlo Hhi].
    assert (Hdig : Z.pos (digits2_pos p) <= 31).
    { destruct (Z_le_gt_dec (Z.pos (digits2_pos p)) 31); [assumption|].
      assert (2 ^ 31 <= 2 ^ (Z.pos (digits2_pos p) - 1)) by (apply Z.pow_le_mono_r; lia). lia. }
    rewrite (binary_round_exact s p 0 (Z.pos (digits2_pos p) - 53)); [| rewrite fexp64_eq; lia | lia | lia].
    cbn [f64.abs SFabs]. unfold f64.to_int32, f64.trunc.
    set (k := 0 - (Z.pos (digits2_pos p) - 53)).
    assert (Hk : 0 < 2 ^ k) by (apply Z.pow_pos_nonneg; lia).
    destruct (0 <=? Z.pos (digits2_pos p) - 53) eqn:Hsign; [apply Z.leb_le in Hsign; lia|].
    rewrite Z2Pos.id by nia.
    replace (- (Z.pos (digits2_pos p) - 53)) with k by lia.
    rewrite Z.div_mul by lia.
    destruct (- 2 ^ 31 <=? Z.pos p) eqn:H1; [|apply Z.leb_gt in H1; lia].
    destruct (Z.pos p <? 2 ^ 31) eqn:H2; [reflexivity | apply Z.ltb_ge in H2; lia]. }
  destruct d as [| p | p].
  - reflexivity.
  - apply Hgen. lia.
  - rewrite Hgen by lia. reflexivity.
Qed.

(** A finite number divided by itself is exactly one. *)
Lemma div_self_finite (s : bool) (m : positive) (e : Z) :
  f64.div (S754_finite s m e) (S754_finite s m e) = f64.one.
Proof.
  unfold f64.div, SFdiv, SFdiv_core_binary. cbn [Zdigits2].
  replace (Z.pos (digits2_pos m) + e - (Z.pos (digits2_pos m) + e)) with 0 by lia.
  rewrite Z.sub_diag.
  change (Z.min (fexp f64.prec f64.emax 0) 0) with (-53).
  change (0 - -53) with 53.
  cbv iota beta.
  rewrite Z.shiftl_mul_pow2 by lia.
  assert (Hdiv : Z.div_eucl (Z.pos m * 2 ^ 53) (Z.pos m) = (2 ^ 53, 0)).
  { pose proof (Z.div_eucl_eq (Z.pos m * 2 ^ 53) (Z.pos m)) as Heq.
    pose proof (Z.mod_pos_bound (Z.pos m * 2 ^ 53) (Z.pos m)) as Hmod.
    unfold Z.modulo, Z.div in *.
    destruct (Z.div_eucl (Z.pos m * 2 ^ 53) (Z.pos m)) as [q r].
    specialize (Heq ltac:(lia)). specialize (Hmod ltac:(lia)).
    assert (q = 2 ^ 53) by nia. assert (r = 0) by nia. subst. reflexivity. }
  rewrite Hdiv.
  assert (Hloc : new_location (Z.pos m) 0 = loc_Exact).
  { unfold new_location, new_location_even, new_location_odd.
    destruct (Z.even (Z.pos m)); reflexivity. }
  rewrite Hloc. destruct s; vm_compute; reflexivity.
Qed.


(** ** The memory threshold *)

(** The thresholds that [Validate] lets through: NaN, or a canonical
    number in (0, 1]. *)
Lemma accepted_threshold_cases (x : float64) :
  f64.le (f64.val x) f64.zero = false ->
  f64.gt (f64.val x) f64.one = false ->
  f64.val x = S754_nan \/
  exists m e, f64.val x = S754_finite false m e /\
              -1074 <= e <= -52 /\ Z.pos m <= 2 ^ (- e).
Proof.
  destruct x as [v Hv]. cbn [f64.val].
  destruct v as [s | s | | s m e]; intros Hle Hgt.
  - discriminate Hle.
  - destruct s; [discriminate Hle | discriminate Hgt].
  - now left.
  - right. destruct s; [discriminate Hle|].
    exists m, e. split; [reflexivity|].
    cbn [valid_binary] in Hv. unfold bounded, canonical_mantissa in Hv.
    apply andb_prop in Hv. destruct Hv as [Hcan _].
    apply Z.eqb_eq in Hcan. rewrite fexp64_eq in Hcan.
    pose proof (digits2_pos_bounds m) as [Hlo Hhi].
    unfold f64.gt, f64.one, SFltb, SFcompare in Hgt.
    destruct (Z.compare_spec (-52) e) as [Heq | Hlt | Hgt'].
    + subst e. rewrite Pos.compare_cont_spec in Hgt. cbn [Pos.switch_Eq] in Hgt.
      destruct (Pos.compare_spec 4503599627370496 m) as [Hm | Hm | Hm]; try discriminate Hgt.
      * subst m. split; [clear; lia|]. clear. simpl. lia.
      * apply Pos2Z.pos_lt_pos in Hm. split; [clear; lia|].
        change (2 ^ (- -52)) with (Z.pos 4503599627370496). clear - Hm. lia.
    + discriminate Hgt.
    + split; [lia|].
      assert (2 ^ Z.pos (digits2_pos m) <= 2 ^ (- e)) by (apply Z.pow_le_mono_r; lia).
      lia.
Qed.

(** [1 + x] for [x] in (0, 1]: a finite number, not below one. *)
Lemma one_plus_threshold (m : positive) (e : Z) :
  -1074 <= e <= -52 -> Z.pos m <= 2 ^ (- e) ->
  exists m' e',
    f64.add f64.one (S754_finite false m e) = S754_finite false m' e' /\
    (-52 < e' \/ (e' = -52 /\ 2 ^ 52 <= Z.pos m')).
Proof.
  intros He Hm. unfold f64.add, f64.one, SFadd.
  rewrite Z.min_r by lia. cbn [cond_Zopp].
  rewrite !shl_align_fst by lia.
  rewrite Z.sub_diag, Z.mul_1_r.
  change (Z.pos 4503599627370496) with (2 ^ 52).
  rewrite <- Z.pow_add_r by lia.
  replace (52 + (-52 - e)) with (- e) by lia.
  assert (Hk : 2 ^ 52 <= 2 ^ (- e)) by (apply Z.pow_le_mono_r; lia).
  destruct (2 ^ (- e) + Z.pos m) as [| M | M] eqn:HM; try lia.
  unfold binary_normalize.
  pose proof (digits2_pos_bounds M) as [Hlo Hhi].
  assert (Hd : - e + 1 <= Z.pos (digits2_pos M) <= - e + 2).
  { split.
    - destruct (Z_le_gt_dec (- e + 1) (Z.pos (digits2_pos M))); [assumption|].
      assert (2 ^ Z.pos (digits2_pos M) <= 2 ^ (- e)) by (apply Z.pow_le_mono_r; lia). lia.
    - destruct (Z_le_gt_dec (Z.pos (digits2_pos M)) (- e + 2)); [assumption|].
      assert (2 ^ (- e + 2) <= 2 ^ (Z.pos (digits2_pos M) - 1)) by (apply Z.pow_le_mono_r; lia).
      replace (- e + 2) with (- e + 1 + 1) in H by lia.
      rewrite !Z.pow_add_r in H by lia. lia. }
  destruct (Z_le_gt_dec (Z.pos (digits2_pos M) + e - 53) e) as [Hex | Hsh].
  - rewrite (binary_round_exact false M e e); [| rewrite fexp64_eq; lia | lia | lia].
    rewrite Z.sub_diag, Z.mul_1_r. cbn [Z.to_pos].
    eexists _, _. split; [reflexivity|].
    assert (e = -52) by lia. subst e. right. split; [reflexivity|]. simpl in *. lia.
  - destruct (binary_round_shift false M e (Z.pos (digits2_pos M) + e - 53))
      as (m' & e' & Heq & Hres); [lia..|].
    exists m', e'. split; [assumption|].
    destruct Hres as [[He' Hm'] | [He' Hm']]; lia.
Qed.

(** [1 - x] for [x] in (0, 1]: zero, or a finite positive number not
    above one. *)
Lemma one_minus_threshold (m : positive) (e : Z) :
  -1074 <= e <= -52 -> Z.pos m <= 2 ^ (- e) ->
  (exists s, f64.sub f64.one (S754_finite false m e) = S754_zero s) \/
  exists m' e',
    f64.sub f64.one (S754_finite false m e) = S754_finite false m' e' /\
    (e' < -52 \/ (e' = -52 /\ Z.pos m' = 2 ^ 52)).
Proof.
  intros He Hm. unfold f64.sub, f64.one, SFsub.
  rewrite Z.min_r by lia. cbn [cond_Zopp].
  rewrite !shl_align_fst by lia.
  rewrite Z.sub_diag, Z.mul_1_r.
  change (Z.pos 4503599627370496) with (2 ^ 52).
  rewrite <- Z.pow_add_r by lia.
  replace (52 + (-52 - e)) with (- e) by lia.
  destruct (2 ^ (- e) - Z.pos m) as [| M | M] eqn:HM; try lia.
  - left. eexists. reflexivity.
  - right. unfold binary_normalize.
    pose proof (digits2_pos_bounds M) as [Hlo Hhi].
    assert (Hd : Z.pos (digits2_pos M) <= - e).
    { destruct (Z_le_gt_dec (Z.pos (digits2_pos M)) (- e)); [assumption|].
      assert (2 ^ (- e) <= 2 ^ (Z.pos (digits2_pos M) - 1)) by (apply Z.pow_le_mono_r; lia). lia. }
    destruct (Z_le_gt_dec (fexp64 (Z.pos (digits2_pos M) + e)) e) as [Hex | Hsh].
    + rewrite (binary_round_exact false M e (fexp64 (Z.pos (digits2_pos M) + e))); [| reflexivity | lia | lia].
      eexists _, _. split; [reflexivity|]. left.
      rewrite fexp64_eq in *. lia.
    + rewrite fexp64_eq in Hsh.
      destruct (binary_round_shift false M e (Z.pos (digits2_pos M) + e - 53))
        as (m' & e' & Heq & Hres); [lia..|].
      exists m', e'. split; [assumption|].
      destruct Hres as [[He' Hm'] | [He' Hm']]; lia.
Qed.

Lemma unit_interval_cases (x : float64) :
  inUnitInterval (f64.val x) = true ->
  exists m e, f64.val x = S754_finite false m e /\
              -1074 <= e <= -52 /\ Z.pos m <= 2 ^ (- e).
Proof.
  intros H. apply andb_prop in H. destruct H as [Hlt Hle].
  assert (Hle0 : f64.le (f64.val x) f64.zero = false).
  { destruct (f64.val x) as [s | s | | s m e]; try discriminate Hlt; try reflexivity;
      destruct s; try discriminate Hlt; reflexivity. }
  assert (Hgt0 : f64.gt (f64.val x) f64.one = false).
  { destruct (f64.val x) as [s | s | | s m e]; try discriminate Hlt;
      try (destruct s; discriminate).
    destruct s; [discriminate Hlt|].
    unfold f64.le, f64.gt, f64.one, SFleb, SFltb, SFcompare in *.
    rewrite Z.compare_antisym.
    destruct (e ?= -52) eqn:He; cbn [CompOpp]; try reflexivity; try discriminate Hle.
    rewrite !Pos.compare_cont_spec in *. cbn [Pos.switch_Eq] in *.
    rewrite (Pos.compare_antisym m 4503599627370496).
    destruct (m ?= 4503599627370496)%positive; cbn [CompOpp];
      try reflexivity; discriminate Hle. }
  destruct (accepted_threshold_cases x Hle0 Hgt0) as [Hnan | Hfin]; [|assumption].
  rewrite Hnan in Hlt. discriminate Hlt.
Qed.

Lemma accepted_threshold_unit (x : float64) :
  f64.le (f64.val x) f64.zero = false ->
  f64.gt (f64.val x) f64.one = false ->
  f64.val x = S754_nan \/ inUnitInterval (f64.val x) = true.
Proof.
  intros Hle Hgt.
  destruct (accepted_threshold_cases x Hle Hgt) as [Hnan | (m & e & Hx & He & Hm)]; [now left | right].
  rewrite Hx in *. unfold inUnitInterval. apply andb_true_intro. split; [reflexivity|].
  unfold f64.le, f64.gt, f64.one, SFleb, SFltb, SFcompare in *.
  rewrite Z.compare_antisym in Hgt.
  destruct (e ?= -52) eqn:Hc; cbn [CompOpp] in Hgt; try reflexivity; try discriminate Hgt.
  rewrite !Pos.compare_cont_spec in *. cbn [Pos.switch_Eq] in *.
  rewrite (Pos.compare_antisym m 4503599627370496) in Hgt.
  destruct (m ?= 4503599627370496)%positive; cbn [CompOpp] in Hgt; try reflexivity; discriminate Hgt.
Qed.

Section MemoryCheck.
Variable cfg : MonitoringConfig.

Lemma memRatio_same (x : Z) :
  memRatio x x = f64.one \/ memRatio x x = S754_nan.
Proof.
  unfold memRatio. destruct (f64.of_Z x) as [s | s | | s m e].
  - right. reflexivity.
  - right. reflexivity.
  - right. reflexivity.
  - left. apply div_self_finite.
Qed.

Lemma memRatio_from_zero (new : Z) :
  0 < new < 2 ^ 64 -> memRatio 0 new = f64.pinf.
Proof.
  intros Hn. unfold memRatio.
  destruct (of_Z_pos_finite new Hn) as (m & e & Heq). rewrite Heq. reflexivity.
Qed.

Lemma lt_nan_l (y : spec_float) : f64.lt S754_nan y = false.
Proof. reflexivity. Qed.

Lemma gt_nan_l (y : spec_float) : f64.gt S754_nan y = false.
Proof. unfold f64.gt, SFltb, SFcompare. destruct y; reflexivity. Qed.

(** An unchanged memory usage is never flagged under a threshold that
    [Validate] accepts. *)
Lemma memChanged_same (x : Z) :
  f64.le (f64.val (MemoryChangeThreshold cfg)) f64.zero = false ->
  f64.gt (f64.val (MemoryChangeThreshold cfg)) f64.one = false ->
  memChanged cfg x x = false.
Proof.
  intros Hle Hgt. unfold memChanged.
  destruct (memRatio_same x) as [Hone | Hnan]; [|rewrite Hnan, lt_nan_l, gt_nan_l; reflexivity].
  rewrite Hone.
  destruct (accepted_threshold_cases _ Hle Hgt) as [Hthr | (m & e & Hthr & He & Hm)]; rewrite Hthr.
  - reflexivity.
  - apply orb_false_intro.
    + destruct (one_minus_threshold m e He Hm) as [[s Hz] | (m' & e' & Hsub & Hres)].
      * rewrite Hz. reflexivity.
      * rewrite Hsub. unfold f64.lt, f64.one, SFltb, SFcompare.
        destruct Hres as [Hlt | [Heq Hm']].
        -- replace (-52 ?= e') with Gt; [reflexivity|]. symmetry. apply Z.compare_gt_iff. lia.
        -- subst e'. rewrite Z.compare_refl.
           assert (m' = 4503599627370496%positive) by (apply Pos2Z.inj; exact Hm').
           subst m'. reflexivity.
    + destruct (one_plus_threshold m e He Hm) as (m' & e' & Hadd & Hres).
      rewrite Hadd. unfold f64.gt, f64.one, SFltb, SFcompare.
      destruct Hres as [Hlt | [Heq Hm']].
      * replace (e' ?= -52) with Gt; [reflexivity|]. symmetry. apply Z.compare_gt_iff. lia.
      * subst e'. rewrite Z.compare_refl. rewrite Pos.compare_cont_spec. cbn [Pos.switch_Eq].
        destruct (Pos.compare_spec m' 4503599627370496) as [Hc | Hc | Hc]; try reflexivity.
        apply Pos2Z.pos_lt_pos in Hc. change (2 ^ 52) with (Z.pos 4503599627370496) in Hm'.
        exfalso. clear - Hc Hm'. lia.
Qed.

(** Growth from zero is always flagged when the threshold is a number
    in (0, 1]: the quotient is [+Inf]. *)
Lemma memChanged_from_zero (new : Z) :
  inUnitInterval (f64.val (MemoryChangeThreshold cfg)) = true ->
  0 < new < 2 ^ 64 ->
  memChanged cfg 0 new = true.
Proof.
  intros Hthr Hn. unfold memChanged. rewrite (memRatio_from_zero new Hn).
  destruct (unit_interval_cases _ Hthr) as (m & e & Hx & He & Hm). rewrite Hx.
  destruct (one_plus_threshold m e He Hm) as (m' & e' & Hadd & _). rewrite Hadd.
  apply orb_true_intro. right. reflexivity.
Qed.
End MemoryCheck.

(* ===================================================================== *)
(** * The effect monad and the events of a diff cycle                *)
(* ===================================================================== *)

(** ** Runs of the effect monad *)

Lemma run_bind {A B} (m : M A) (k : A -> M B) (t : Time) :
  bind m k t =
  (value (k (value (m t)) (clockAfter (m t))),
   clockAfter (k (value (m t)) (clockAfter (m t))),
   sent (m t) ++ sent (k (value (m t)) (clockAfter (m t)))).
Proof.
  unfold bind, value, clockAfter, sent.
  destruct (m t) as [[a t1] s1]. cbn [fst snd].
  destruct (k a t1) as [[b t2] s2]. reflexivity.
Qed.

Lemma sent_bind {A B} (m : M A) (k : A -> M B) (t : Time) :
  sent (bind m k t) = sent (m t) ++ sent (k (value (m t)) (clockAfter (m t))).
Proof. rewrite run_bind. reflexivity. Qed.

Lemma value_bind {A B} (m : M A) (k : A -> M B) (t : Time) :
  value (bind m k t) = value (k (value (m t)) (clockAfter (m t))).
Proof. rewrite run_bind. reflexivity. Qed.

Lemma forEach_cons {A} (x : A) (l : list A) (body : A -> M unit) (t : Time) :
  sent (forEach (x :: l) body t)
  = sent (body x t) ++ sent (forEach l body (clockAfter (body x t))).
Proof. cbn [forEach]. rewrite sent_bind. reflexivity. Qed.

Lemma forEach_value {A} (l : list A) (body : A -> M unit) (t : Time) :
  value (forEach l body t) = tt.
Proof. destruct (value (forEach l body t)). reflexivity. Qed.

(** An event sent by a loop was sent by one of its turns. *)
Lemma forEach_sent_inv {A} (l : list A) (body : A -> M unit) (t : Time) (e : ProcessEvent) :
  e ∈ sent (forEach l body t) -> exists x t', x ∈ l /\ e ∈ sent (body x t').
Proof.
  revert t. induction l as [| x l IH]; intros t He.
  - cbn in He. inversion He.
  - rewrite forEach_cons in He. apply elem_of_app in He. destruct He as [He | He].
    + exists x, t. split; [left | assumption].
    + destruct (IH _ He) as (y & t' & Hy & Hs). exists y, t'. split; [now right | assumption].
Qed.

(** Every turn of a loop is run, at some reading of the clock. *)
Lemma forEach_sent_intro {A} (l : list A) (body : A -> M unit) (t : Time) (x : A) :
  x ∈ l -> exists t', forall e, e ∈ sent (body x t') -> e ∈ sent (forEach l body t).
Proof.
  revert t. induction l as [| y l IH]; intros t Hx.
  - inversion Hx.
  - apply elem_of_cons in Hx. destruct Hx as [-> | Hx].
    + exists t. intros e He. rewrite forEach_cons. apply elem_of_app. now left.
    + destruct (IH (clockAfter (body y t)) Hx) as (t' & Ht'). exists t'.
      intros e He. rewrite forEach_cons. apply elem_of_app. right. now apply Ht'.
Qed.

(** Two loops whose bodies agree on the elements of the list agree. *)
Lemma forEach_ext {A} (l : list A) (body1 body2 : A -> M unit) :
  (forall x t, x ∈ l -> body1 x t = body2 x t) ->
  forall t, forEach l body1 t = forEach l body2 t.
Proof.
  induction l as [| x l IH]; intros Hext t.
  - reflexivity.
  - cbn [forEach]. unfold bind. rewrite Hext by left.
    destruct (body2 x t) as [[a t1] s1].
    rewrite IH; [reflexivity|]. intros y t' Hy. apply Hext. now right.
Qed.

Lemma forEach_send {A} (f : A -> ProcessEvent) (l : list A) (t : Time) :
  forEach l (fun x => send (f x)) t = (tt, t, map f l).
Proof.
  induction l as [| x l IH].
  - reflexivity.
  - cbn [forEach]. unfold bind. cbn [send]. rewrite IH. reflexivity.
Qed.

Section DiffEvents.
Variable windows : bool.
Variable cfg : MonitoringConfig.

Lemma detectModifications_value (old new : ProcessInfo) (t : Time) :
  value (detectModifications windows cfg old new t)
  = if shouldMonitorProcess windows cfg new then fieldChecks cfg t old new else [].
Proof.
  unfold detectModifications. destruct (shouldMonitorProcess windows cfg new); reflexivity.
Qed.

Lemma detectModifications_sent (old new : ProcessInfo) (t : Time) :
  sent (detectModifications windows cfg old new t) = [].
Proof.
  unfold detectModifications. destruct (shouldMonitorProcess windows cfg new); reflexivity.
Qed.

(** The events of one turn of the first loop. *)
Lemma checkNew_sent (cur : gmap Z ProcessInfo) (pid : Z) (newInfo : ProcessInfo) (t : Time) :
  sent (checkNew windows cfg cur (pid, newInfo) t) =
  match cur !! pid with
  | Some oldInfo =>
      if ShouldMonitorProcess windows cfg newInfo
      then map (modifiedEvent newInfo)
               (value (detectModifications windows cfg oldInfo newInfo t))
      else []
  | None =>
      if ShouldMonitorProcess windows cfg newInfo
      then [plainEvent ProcessCreated t newInfo]
      else []
  end.
Proof.
  unfold checkNew. destruct (cur !! pid) as [oldInfo|];
    destruct (ShouldMonitorProcess windows cfg newInfo); try reflexivity.
  rewrite sent_bind, detectModifications_sent. cbn [app].
  destruct (value (detectModifications windows cfg oldInfo newInfo t)) as [| modif mods] eqn:Hm.
  - reflexivity.
  - cbn [length Nat.ltb Nat.leb]. rewrite forEach_send. reflexivity.
Qed.

(** The events of one turn of the second loop. *)
Lemma checkOld_sent (newSnapshot : gmap Z ProcessInfo) (pid : Z) (info : ProcessInfo) (t : Time) :
  sent (checkOld windows cfg newSnapshot (pid, info) t) =
  match newSnapshot !! pid with
  | Some _ => []
  | None =>
      if ShouldMonitorProcess windows cfg info
      then [plainEvent ProcessTerminated t info]
      else []
  end.
Proof.
  unfold checkOld. destruct (newSnapshot !! pid);
    destruct (ShouldMonitorProcess windows cfg info); reflexivity.
Qed.

Lemma range_of_elem (m : gmap Z ProcessInfo) (l : list (Z * ProcessInfo)) (pid : Z) (info : ProcessInfo) :
  range_of m l -> ((pid, info) ∈ l <-> m !! pid = Some info).
Proof.
  unfold range_of. intros Hl. rewrite Hl. apply elem_of_map_to_list.
Qed.

Lemma diffAndReplace_value (prev cur : gmap Z ProcessInfo) rangeNew rangeOld t :
  value (diffAndReplace windows cfg prev cur rangeNew rangeOld t) = cur.
Proof.
  unfold diffAndReplace. rewrite !value_bind. reflexivity.
Qed.

Lemma diffAndReplace_sent (prev cur : gmap Z ProcessInfo) rangeNew rangeOld t :
  sent (diffAndReplace windows cfg prev cur rangeNew rangeOld t)
  = sent (forEach rangeNew (checkNew windows cfg prev) t)
    ++ sent (forEach rangeOld (checkOld windows cfg cur)
               (clockAfter (forEach rangeNew (checkNew windows cfg prev) t))).
Proof.
  unfold diffAndReplace. rewrite !sent_bind. cbn [ret sent snd]. now rewrite app_nil_r.
Qed.

Lemma diffAndReplace_sent_inv (prev cur : gmap Z ProcessInfo) rangeNew rangeOld t e :
  range_of cur rangeNew -> range_of prev rangeOld ->
  e ∈ sent (diffAndReplace windows cfg prev cur rangeNew rangeOld t) ->
  diffEvent windows cfg prev cur e.
Proof.
  intros HrN HrO He. rewrite diffAndReplace_sent in He.
  apply elem_of_app in He. destruct He as [He | He].
  - apply forEach_sent_inv in He. destruct He as ([pid info] & t' & Hin & He).
    apply (range_of_elem _ _ _ _ HrN) in Hin.
    rewrite checkNew_sent in He.
    destruct (prev !! pid) as [oldInfo|] eqn:Hprev;
      destruct (ShouldMonitorProcess windows cfg info) eqn:Hf; try (inversion He; fail).
    + rewrite detectModifications_value in He.
      destruct (shouldMonitorProcess windows cfg info) eqn:Hg; [|inversion He].
      apply list_elem_of_In, in_map_iff in He. destruct He as (modif & <- & Hmod).
      apply list_elem_of_In in Hmod.
      eapply DiffModified; eauto.
    + apply list_elem_of_singleton in He. eapply DiffCreated; eauto.
  - apply forEach_sent_inv in He. destruct He as ([pid info] & t' & Hin & He).
    apply (range_of_elem _ _ _ _ HrO) in Hin.
    rewrite checkOld_sent in He.
    destruct (cur !! pid) as [newInfo|] eqn:Hcur; [inversion He|].
    destruct (ShouldMonitorProcess windows cfg info) eqn:Hf; [|inversion He].
    apply list_elem_of_singleton in He. eapply DiffTerminated; eauto.
Qed.

Lemma diffAndReplace_created (prev cur : gmap Z ProcessInfo) rangeNew rangeOld t pid info :
  range_of cur rangeNew ->
  cur !! pid = Some info -> prev !! pid = None ->
  ShouldMonitorProcess windows cfg info = true ->
  exists ts, plainEvent ProcessCreated ts info
             ∈ sent (diffAndReplace windows cfg prev cur rangeNew rangeOld t).
Proof.
  intros HrN Hcur Hprev Hf.
  apply (range_of_elem _ _ _ _ HrN) in Hcur.
  destruct (forEach_sent_intro rangeNew (checkNew windows cfg prev) t _ Hcur) as (ts & Hts).
  exists ts. rewrite diffAndReplace_sent. apply elem_of_app. left. apply Hts.
  rewrite checkNew_sent, Hprev, Hf. apply list_elem_of_singleton. reflexivity.
Qed.

Lemma diffAndReplace_terminated (prev cur : gmap Z ProcessInfo) rangeNew rangeOld t pid info :
  range_of prev rangeOld ->
  prev !! pid = Some info -> cur !! pid = None ->
  ShouldMonitorProcess windows cfg info = true ->
  exists ts, plainEvent ProcessTerminated ts info
             ∈ sent (diffAndReplace windows cfg prev cur rangeNew rangeOld t).
Proof.
  intros HrO Hprev Hcur Hf.
  apply (range_of_elem _ _ _ _ HrO) in Hprev.
  destruct (forEach_sent_intro rangeOld (checkOld windows cfg cur)
              (clockAfter (forEach rangeNew (checkNew windows cfg prev) t)) _ Hprev) as (ts & Hts).
  exists ts. rewrite diffAndReplace_sent. apply elem_of_app. right. apply Hts.
  rewrite checkOld_sent, Hcur, Hf. apply list_elem_of_singleton. reflexivity.
Qed.
End DiffEvents.

(* ===================================================================== *)
(** * Field comparisons                                              *)
(* ===================================================================== *)

Section FieldChecks.
Variable cfg : MonitoringConfig.
Variables (ts : Time) (old new : ProcessInfo).

Local Abbreviation threadDiff := (absDiff (wrap32 (ThreadCount new - ThreadCount old))).
Local Abbreviation handleDiff := (absDiff (wrap32 (HandleCount new - HandleCount old))).

(** The five comparisons, one after the other. *)
Lemma fieldChecks_parts :
  fieldChecks cfg ts old new =
  (if MonitorCommandLine cfg && negb (String.eqb (CommandLine old) (CommandLine new))
   then [ {| Timestamp := ts; ProcessID := PID new; ModType := CommandLineChange;
             OldValue := VString (CommandLine old); NewValue := VString (CommandLine new);
             Description := "Command line modified" |} ] else [])
  ++ (if MonitorThreads cfg && (ThreadChangeThreshold cfg <=? threadDiff)
      then [ {| Timestamp := ts; ProcessID := PID new; ModType := ThreadCountChange;
                OldValue := VInt32 (ThreadCount old); NewValue := VInt32 (ThreadCount new);
                Description := "Thread count changed by " +:+ pretty threadDiff |} ] else [])
  ++ (if MonitorHandles cfg && (HandleChangeThreshold cfg <=? handleDiff)
      then [ {| Timestamp := ts; ProcessID := PID new; ModType := HandleCountChange;
                OldValue := VInt32 (HandleCount old); NewValue := VInt32 (HandleCount new);
                Description := "Handle count changed by " +:+ pretty handleDiff |} ] else [])
  ++ (if MonitorMemory cfg && memChanged cfg (MemoryUsage old) (MemoryUsage new)
      then [ {| Timestamp := ts; ProcessID := PID new; ModType := MemoryModification;
                OldValue := VUint64 (MemoryUsage old); NewValue := VUint64 (MemoryUsage new);
                Description := "Significant memory usage change" |} ] else [])
  ++ (if MonitorWorkingDir cfg && negb (String.eqb (Cwd old) (Cwd new))
      then [ {| Timestamp := ts; ProcessID := PID new; ModType := WorkingDirectoryChange;
                OldValue := VString (Cwd old); NewValue := VString (Cwd new);
                Description := "Working directory changed" |} ] else []).
Proof.
  unfold fieldChecks.
  destruct (MonitorCommandLine cfg && negb (String.eqb (CommandLine old) (CommandLine new)));
  destruct (MonitorThreads cfg); destruct (ThreadChangeThreshold cfg <=? threadDiff);
  destruct (MonitorHandles cfg); destruct (HandleChangeThreshold cfg <=? handleDiff);
  destruct (MonitorMemory cfg); destruct (memChanged cfg (MemoryUsage old) (MemoryUsage new));
  destruct (MonitorWorkingDir cfg && negb (String.eqb (Cwd old) (Cwd new)));
  reflexivity.
Qed.

Lemma fieldChecks_thread :
  (exists modif, modif ∈ fieldChecks cfg ts old new /\ ModType modif = ThreadCountChange)
  <-> MonitorThreads cfg = true /\ ThreadChangeThreshold cfg <= threadDiff.
Proof.
  rewrite fieldChecks_parts. split.
  - intros (modif & Hin & Hty).
    rewrite !elem_of_app in Hin.
    destruct Hin as [Hin | [Hin | [Hin | [Hin | Hin]]]];
      match type of Hin with
      | _ ∈ (if ?c then _ else _) => destruct c eqn:Hc
      end;
      try (inversion Hin; fail);
      apply list_elem_of_singleton in Hin; subst modif; try discriminate Hty.
    apply andb_prop in Hc. destruct Hc as [Hm Ht]. apply Z.leb_le in Ht. auto.
  - intros [Hm Ht]. apply Z.leb_le in Ht. rewrite Hm, Ht. cbn [andb].
    eexists. split;
      [rewrite !elem_of_app; right; left; apply list_elem_of_singleton; reflexivity
      | reflexivity].
Qed.

Lemma fieldChecks_memory :
  (exists modif, modif ∈ fieldChecks cfg ts old new /\ ModType modif = MemoryModification
                 /\ OldValue modif = VUint64 (MemoryUsage old)
                 /\ NewValue modif = VUint64 (MemoryUsage new))
  <-> MonitorMemory cfg = true /\ memChanged cfg (MemoryUsage old) (MemoryUsage new) = true.
Proof.
  rewrite fieldChecks_parts. split.
  - intros (modif & Hin & Hty & _).
    rewrite !elem_of_app in Hin.
    destruct Hin as [Hin | [Hin | [Hin | [Hin | Hin]]]];
      match type of Hin with
      | _ ∈ (if ?c then _ else _) => destruct c eqn:Hc
      end;
      try (inversion Hin; fail);
      apply list_elem_of_singleton in Hin; subst modif; try discriminate Hty.
    apply andb_prop in Hc. exact Hc.
  - intros [Hm Ht]. rewrite Hm, Ht. cbn [andb].
    eexists. split;
      [rewrite !elem_of_app; do 3 right; left; apply list_elem_of_singleton; reflexivity
      | repeat split; reflexivity].
Qed.
End FieldChecks.

Lemma wrap32_id (z : Z) : - 2 ^ 31 <= z < 2 ^ 31 -> wrap32 z = z.
Proof.
  intros Hz. unfold wrap32. rewrite Z.mod_small by lia. lia.
Qed.

(** Comparing a record with itself finds nothing, when the enabled
    integer thresholds are at least one. *)
Lemma fieldChecks_same (cfg : MonitoringConfig) (ts : Time) (info : ProcessInfo) :
  Validate cfg = None ->
  (MonitorThreads cfg = true -> 1 <= ThreadChangeThreshold cfg) ->
  (MonitorHandles cfg = true -> 1 <= HandleChangeThreshold cfg) ->
  fieldChecks cfg ts info info = [].
Proof.
  intros Hv Ht Hh. rewrite fieldChecks_parts.
  rewrite !String.eqb_refl, !Z.sub_diag. cbn [negb]. rewrite !andb_false_r.
  change (absDiff (wrap32 0)) with 0.
  assert (Hmem : memChanged cfg (MemoryUsage info) (MemoryUsage info) = false).
  { unfold Validate in Hv.
    destruct (PollInterval cfg <? Millisecond * 100); [discriminate|].
    destruct (f64.le (f64.val (MemoryChangeThreshold cfg)) f64.zero
              || f64.gt (f64.val (MemoryChangeThreshold cfg)) f64.one) eqn:Hm; [discriminate|].
    apply orb_false_elim in Hm. destruct Hm. now apply memChanged_same. }
  rewrite Hmem, andb_false_r.
  destruct (MonitorThreads cfg) eqn:Hmt; cbn [andb].
  - specialize (Ht eq_refl). destruct (ThreadChangeThreshold cfg <=? 0) eqn:Hle;
      [apply Z.leb_le in Hle; lia|].
    destruct (MonitorHandles cfg) eqn:Hmh; cbn [andb]; [|reflexivity].
    specialize (Hh eq_refl). destruct (HandleChangeThreshold cfg <=? 0) eqn:Hle';
      [apply Z.leb_le in Hle'; lia | reflexivity].
  - destruct (MonitorHandles cfg) eqn:Hmh; cbn [andb]; [|reflexivity].
    specialize (Hh eq_refl). destruct (HandleChangeThreshold cfg <=? 0) eqn:Hle';
      [apply Z.leb_le in Hle'; lia | reflexivity].
Qed.


(* ===================================================================== *)
(** * Enumeration                                                    *)
(* ===================================================================== *)

Section Enumeration.
Variable windows : bool.
Variable cfg : MonitoringConfig.

Lemma getProcessInfo_PID (p : process.Process) :
  PID (fst (getProcessInfo p)) = process.Pid p.
Proof. reflexivity. Qed.

Lemma addProcess_lookup (acc : gmap Z ProcessInfo) (p : process.Process) (pid : Z) :
  addProcess windows cfg acc p !! pid =
  if decide (process.Pid p = pid) then
    if ShouldMonitorProcess windows cfg (fst (getProcessInfo p))
    then Some (fst (getProcessInfo p))
    else acc !! pid
  else acc !! pid.
Proof.
  unfold addProcess. cbn [getProcessInfo fst].
  destruct (ShouldMonitorProcess windows cfg _); case_decide; subst; try reflexivity.
  - apply lookup_insert_eq.
  - now apply lookup_insert_ne.
Qed.

Lemma fold_addProcess_other (procs : list process.Process) (acc : gmap Z ProcessInfo) (pid : Z) :
  (forall q, q ∈ procs -> process.Pid q <> pid) ->
  fold_left (addProcess windows cfg) procs acc !! pid = acc !! pid.
Proof.
  revert acc. induction procs as [| q procs IH]; intros acc Hq; [reflexivity|].
  cbn [fold_left]. rewrite IH by (intros; apply Hq; now right).
  rewrite addProcess_lookup. case_decide as Heq; [|reflexivity].
  exfalso. apply (Hq q); [left | assumption].
Qed.

Lemma fold_addProcess_is_Some (procs : list process.Process) (acc : gmap Z ProcessInfo) (pid : Z) :
  is_Some (acc !! pid) ->
  is_Some (fold_left (addProcess windows cfg) procs acc !! pid).
Proof.
  revert acc. induction procs as [| q procs IH]; intros acc Hs; [assumption|].
  cbn [fold_left]. apply IH. rewrite addProcess_lookup.
  case_decide; [|assumption].
  destruct (ShouldMonitorProcess windows cfg _); [eauto | assumption].
Qed.

Lemma fold_addProcess_included (procs : list process.Process) (acc : gmap Z ProcessInfo)
      (p : process.Process) :
  p ∈ procs ->
  ShouldMonitorProcess windows cfg (fst (getProcessInfo p)) = true ->
  is_Some (fold_left (addProcess windows cfg) procs acc !! process.Pid p).
Proof.
  revert acc. induction procs as [| q procs IH]; intros acc Hin Hf; [inversion Hin|].
  cbn [fold_left]. apply elem_of_cons in Hin. destruct Hin as [<- | Hin].
  - apply fold_addProcess_is_Some. rewrite addProcess_lookup.
    rewrite decide_True by reflexivity. rewrite Hf. eauto.
  - now apply IH.
Qed.

Lemma fold_addProcess_own (procs : list process.Process) (acc : gmap Z ProcessInfo)
      (p : process.Process) :
  NoDup (map process.Pid procs) ->
  p ∈ procs ->
  ShouldMonitorProcess windows cfg (fst (getProcessInfo p)) = true ->
  fold_left (addProcess windows cfg) procs acc !! process.Pid p
  = Some (fst (getProcessInfo p)).
Proof.
  revert acc. induction procs as [| q procs IH]; intros acc Hnd Hin Hf; [inversion Hin|].
  cbn [fold_left]. cbn [map] in Hnd. apply NoDup_cons in Hnd. destruct Hnd as [Hq Hnd].
  apply elem_of_cons in Hin. destruct Hin as [<- | Hin].
  - rewrite fold_addProcess_other.
    + rewrite addProcess_lookup, decide_True by reflexivity. now rewrite Hf.
    + intros q Hqin Heq. apply Hq. rewrite <- Heq.
      apply list_elem_of_In, in_map, list_elem_of_In. assumption.
  - now apply IH.
Qed.

(** Every snapshot built by [getRunningProcesses] is keyed by PID and
    filter-closed. *)
Lemma fold_addProcess_ok (procs : list process.Process) (acc : gmap Z ProcessInfo) :
  snapshot_ok windows cfg acc ->
  snapshot_ok windows cfg (fold_left (addProcess windows cfg) procs acc).
Proof.
  revert acc. induction procs as [| q procs IH]; intros acc Hok; [assumption|].
  cbn [fold_left]. apply IH. intros pid info. rewrite addProcess_lookup.
  case_decide as Heq; [|apply Hok].
  destruct (ShouldMonitorProcess windows cfg (fst (getProcessInfo q))) eqn:Hf; [|apply Hok].
  intros [= <-]. split; [exact Heq | exact Hf].
Qed.

Lemma getRunningProcesses_ok (enum : list process.Process * option goerror)
      (snapshot : gmap Z ProcessInfo) :
  fst (getRunningProcesses windows cfg enum) = Some snapshot ->
  snapshot_ok windows cfg snapshot.
Proof.
  destruct enum as [procs [[msg]|]]; cbn [getRunningProcesses fst]; [discriminate|].
  intros [= <-]. apply fold_addProcess_ok. intros pid info Hl.
  rewrite lookup_empty in Hl. discriminate.
Qed.
End Enumeration.

(** C10.  [getProcessInfo] returns a nil error for every handle, so the
    [continue] on its error is never taken: a handle is added to the map
    exactly when its record passes the filter.  Hence every enumerated
    process that passes the filter has its PID in the new snapshot, and,
    the PIDs of the enumeration being distinct, its own record is stored
    there. *)
Theorem getProcessInfo_never_fails (windows : bool) (cfg : MonitoringConfig) :
  (forall p, snd (getProcessInfo p) = None)
  /\ (forall processes p,
        addProcess windows cfg processes p
        = if ShouldMonitorProcess windows cfg (fst (getProcessInfo p))
          then <[process.Pid p := fst (getProcessInfo p)]> processes
          else processes)
  /\ forall (procs : list process.Process) (p : process.Process),
       p ∈ procs ->
       ShouldMonitorProcess windows cfg (fst (getProcessInfo p)) = true ->
       exists snapshot,
         getRunningProcesses windows cfg (procs, None) = (Some snapshot, None)
         /\ is_Some (snapshot !! process.Pid p)
         /\ (NoDup (map process.Pid procs) ->
             snapshot !! process.Pid p = Some (fst (getProcessInfo p))).
Proof.
  split; [reflexivity|]. split; [reflexivity|]. intros procs p Hin Hf.
  eexists. split; [reflexivity|]. split.
  - now apply fold_addProcess_included.
  - intros Hnd. now apply fold_addProcess_own.
Qed.

(** Two handles, of which the first passes the default filter. *)
Lemma getProcessInfo_never_fails_witness :
  let procs := procs2 in
  let p := handle 10 "nginx" "www" in
  p ∈ procs
  /\ ShouldMonitorProcess false DefaultConfig (fst (getProcessInfo p)) = true
  /\ NoDup (map process.Pid procs)
  /\ exists snapshot,
       getRunningProcesses false DefaultConfig (procs, None) = (Some snapshot, None)
       /\ is_Some (snapshot !! process.Pid p)
       /\ snapshot !! process.Pid p = Some (fst (getProcessInfo p)).
Proof.
  intros procs p.
  assert (Hin : p ∈ procs) by (left).
  assert (Hf : ShouldMonitorProcess false DefaultConfig (fst (getProcessInfo p)) = true)
    by (vm_compute; reflexivity).
  assert (Hnd : NoDup (map process.Pid procs)).
  { cbn. apply NoDup_cons. split; [|apply NoDup_singleton].
    intros Hx. apply list_elem_of_singleton in Hx. discriminate Hx. }
  split; [exact Hin|]. split; [exact Hf|]. split; [exact Hnd|].
  destruct (proj2 (proj2 (getProcessInfo_never_fails false DefaultConfig)) procs p Hin Hf)
    as (snapshot & Hrun & Hsome & Hown).
  exists snapshot. split; [exact Hrun|]. split; [exact Hsome|]. exact (Hown Hnd).
Defined.

(* ===================================================================== *)
(** * The filter and the configuration                               *)
(* ===================================================================== *)

(** ** Enumeration failure (C6) *)

(** C6.  When [process.Processes()] fails, the tick sends no event,
    leaves the retained snapshot and the clock as they were, and the
    poll loop goes on with the next outcomes of the [select] exactly as
    if the tick had not happened. *)
Theorem enumeration_failure_aborts_tick
  (windows : bool) (cfg : MonitoringConfig)
  (procs : list process.Process) (err : goerror)
  (rangeNew rangeOld : list (Z * ProcessInfo)) (rest : list Select)
  (currentProcesses : gmap Z ProcessInfo) (t : Time) :
  tick windows cfg currentProcesses (procs, Some err) rangeNew rangeOld t
    = (currentProcesses, t, [])
  /\ Monitor windows cfg (TickerC (procs, Some err) rangeNew rangeOld :: rest) currentProcesses t
     = Monitor windows cfg rest currentProcesses t.
Proof.
  destruct err as [msg]. split; [reflexivity|].
  cbn [Monitor]. unfold bind. cbn [tick getRunningProcesses ret].
  destruct (Monitor windows cfg rest currentProcesses t) as [[r t'] evs]. reflexivity.
Qed.

(** ** The rules of the filter (C7) *)

Lemma anyMatch_true (windows : bool) (patterns : list string) (processName : string) :
  anyMatch windows patterns processName = true <->
  exists entry, entry ∈ patterns /\
                fst (filepath.Match windows (strings.ToLower entry) processName) = true.
Proof.
  induction patterns as [| p ps IH]; cbn [anyMatch].
  - split; [discriminate | intros (e & He & _); inversion He].
  - destruct (fst (filepath.Match windows (strings.ToLower p) processName)) eqn:Hp.
    + split; [|reflexivity]. intros _. exists p. split; [left | assumption].
    + rewrite IH. split.
      * intros (e & He & Hm). exists e. split; [now right | assumption].
      * intros (e & He & Hm). apply elem_of_cons in He. destruct He as [-> | He].
        -- congruence.
        -- exists e. split; assumption.
Qed.

Lemma anyUser_true (users : list string) (username : string) :
  anyUser users username = true <->
  exists entry, entry ∈ users /\ strings.ToLower entry = username.
Proof.
  induction users as [| u us IH]; cbn [anyUser].
  - split; [discriminate | intros (e & He & _); inversion He].
  - destruct (String.eqb (strings.ToLower u) username) eqn:Hu.
    + apply String.eqb_eq in Hu. split; [|reflexivity].
      intros _. exists u. split; [left | assumption].
    + apply String.eqb_neq in Hu. rewrite IH. split.
      * intros (e & He & Hm). exists e. split; [now right | assumption].
      * intros (e & He & Hm). apply elem_of_cons in He. destruct He as [-> | He].
        -- congruence.
        -- exists e. split; assumption.
Qed.

Section FilterRules.
Variable windows : bool.
Variable cfg : MonitoringConfig.
Variable info : ProcessInfo.

Lemma rule1_anyMatch :
  spec.rule1 windows cfg info <->
  anyMatch windows (ExcludedProcesses cfg) (strings.ToLower (Name info)) = true.
Proof. rewrite anyMatch_true. reflexivity. Qed.

Lemma rule2_anyMatch :
  spec.rule2 windows cfg info <->
  (0 <? length (IncludedProcesses cfg))%nat
  && negb (anyMatch windows (IncludedProcesses cfg) (strings.ToLower (Name info))) = true.
Proof.
  unfold spec.rule2. rewrite andb_true_iff, negb_true_iff, Nat.ltb_lt.
  split; intros [Hne Hnone]; split.
  - destruct (IncludedProcesses cfg); [congruence | cbn; lia].
  - destruct (anyMatch windows (IncludedProcesses cfg) (strings.ToLower (Name info))) eqn:Hany;
      [|reflexivity].
    apply anyMatch_true in Hany. destruct Hany as (e & He & Hm).
    exfalso. exact (Hnone e He Hm).
  - intros Heq. rewrite Heq in Hne. cbn in Hne. lia.
  - intros e He Hm.
    assert (anyMatch windows (IncludedProcesses cfg) (strings.ToLower (Name info)) = true)
      by (apply anyMatch_true; eauto).
    congruence.
Qed.

Lemma rule3_anyUser :
  spec.rule3 cfg info <->
  anyUser (ExcludedUsers cfg) (strings.ToLower (Username info)) = true.
Proof.
  rewrite anyUser_true. unfold spec.rule3, spec.equalsFold.
  split; intros (e & He & Hm); exists e; split; auto.
Qed.
End FilterRules.

(** The filter tests its three conditions in order, each read with the
    calls the filter itself makes ([filepath.Match] and
    [strings.ToLower]): it rejects when the first holds, otherwise when
    the second holds, otherwise when the third holds, and accepts
    exactly when none holds. *)
Theorem ShouldMonitorProcess_rules (windows : bool) (cfg : MonitoringConfig) (info : ProcessInfo) :
  let r1 := spec.rule1 windows cfg info in
  let r2 := spec.rule2 windows cfg info in
  let r3 := spec.rule3 cfg info in
  (ShouldMonitorProcess windows cfg info = false
     <-> r1 \/ (~ r1 /\ r2) \/ (~ r1 /\ ~ r2 /\ r3))
  /\ (ShouldMonitorProcess windows cfg info = true <-> ~ r1 /\ ~ r2 /\ ~ r3).
Proof.
  intros r1 r2 r3. subst r1 r2 r3.
  rewrite rule1_anyMatch, rule2_anyMatch, rule3_anyUser.
  unfold ShouldMonitorProcess.
  destruct (anyMatch windows (ExcludedProcesses cfg) (strings.ToLower (Name info)));
    [split; split; intuition congruence|].
  destruct ((0 <? length (IncludedProcesses cfg))%nat
            && negb (anyMatch windows (IncludedProcesses cfg) (strings.ToLower (Name info))));
    [split; split; intuition congruence|].
  destruct (anyUser (ExcludedUsers cfg) (strings.ToLower (Username info)));
    split; split; intuition congruence.
Qed.

(** C7 fails on the code, for the collector's copy of the predicate.
    With the inclusion list [*.exe], the process [Notepad.EXE] of user
    [alice] is accepted by the rules: its name matches no excluded
    entry, it matches the included entry [*.exe], and its user is not
    excluded.  [ProcessFilter.ShouldMonitorProcess] accepts it; the
    collector's [shouldMonitorProcess] rejects it, because it tests
    the inclusion list for equality with the name and not for a match. *)
Theorem collector_predicate_breaks_inclusion_rule (windows : bool) :
  rules.accepts (filepath.Separator windows) cfgIncludeExe notepad
  /\ rules.GlobFold (filepath.Separator windows) "*.exe" (Name notepad)
  /\ ShouldMonitorProcess windows cfgIncludeExe notepad = true
  /\ shouldMonitorProcess windows cfgIncludeExe notepad = false.
Proof.
  assert (Hglob : rules.GlobFold (filepath.Separator windows) "*.exe" (Name notepad)).
  { cbn [notepad mkInfo Name].
    do 7 (apply rules.GlobFold_star_more; [destruct windows; discriminate|]).
    apply rules.GlobFold_star_end.
    apply rules.GlobFold_byte; [repeat split; discriminate | now left |].
    do 3 (apply rules.GlobFold_byte;
          [repeat split; discriminate | right; right; split; [vm_compute; lia | reflexivity] |]).
    constructor. }
  split; [|split; [exact Hglob|]].
  - split; [|split].
    + intros (entry & Hin & Hm). cbn in Hin.
      rewrite !elem_of_cons, elem_of_nil in Hin.
      destruct Hin as [-> | [-> | []]]; cbn [notepad mkInfo Name] in Hm;
        inversion Hm as [| a p c n Ho Hl Hrest | | |]; subst;
        (destruct Hl as [Hl | [[Hl1 Hl2] | [Hl1 Hl2]]];
         [discriminate Hl | vm_compute in Hl2; lia | vm_compute in Hl2; lia]).
    + intros [_ Hnone]. apply (Hnone "*.exe"); [cbn; left | exact Hglob].
    + intros (entry & Hin & Hm). cbn in Hin.
      rewrite !elem_of_cons, elem_of_nil in Hin.
      destruct Hin as [-> | []]; cbn [notepad mkInfo Username] in Hm.
      inversion Hm as [| a b s t Hl Hrest]; subst.
      destruct Hl as [Hl | [[Hl1 Hl2] | [Hl1 Hl2]]];
        [discriminate Hl | vm_compute in Hl2; lia | vm_compute in Hl2; lia].
  - split; destruct windows; vm_compute; reflexivity.
Qed.

(** ** Validation (C8) *)

Lemma Validate_DefaultConfig : Validate DefaultConfig = None.
Proof. reflexivity. Qed.

(** X1.  [Validate] accepts a configuration exactly when its poll interval
    is at least 100ms, each of the two ratio thresholds is NaN or a
    number in (0, 1], and the two integer thresholds are not negative. *)
Lemma Validate_accepts (c : MonitoringConfig) :
  Validate c = None <->
  100 * Millisecond <= PollInterval c
  /\ (f64.val (MemoryChangeThreshold c) = S754_nan
      \/ inUnitInterval (f64.val (MemoryChangeThreshold c)) = true)
  /\ (f64.val (CPUThreshold c) = S754_nan
      \/ inUnitInterval (f64.val (CPUThreshold c)) = true)
  /\ 0 <= ThreadChangeThreshold c
  /\ 0 <= HandleChangeThreshold c.
Proof.
  assert (Hacc : forall x : float64,
             f64.le (f64.val x) f64.zero || f64.gt (f64.val x) f64.one = false <->
             (f64.val x = S754_nan \/ inUnitInterval (f64.val x) = true)).
  { intros x. rewrite orb_false_iff. split.
    - intros [Hle Hgt]. now apply accepted_threshold_unit.
    - intros [Hnan | Hunit].
      + rewrite Hnan. split; reflexivity.
      + destruct (unit_interval_cases x Hunit) as (m & e & Hx & He & Hm).
        apply andb_prop in Hunit. destruct Hunit as [Hlt Hle].
        rewrite Hx in *. split; [reflexivity|].
        unfold f64.le, f64.gt, f64.one, SFleb, SFltb, SFcompare in *.
        rewrite Z.compare_antisym.
        destruct (e ?= -52) eqn:Hc; cbn [CompOpp]; try reflexivity; try discriminate Hle.
        rewrite !Pos.compare_cont_spec in *. cbn [Pos.switch_Eq] in *.
        rewrite (Pos.compare_antisym m 4503599627370496).
        destruct (m ?= 4503599627370496)%positive; cbn [CompOpp];
          try reflexivity; discriminate Hle. }
  unfold Validate.
  destruct (PollInterval c <? Millisecond * 100) eqn:Hp.
  { apply Z.ltb_lt in Hp. split; [discriminate | lia]. }
  apply Z.ltb_ge in Hp.
  destruct (f64.le (f64.val (MemoryChangeThreshold c)) f64.zero
            || f64.gt (f64.val (MemoryChangeThreshold c)) f64.one) eqn:Hm.
  { split; [discriminate|]. intros (_ & H & _). apply Hacc in H. congruence. }
  apply Hacc in Hm.
  destruct (f64.le (f64.val (CPUThreshold c)) f64.zero
            || f64.gt (f64.val (CPUThreshold c)) f64.one) eqn:Hc.
  { split; [discriminate|]. intros (_ & _ & H & _). apply Hacc in H. congruence. }
  apply Hacc in Hc.
  destruct (ThreadChangeThreshold c <? 0) eqn:Ht.
  { apply Z.ltb_lt in Ht. split; [discriminate | lia]. }
  apply Z.ltb_ge in Ht.
  destruct (HandleChangeThreshold c <? 0) eqn:Hh.
  { apply Z.ltb_lt in Hh. split; [discriminate | lia]. }
  apply Z.ltb_ge in Hh.
  split; [|reflexivity]. intros _. repeat split; try assumption; lia.
Qed.

(** C8 fails on the code: a NaN memory threshold is not in (0, 1], yet
    both comparisons of [Validate] are false on it and the configuration
    is accepted. *)
Theorem Validate_accepts_nan_threshold :
  inUnitInterval (f64.val (MemoryChangeThreshold cfgNaN)) = false
  /\ Validate cfgNaN = None.
Proof. split; reflexivity. Qed.

(** ** The two filter predicates (C9) *)

(** C9 fails on the code: with the inclusion pattern [n*], the filter
    accepts a process named [nginx] (the pattern matches) and the
    collector's own predicate rejects it (the name is not equal to the
    pattern), on either platform. *)
Theorem filters_disagree_on_glob_inclusion :
  ShouldMonitorProcess false cfgIncludeGlob nginxNew = true
  /\ shouldMonitorProcess false cfgIncludeGlob nginxNew = false
  /\ ShouldMonitorProcess true cfgIncludeGlob nginxNew = true
  /\ shouldMonitorProcess true cfgIncludeGlob nginxNew = false.
Proof. repeat split; vm_compute; reflexivity. Qed.

(* ===================================================================== *)
(** * The diff engine                                                *)
(* ===================================================================== *)

(** ** Idempotence (C1) *)

(** C1, amended.  For every configuration that [Validate] accepts and
    whose enabled integer thresholds (thread, handle) are at least 1,
    and for every snapshot [S], one diff cycle of [S] against itself
    sends no event at all (nothing created, terminated or modified) and
    retains [S]; [detectModifications] of a record against itself is
    empty. *)
Theorem diff_same_snapshot_quiet
  (windows : bool) (cfg : MonitoringConfig) (S : gmap Z ProcessInfo)
  (rangeNew rangeOld : list (Z * ProcessInfo)) (t : Time) :
  Validate cfg = None ->
  (MonitorThreads cfg = true -> 1 <= ThreadChangeThreshold cfg) ->
  (MonitorHandles cfg = true -> 1 <= HandleChangeThreshold cfg) ->
  range_of S rangeNew -> range_of S rangeOld ->
  sent (diffAndReplace windows cfg S S rangeNew rangeOld t) = []
  /\ value (diffAndReplace windows cfg S S rangeNew rangeOld t) = S
  /\ forall info ts, value (detectModifications windows cfg info info ts) = [].
Proof.
  intros Hv Ht Hh HrN HrO. split; [|split].
  - destruct (sent (diffAndReplace windows cfg S S rangeNew rangeOld t)) as [| e evs] eqn:Hs;
      [reflexivity|].
    assert (He : e ∈ sent (diffAndReplace windows cfg S S rangeNew rangeOld t))
      by (rewrite Hs; left).
    apply diffAndReplace_sent_inv in He; [|assumption..].
    destruct He as [pid info ts Hc Hp _ _ | pid o n ts modif Hp Hc _ _ Hin _ | pid info ts Hp Hc _ _].
    + congruence.
    + assert (o = n) by congruence. subst o.
      rewrite fieldChecks_same in Hin by assumption. inversion Hin.
    + congruence.
  - apply diffAndReplace_value.
  - intros info ts. rewrite detectModifications_value.
    destruct (shouldMonitorProcess windows cfg info); [|reflexivity].
    now apply fieldChecks_same.
Qed.

Lemma range_of_singleton (pid : Z) (info : ProcessInfo) :
  range_of {[ pid := info ]} [(pid, info)].
Proof. unfold range_of. now rewrite map_to_list_singleton. Qed.

(** The default configuration and a one-process snapshot. *)
Lemma diff_same_snapshot_quiet_witness :
  Validate DefaultConfig = None
  /\ 1 <= ThreadChangeThreshold DefaultConfig
  /\ 1 <= HandleChangeThreshold DefaultConfig
  /\ range_of snapA rangeA
  /\ sent (diffAndReplace false DefaultConfig snapA snapA rangeA rangeA 0) = []
  /\ value (diffAndReplace false DefaultConfig snapA snapA rangeA rangeA 0) = snapA
  /\ forall info ts, value (detectModifications false DefaultConfig info info ts) = [].
Proof.
  assert (Hv : Validate DefaultConfig = None) by reflexivity.
  assert (Ht : 1 <= ThreadChangeThreshold DefaultConfig) by (vm_compute; discriminate).
  assert (Hh : 1 <= HandleChangeThreshold DefaultConfig) by (vm_compute; discriminate).
  assert (Hr : range_of snapA rangeA) by apply range_of_singleton.
  split; [exact Hv|]. split; [exact Ht|]. split; [exact Hh|]. split; [exact Hr|].
  exact (diff_same_snapshot_quiet false DefaultConfig snapA rangeA rangeA 0
           Hv (fun _ => Ht) (fun _ => Hh) Hr Hr).
Defined.

(** C1 as stated fails: a thread threshold of zero passes validation,
    and then every surviving process is reported as modified at every
    tick ([0 >= 0]). *)
Lemma diff_same_snapshot_zero_threshold :
  Validate cfgZeroThreads = None
  /\ range_of snapA rangeA
  /\ sent (diffAndReplace false cfgZeroThreads snapA snapA rangeA rangeA 0)
     = [ {| EvType := ProcessModified; EvTimestamp := 0; EvProcess := procA;
            EvModType := ThreadCountChange;
            EvDescription := "Thread count changed by 0" |} ].
Proof.
  split; [reflexivity|]. split; [apply range_of_singleton|].
  vm_compute. reflexivity.
Qed.

(** ** The memory zero-guard (C2) *)

(** C2, amended.  If memory monitoring is enabled, the memory threshold
    is a number in (0, 1], the collector's own [shouldMonitorProcess]
    accepts the new record, the old memory usage is 0 and the new one is
    greater than 0, then [detectModifications] produces a
    [MemoryModification] record.  The case [old == 0] is not
    special-cased: the division is carried out and gives [+Inf], which
    lies above [1 + threshold]. *)
Theorem memory_growth_from_zero_flagged
  (windows : bool) (cfg : MonitoringConfig) (old new : ProcessInfo) (ts : Time) :
  MonitorMemory cfg = true ->
  inUnitInterval (f64.val (MemoryChangeThreshold cfg)) = true ->
  shouldMonitorProcess windows cfg new = true ->
  MemoryUsage old = 0 ->
  0 < MemoryUsage new < 2 ^ 64 ->
  memRatio (MemoryUsage old) (MemoryUsage new) = f64.pinf
  /\ exists modif,
       modif ∈ value (detectModifications windows cfg old new ts)
       /\ ModType modif = MemoryModification
       /\ OldValue modif = VUint64 0
       /\ NewValue modif = VUint64 (MemoryUsage new).
Proof.
  intros Hmon Hthr Hguard Hold Hnew. rewrite Hold. split.
  - now apply memRatio_from_zero.
  - rewrite detectModifications_value, Hguard. rewrite <- Hold.
    apply fieldChecks_memory. split; [assumption|].
    rewrite Hold. now apply memChanged_from_zero.
Qed.

Lemma memory_growth_from_zero_flagged_witness :
  MonitorMemory DefaultConfig = true
  /\ inUnitInterval (f64.val (MemoryChangeThreshold DefaultConfig)) = true
  /\ shouldMonitorProcess false DefaultConfig procA = true
  /\ MemoryUsage procA0 = 0
  /\ 0 < MemoryUsage procA < 2 ^ 64
  /\ memRatio (MemoryUsage procA0) (MemoryUsage procA) = f64.pinf
  /\ exists modif,
       modif ∈ value (detectModifications false DefaultConfig procA0 procA 0)
       /\ ModType modif = MemoryModification
       /\ OldValue modif = VUint64 0
       /\ NewValue modif = VUint64 (MemoryUsage procA).
Proof.
  assert (Hmon : MonitorMemory DefaultConfig = true) by reflexivity.
  assert (Hthr : inUnitInterval (f64.val (MemoryChangeThreshold DefaultConfig)) = true)
    by reflexivity.
  assert (Hguard : shouldMonitorProcess false DefaultConfig procA = true)
    by (vm_compute; reflexivity).
  assert (Hold : MemoryUsage procA0 = 0) by reflexivity.
  assert (Hnew : 0 < MemoryUsage procA < 2 ^ 64) by (vm_compute; split; reflexivity).
  split; [exact Hmon|]. split; [exact Hthr|]. split; [exact Hguard|].
  split; [exact Hold|]. split; [exact Hnew|].
  exact (memory_growth_from_zero_flagged false DefaultConfig procA0 procA 0
           Hmon Hthr Hguard Hold Hnew).
Defined.

(** C2 as stated fails, in two ways.  With the inclusion pattern [n*]
    the filter lets [nginx] into both snapshots, but the collector's own
    predicate compares the name with the pattern for equality and
    rejects it: no record is produced.  And a NaN threshold, which
    [Validate] accepts, makes both comparisons false: the growth from 0
    to 5 is not flagged. *)
Lemma memory_growth_from_zero_unflagged :
  (MonitorMemory cfgIncludeGlob = true
   /\ Validate cfgIncludeGlob = None
   /\ ShouldMonitorProcess false cfgIncludeGlob nginxOld = true
   /\ ShouldMonitorProcess false cfgIncludeGlob nginxNew = true
   /\ MemoryUsage nginxOld = 0 /\ MemoryUsage nginxNew = 5
   /\ value (detectModifications false cfgIncludeGlob nginxOld nginxNew 0) = [])
  /\ (MonitorMemory cfgNaN = true
      /\ Validate cfgNaN = None
      /\ shouldMonitorProcess false cfgNaN nginxNew = true
      /\ forall modif,
           modif ∈ value (detectModifications false cfgNaN nginxOld nginxNew 0) ->
           ModType modif <> MemoryModification).
Proof.
  split.
  - repeat split; vm_compute; reflexivity.
  - split; [reflexivity|]. split; [reflexivity|]. split; [vm_compute; reflexivity|].
    intros modif Hin.
    assert (Hval : map ModType (value (detectModifications false cfgNaN nginxOld nginxNew 0))
                   = [CommandLineChange; ThreadCountChange]) by (vm_compute; reflexivity).
    apply list_elem_of_In, (in_map ModType) in Hin. rewrite Hval in Hin.
    destruct Hin as [<- | [<- | []]]; discriminate.
Qed.

(** ** The threshold boundary (C5) *)

(** The comparison itself, on the [ThreadCount] fields of the two
    records that [detectModifications] is given: with thread monitoring
    enabled, a threshold [1 <= threadChangeThreshold] and a new record
    that the collector's own [shouldMonitorProcess] accepts, a
    difference of the two fields equal to the threshold produces a
    [ThreadCountChange] record, and a difference of one less produces
    none. *)
Theorem thread_threshold_boundary
  (windows : bool) (cfg : MonitoringConfig) (old new : ProcessInfo) (ts : Time) :
  MonitorThreads cfg = true ->
  1 <= ThreadChangeThreshold cfg < 2 ^ 31 ->
  shouldMonitorProcess windows cfg new = true ->
  (Z.abs (ThreadCount new - ThreadCount old) = ThreadChangeThreshold cfg ->
   exists modif, modif ∈ value (detectModifications windows cfg old new ts)
                 /\ ModType modif = ThreadCountChange)
  /\ (Z.abs (ThreadCount new - ThreadCount old) = ThreadChangeThreshold cfg - 1 ->
      forall modif, modif ∈ value (detectModifications windows cfg old new ts) ->
                    ModType modif <> ThreadCountChange).
Proof.
  intros Hmon Hthr Hguard. rewrite detectModifications_value, Hguard. split.
  - intros Habs. apply fieldChecks_thread. split; [assumption|].
    rewrite wrap32_id by lia. rewrite absDiff_exact by lia. lia.
  - intros Habs modif Hin Hty.
    assert (Hex : exists m, m ∈ fieldChecks cfg ts old new /\ ModType m = ThreadCountChange)
      by eauto.
    apply fieldChecks_thread in Hex. destruct Hex as [_ Hle].
    rewrite wrap32_id in Hle by lia. rewrite absDiff_exact in Hle by lia. lia.
Qed.

Lemma thread_threshold_boundary_witness :
  MonitorThreads DefaultConfig = true
  /\ 1 <= ThreadChangeThreshold DefaultConfig < 2 ^ 31
  /\ shouldMonitorProcess false DefaultConfig procA7 = true
  /\ shouldMonitorProcess false DefaultConfig procA6 = true
  /\ Z.abs (ThreadCount procA7 - ThreadCount procA) = ThreadChangeThreshold DefaultConfig
  /\ Z.abs (ThreadCount procA6 - ThreadCount procA) = ThreadChangeThreshold DefaultConfig - 1
  /\ (exists modif,
        modif ∈ value (detectModifications false DefaultConfig procA procA7 0)
        /\ ModType modif = ThreadCountChange)
  /\ (forall modif,
        modif ∈ value (detectModifications false DefaultConfig procA procA6 0) ->
        ModType modif <> ThreadCountChange).
Proof.
  assert (Hmon : MonitorThreads DefaultConfig = true) by reflexivity.
  assert (Hthr : 1 <= ThreadChangeThreshold DefaultConfig < 2 ^ 31)
    by (vm_compute; split; [discriminate | reflexivity]).
  assert (Hg7 : shouldMonitorProcess false DefaultConfig procA7 = true)
    by (vm_compute; reflexivity).
  assert (Hg6 : shouldMonitorProcess false DefaultConfig procA6 = true)
    by (vm_compute; reflexivity).
  assert (Hat : Z.abs (ThreadCount procA7 - ThreadCount procA)
                = ThreadChangeThreshold DefaultConfig) by reflexivity.
  assert (Hbelow : Z.abs (ThreadCount procA6 - ThreadCount procA)
                   = ThreadChangeThreshold DefaultConfig - 1) by reflexivity.
  split; [exact Hmon|]. split; [exact Hthr|]. split; [exact Hg7|]. split; [exact Hg6|].
  split; [exact Hat|]. split; [exact Hbelow|]. split.
  - exact (proj1 (thread_threshold_boundary false DefaultConfig procA procA7 0
                    Hmon Hthr Hg7) Hat).
  - exact (proj2 (thread_threshold_boundary false DefaultConfig procA procA6 0
                    Hmon Hthr Hg6) Hbelow).
Defined.

(** Where the collector's own predicate rejects the record, no
    comparison is made: with the inclusion pattern [n*] the filter
    accepts [nginx], the two [ThreadCount] fields differ by exactly the
    threshold, and [detectModifications] returns nothing. *)
Lemma thread_threshold_reached_unflagged :
  MonitorThreads cfgIncludeGlob = true
  /\ ThreadChangeThreshold cfgIncludeGlob = 2
  /\ ShouldMonitorProcess false cfgIncludeGlob nginxOld = true
  /\ ShouldMonitorProcess false cfgIncludeGlob nginxNew = true
  /\ Z.abs (ThreadCount nginxNew - ThreadCount nginxOld) = 2
  /\ value (detectModifications false cfgIncludeGlob nginxOld nginxNew 0) = [].
Proof. repeat split; vm_compute; reflexivity. Qed.

(** C5 fails on the code.  The number of threads of a process is read
    into [NumThreads]; [detectModifications] compares [ThreadCount],
    which [getProcessInfo] never fills.  Under the default
    configuration (thread monitoring on, threshold 2) a process that
    both predicates accept goes from 4 to 6 threads between two ticks:
    it is in both snapshots, the change equals the threshold, and
    nothing is reported, neither by [detectModifications] on the two
    records nor by the poll loop, whose only event is the creation at
    the first tick. *)
Theorem thread_change_at_threshold_unreported (windows : bool) :
  MonitorThreads DefaultConfig = true
  /\ ThreadChangeThreshold DefaultConfig = 2
  /\ getRunningProcesses windows DefaultConfig (procs2, None)
     = (Some {[ 10 := info10 ]}, None)
  /\ getRunningProcesses windows DefaultConfig
       ([grown (handle 10 "nginx" "www") 6], None)
     = (Some {[ 10 := info10grown ]}, None)
  /\ NumThreads info10 = 4 /\ NumThreads info10grown = 6
  /\ ThreadCount info10 = 0 /\ ThreadCount info10grown = 0
  /\ ShouldMonitorProcess windows DefaultConfig info10grown = true
  /\ shouldMonitorProcess windows DefaultConfig info10grown = true
  /\ (forall ts, value (detectModifications windows DefaultConfig info10 info10grown ts) = [])
  /\ ranges_ok windows DefaultConfig NewProcessCollector growTicks
  /\ sent (Monitor windows DefaultConfig growTicks NewProcessCollector 0)
     = [plainEvent ProcessCreated 0 info10].
Proof.
  assert (H1 : getRunningProcesses windows DefaultConfig (procs2, None)
               = (Some {[ 10 := info10 ]}, None))
    by (destruct windows; vm_compute; reflexivity).
  assert (H2 : getRunningProcesses windows DefaultConfig
                 ([grown (handle 10 "nginx" "www") 6], None)
               = (Some {[ 10 := info10grown ]}, None))
    by (destruct windows; vm_compute; reflexivity).
  split; [reflexivity|]. split; [reflexivity|]. split; [exact H1|]. split; [exact H2|].
  split; [reflexivity|]. split; [reflexivity|]. split; [reflexivity|]. split; [reflexivity|].
  split; [destruct windows; vm_compute; reflexivity|].
  split; [destruct windows; vm_compute; reflexivity|].
  split; [intros ts; destruct windows; vm_compute; reflexivity|].
  split.
  - unfold growTicks. cbn [ranges_ok]. rewrite H1.
    split; [apply range_of_singleton|].
    split; [unfold range_of, NewProcessCollector; now rewrite map_to_list_empty|].
    rewrite H2. split; [apply range_of_singleton|].
    split; [apply range_of_singleton | exact I].
  - destruct windows; vm_compute; reflexivity.
Qed.

(** ** Re-filtering inside the diff (C3) *)

(** C3, amended.  The diff layer does evaluate filter predicates again:
    [Monitor] calls the filter on every entry and [detectModifications]
    calls the collector's own [shouldMonitorProcess].  On snapshots that
    satisfy the snapshot invariant the calls in [Monitor] change
    nothing (the cycle equals the one without them), and the result
    depends on the filter lists only through [detectModifications]'
    predicate: two filter configurations that keep both snapshots
    filter-closed and agree on that predicate for the surviving entries
    give the same diff result. *)
Theorem refilter_redundant_on_closed_snapshots
  (windows : bool) (cfg : MonitoringConfig) (excluded included users : list string)
  (prev cur : gmap Z ProcessInfo) (rangeNew rangeOld : list (Z * ProcessInfo)) (t : Time) :
  let cfg' := withFilter cfg excluded included users in
  snapshot_ok windows cfg prev -> snapshot_ok windows cfg cur ->
  snapshot_ok windows cfg' prev -> snapshot_ok windows cfg' cur ->
  range_of cur rangeNew -> range_of prev rangeOld ->
  (forall pid oldInfo newInfo,
      prev !! pid = Some oldInfo -> cur !! pid = Some newInfo ->
      shouldMonitorProcess windows cfg newInfo = shouldMonitorProcess windows cfg' newInfo) ->
  diffAndReplace windows cfg prev cur rangeNew rangeOld t
    = diffUnfiltered windows cfg prev cur rangeNew rangeOld t
  /\ diffAndReplace windows cfg prev cur rangeNew rangeOld t
     = diffAndReplace windows cfg' prev cur rangeNew rangeOld t.
Proof.
  intros cfg' Hp Hc Hp' Hc' HrN HrO Hguard. split.
  - unfold diffAndReplace, diffUnfiltered, bind.
    rewrite (forEach_ext rangeNew (checkNew windows cfg prev) (checkNewUnfiltered windows cfg prev)).
    + destruct (forEach rangeNew (checkNewUnfiltered windows cfg prev) t) as [[u1 t1] s1].
      rewrite (forEach_ext rangeOld (checkOld windows cfg cur) (checkOldUnfiltered cur));
        [reflexivity|].
      intros [pid info] t' Hin. apply (range_of_elem _ _ _ _ HrO) in Hin.
      destruct (Hp pid info Hin) as [_ Hf].
      unfold checkOld, checkOldUnfiltered. now rewrite Hf.
    + intros [pid info] t' Hin. apply (range_of_elem _ _ _ _ HrN) in Hin.
      destruct (Hc pid info Hin) as [_ Hf].
      unfold checkNew, checkNewUnfiltered. now rewrite Hf.
  - unfold diffAndReplace, bind.
    rewrite (forEach_ext rangeNew (checkNew windows cfg prev) (checkNew windows cfg' prev)).
    + destruct (forEach rangeNew (checkNew windows cfg' prev) t) as [[u1 t1] s1].
      rewrite (forEach_ext rangeOld (checkOld windows cfg cur) (checkOld windows cfg' cur));
        [reflexivity|].
      intros [pid info] t' Hin. apply (range_of_elem _ _ _ _ HrO) in Hin.
      destruct (Hp pid info Hin) as [_ Hf]. destruct (Hp' pid info Hin) as [_ Hf'].
      unfold checkOld. now rewrite Hf, Hf'.
    + intros [pid info] t' Hin. apply (range_of_elem _ _ _ _ HrN) in Hin.
      destruct (Hc pid info Hin) as [_ Hf]. destruct (Hc' pid info Hin) as [_ Hf'].
      unfold checkNew. rewrite Hf, Hf'.
      destruct (prev !! pid) as [oldInfo|] eqn:Hprev; [|reflexivity].
      unfold detectModifications. rewrite (Hguard pid oldInfo info Hprev Hin).
      reflexivity.
Qed.

Lemma snapshot_ok_singleton (windows : bool) (cfg : MonitoringConfig) (pid : Z) (info : ProcessInfo) :
  PID info = pid -> ShouldMonitorProcess windows cfg info = true ->
  snapshot_ok windows cfg {[ pid := info ]}.
Proof.
  intros Hpid Hf pid' info' Hl. apply lookup_singleton_Some in Hl.
  destruct Hl as [<- <-]. split; assumption.
Qed.

Lemma refilter_redundant_on_closed_snapshots_witness :
  snapshot_ok false DefaultConfig snapOld
  /\ snapshot_ok false DefaultConfig snapNew
  /\ snapshot_ok false (withFilter DefaultConfig excludeMore [] ["root"]) snapOld
  /\ snapshot_ok false (withFilter DefaultConfig excludeMore [] ["root"]) snapNew
  /\ range_of snapNew [(7, nginxNew)]
  /\ range_of snapOld [(7, nginxOld)]
  /\ diffAndReplace false DefaultConfig snapOld snapNew [(7, nginxNew)] [(7, nginxOld)] 0
     = diffUnfiltered false DefaultConfig snapOld snapNew [(7, nginxNew)] [(7, nginxOld)] 0
  /\ diffAndReplace false DefaultConfig snapOld snapNew [(7, nginxNew)] [(7, nginxOld)] 0
     = diffAndReplace false (withFilter DefaultConfig excludeMore [] ["root"])
         snapOld snapNew [(7, nginxNew)] [(7, nginxOld)] 0.
Proof.
  assert (H1 : snapshot_ok false DefaultConfig snapOld)
    by (apply snapshot_ok_singleton; vm_compute; reflexivity).
  assert (H2 : snapshot_ok false DefaultConfig snapNew)
    by (apply snapshot_ok_singleton; vm_compute; reflexivity).
  assert (H3 : snapshot_ok false (withFilter DefaultConfig excludeMore [] ["root"]) snapOld)
    by (apply snapshot_ok_singleton; vm_compute; reflexivity).
  assert (H4 : snapshot_ok false (withFilter DefaultConfig excludeMore [] ["root"]) snapNew)
    by (apply snapshot_ok_singleton; vm_compute; reflexivity).
  assert (H5 : range_of snapNew [(7, nginxNew)]) by apply range_of_singleton.
  assert (H6 : range_of snapOld [(7, nginxOld)]) by apply range_of_singleton.
  assert (H7 : forall pid oldInfo newInfo,
             snapOld !! pid = Some oldInfo -> snapNew !! pid = Some newInfo ->
             shouldMonitorProcess false DefaultConfig newInfo
             = shouldMonitorProcess false (withFilter DefaultConfig excludeMore [] ["root"]) newInfo).
  { intros pid oldInfo newInfo _ Hcur. unfold snapNew in Hcur.
    apply lookup_singleton_Some in Hcur. destruct Hcur as [_ <-]. vm_compute. reflexivity. }
  split; [exact H1|]. split; [exact H2|]. split; [exact H3|]. split; [exact H4|].
  split; [exact H5|]. split; [exact H6|].
  exact (refilter_redundant_on_closed_snapshots false DefaultConfig excludeMore [] ["root"]
           snapOld snapNew [(7, nginxNew)] [(7, nginxOld)] 0 H1 H2 H3 H4 H5 H6 H7).
Defined.

(** C3 as stated fails: the same two snapshots, filter-closed under the
    default filter lists and under the lists with the inclusion pattern
    [n*], give three modification events under the former and none
    under the latter. *)
Lemma diff_depends_on_filter :
  cfgIncludeGlob = withFilter DefaultConfig ["svchost.exe"; "RuntimeBroker.exe"] ["n*"] ["root"]
  /\ snapshot_ok false DefaultConfig snapOld /\ snapshot_ok false DefaultConfig snapNew
  /\ snapshot_ok false cfgIncludeGlob snapOld /\ snapshot_ok false cfgIncludeGlob snapNew
  /\ range_of snapNew [(7, nginxNew)] /\ range_of snapOld [(7, nginxOld)]
  /\ map EvModType
       (sent (diffAndReplace false DefaultConfig snapOld snapNew [(7, nginxNew)] [(7, nginxOld)] 0))
     = [CommandLineChange; ThreadCountChange; MemoryModification]
  /\ sent (diffAndReplace false cfgIncludeGlob snapOld snapNew [(7, nginxNew)] [(7, nginxOld)] 0)
     = [].
Proof.
  split; [reflexivity|].
  split; [apply snapshot_ok_singleton; vm_compute; reflexivity|].
  split; [apply snapshot_ok_singleton; vm_compute; reflexivity|].
  split; [apply snapshot_ok_singleton; vm_compute; reflexivity|].
  split; [apply snapshot_ok_singleton; vm_compute; reflexivity|].
  split; [apply range_of_singleton|].
  split; [apply range_of_singleton|].
  split; vm_compute; reflexivity.
Qed.

Lemma fieldChecks_length_clock (cfg : MonitoringConfig) (t1 t2 : Time) (old new : ProcessInfo) :
  length (fieldChecks cfg t1 old new) = length (fieldChecks cfg t2 old new).
Proof.
  rewrite !fieldChecks_parts, !length_app.
  repeat match goal with
         | |- context [if ?c then _ else _] => destruct c
         end; reflexivity.
Qed.

Section Partition.
Variable windows : bool.
Variable cfg : MonitoringConfig.
Variables prev cur : gmap Z ProcessInfo.
Variables rangeNew rangeOld : list (Z * ProcessInfo).
Variable t : Time.
Hypothesis prev_ok : snapshot_ok windows cfg prev.
Hypothesis cur_ok : snapshot_ok windows cfg cur.
Hypothesis rangeNew_ok : range_of cur rangeNew.
Hypothesis rangeOld_ok : range_of prev rangeOld.

Local Abbreviation evs := (sent (diffAndReplace windows cfg prev cur rangeNew rangeOld t)).

(** Every event of the cycle is of one of three kinds, and its kind
    tells where its PID occurs. *)
Lemma event_kind (e : ProcessEvent) :
  e ∈ evs ->
  (EvType e = ProcessCreated
   /\ cur !! PID (EvProcess e) = Some (EvProcess e) /\ prev !! PID (EvProcess e) = None)
  \/ (EvType e = ProcessModified
      /\ cur !! PID (EvProcess e) = Some (EvProcess e) /\ is_Some (prev !! PID (EvProcess e)))
  \/ (EvType e = ProcessTerminated
      /\ prev !! PID (EvProcess e) = Some (EvProcess e) /\ cur !! PID (EvProcess e) = None).
Proof.
  intros He. apply diffAndReplace_sent_inv in He; [|assumption..].
  destruct He as [pid info ts Hc Hp _ -> | pid o n ts modif Hp Hc _ _ _ -> | pid info ts Hp Hc _ ->];
    cbn [plainEvent modifiedEvent EvType EvProcess].
  - destruct (cur_ok pid info Hc) as [-> _]. left. auto.
  - destruct (cur_ok pid n Hc) as [-> _]. right. left. eauto.
  - destruct (prev_ok pid info Hp) as [-> _]. right. right. auto.
Qed.

Lemma created_iff (pid : Z) :
  classified evs prev cur pid ClassCreated <-> is_Some (cur !! pid) /\ prev !! pid = None.
Proof.
  split.
  - intros (e & He & Hty & <-).
    destruct (event_kind e He) as [(_ & Hc & Hp) | [(Hty' & _) | (Hty' & _)]];
      [eauto | congruence | congruence].
  - intros [[info Hc] Hp].
    destruct (cur_ok pid info Hc) as [Hpid Hf].
    destruct (diffAndReplace_created windows cfg prev cur rangeNew rangeOld t pid info)
      as (ts & Hin); try assumption.
    exists (plainEvent ProcessCreated ts info). split; [exact Hin|]. split; [reflexivity | exact Hpid].
Qed.

Lemma terminated_iff (pid : Z) :
  classified evs prev cur pid ClassTerminated <-> is_Some (prev !! pid) /\ cur !! pid = None.
Proof.
  split.
  - intros (e & He & Hty & <-).
    destruct (event_kind e He) as [(Hty' & _) | [(Hty' & _) | (_ & Hp & Hc)]];
      [congruence | congruence | eauto].
  - intros [[info Hp] Hc].
    destruct (prev_ok pid info Hp) as [Hpid Hf].
    destruct (diffAndReplace_terminated windows cfg prev cur rangeNew rangeOld t pid info)
      as (ts & Hin); try assumption.
    exists (plainEvent ProcessTerminated ts info). split; [exact Hin|]. split; [reflexivity | exact Hpid].
Qed.

Lemma modified_both (pid : Z) :
  classified evs prev cur pid ClassUnchangedModified ->
  is_Some (prev !! pid) /\ is_Some (cur !! pid).
Proof.
  intros (e & He & Hty & <-).
  destruct (event_kind e He) as [(Hty' & _) | [(_ & Hc & Hp) | (Hty' & _)]];
    [congruence | eauto | congruence].
Qed.

(** A surviving PID is modified exactly when its modification list is
    not empty. *)
Lemma modified_iff (pid : Z) :
  classified evs prev cur pid ClassUnchangedModified <->
  exists oldInfo newInfo ts,
    prev !! pid = Some oldInfo /\ cur !! pid = Some newInfo
    /\ value (detectModifications windows cfg oldInfo newInfo ts) <> [].
Proof.
  split.
  - intros (e & He & Hty & <-).
    apply diffAndReplace_sent_inv in He; [|assumption..].
    destruct He as [p info ts Hc Hp _ -> | p o n ts modif Hp Hc _ Hg Hin -> | p info ts Hp Hc _ ->];
      try discriminate Hty.
    cbn [modifiedEvent EvProcess]. destruct (cur_ok p n Hc) as [-> _].
    exists o, n, ts. split; [assumption|]. split; [assumption|].
    rewrite detectModifications_value, Hg. intros Hnil. rewrite Hnil in Hin. inversion Hin.
  - intros (o & n & ts & Hp & Hc & Hne).
    destruct (cur_ok pid n Hc) as [Hpid Hf].
    assert (Hcur := Hc). apply (range_of_elem _ _ _ _ rangeNew_ok) in Hc.
    destruct (forEach_sent_intro rangeNew (checkNew windows cfg prev) t _ Hc) as (ts' & Hts').
    rewrite detectModifications_value in Hne.
    destruct (shouldMonitorProcess windows cfg n) eqn:Hg; [|congruence].
    destruct (fieldChecks cfg ts' o n) as [| modif mods] eqn:Hfc.
    { exfalso. apply Hne. apply length_zero_iff_nil.
      rewrite (fieldChecks_length_clock cfg ts ts'), Hfc. reflexivity. }
    exists (modifiedEvent n modif). split; [|split; [reflexivity | exact Hpid]].
    rewrite diffAndReplace_sent. apply elem_of_app. left. apply Hts'.
    rewrite checkNew_sent, Hp, Hf, detectModifications_value, Hg, Hfc. left.
Qed.

Lemma classified_covered (pid : Z) (cls : PidClass) :
  classified evs prev cur pid cls -> is_Some (prev !! pid) \/ is_Some (cur !! pid).
Proof.
  destruct cls; intros H.
  - apply created_iff in H. tauto.
  - apply terminated_iff in H. tauto.
  - destruct H as (Hp & _). tauto.
  - apply modified_both in H. tauto.
Qed.

Lemma classified_exists (pid : Z) :
  is_Some (prev !! pid) \/ is_Some (cur !! pid) -> exists cls, classified evs prev cur pid cls.
Proof.
  intros Hdom.
  destruct (prev !! pid) as [o|] eqn:Hp; destruct (cur !! pid) as [n|] eqn:Hc.
  - destruct (decide (Exists (fun e => PID (EvProcess e) = pid) evs)) as [Hex | Hnex].
    + apply Exists_exists in Hex. destruct Hex as (e & He & Hpid).
      exists ClassUnchangedModified. exists e. split; [exact He|].
      destruct (event_kind e He) as [(_ & _ & Hp') | [(Hty & _) | (_ & _ & Hc')]].
      * rewrite Hpid in Hp'. congruence.
      * split; assumption.
      * rewrite Hpid in Hc'. congruence.
    + exists ClassUnchangedNoMod. cbn. rewrite Hp, Hc. split; [eauto|]. split; [eauto|].
      intros e He Hpid. apply Hnex. apply Exists_exists. eauto.
  - exists ClassTerminated. apply terminated_iff. rewrite Hp, Hc. eauto.
  - exists ClassCreated. apply created_iff. rewrite Hp, Hc. eauto.
  - destruct Hdom as [[? ?] | [? ?]]; discriminate.
Qed.

Lemma classified_unique (pid : Z) (c1 c2 : PidClass) :
  classified evs prev cur pid c1 -> classified evs prev cur pid c2 -> c1 = c2.
Proof.
  assert (Hquiet : classified evs prev cur pid ClassUnchangedModified ->
                   classified evs prev cur pid ClassUnchangedNoMod -> False).
  { intros (e & He & _ & Hpid) (_ & _ & Hnone). exact (Hnone e He Hpid). }
  intros H1 H2.
  destruct c1, c2; try reflexivity; exfalso;
    try (apply (Hquiet ltac:(assumption) ltac:(assumption)));
    repeat match goal with
           | H : classified _ _ _ _ ClassCreated |- _ =>
               apply created_iff in H; destruct H as [[? ?] ?]
           | H : classified _ _ _ _ ClassTerminated |- _ =>
               apply terminated_iff in H; destruct H as [[? ?] ?]
           | H : classified _ _ _ _ ClassUnchangedModified |- _ =>
               apply modified_both in H; destruct H as [[? ?] [? ?]]
           | H : classified _ _ _ _ ClassUnchangedNoMod |- _ =>
               destruct H as ([? ?] & [? ?] & _)
           end;
    congruence.
Qed.
End Partition.

(** C4 (snapshot partition).  For two snapshots that satisfy the
    snapshot invariant, whatever the two iteration orders, the events of
    one diff cycle put every PID of [keys(prev) ∪ keys(cur)] into exactly
    one of the four classes (and no other PID into any): created, the
    PIDs in [cur] only; terminated, the PIDs in [prev] only; unchanged
    with or without modification, PIDs in both. *)
Theorem snapshot_partition
  (windows : bool) (cfg : MonitoringConfig) (prev cur : gmap Z ProcessInfo)
  (rangeNew rangeOld : list (Z * ProcessInfo)) (t : Time) :
  snapshot_ok windows cfg prev -> snapshot_ok windows cfg cur ->
  range_of cur rangeNew -> range_of prev rangeOld ->
  forall pid,
    (pid ∈ dom prev ∪ dom cur <->
     exists cls,
       classified (sent (diffAndReplace windows cfg prev cur rangeNew rangeOld t))
                  prev cur pid cls)
    /\ (forall c1 c2,
          classified (sent (diffAndReplace windows cfg prev cur rangeNew rangeOld t))
                     prev cur pid c1 ->
          classified (sent (diffAndReplace windows cfg prev cur rangeNew rangeOld t))
                     prev cur pid c2 ->
          c1 = c2)
    /\ (classified (sent (diffAndReplace windows cfg prev cur rangeNew rangeOld t))
                   prev cur pid ClassCreated
        <-> pid ∈ dom cur /\ pid ∉ dom prev)
    /\ (classified (sent (diffAndReplace windows cfg prev cur rangeNew rangeOld t))
                   prev cur pid ClassTerminated
        <-> pid ∈ dom prev /\ pid ∉ dom cur)
    /\ (classified (sent (diffAndReplace windows cfg prev cur rangeNew rangeOld t))
                   prev cur pid ClassUnchangedNoMod
        -> pid ∈ dom prev /\ pid ∈ dom cur)
    /\ (classified (sent (diffAndReplace windows cfg prev cur rangeNew rangeOld t))
                   prev cur pid ClassUnchangedModified
        <-> exists oldInfo newInfo ts,
              prev !! pid = Some oldInfo /\ cur !! pid = Some newInfo
              /\ value (detectModifications windows cfg oldInfo newInfo ts) <> []).
Proof.
  intros Hp Hc HrN HrO pid.
  rewrite elem_of_union, !not_elem_of_dom, !elem_of_dom.
  split; [|split; [|split; [|split; [|split]]]].
  - split.
    + now apply classified_exists.
    + intros [cls Hcls]. now apply (classified_covered windows cfg prev cur rangeNew rangeOld t) in Hcls.
  - intros c1 c2. now apply classified_unique.
  - now apply created_iff.
  - now apply terminated_iff.
  - intros (Hin_prev & Hin_cur & _). split; assumption.
  - now apply modified_iff.
Qed.

(** Process 100 disappears and process 7 appears; the PID looked at
    is 7. *)
Lemma snapshot_partition_witness :
  snapshot_ok false DefaultConfig snapA
  /\ snapshot_ok false DefaultConfig snapNew
  /\ range_of snapNew [(7, nginxNew)]
  /\ range_of snapA rangeA
  /\ (7 ∈ dom snapA ∪ dom snapNew <->
      exists cls, classified 
        (sent (diffAndReplace false DefaultConfig snapA snapNew [(7, nginxNew)] rangeA 0))
        snapA snapNew 7 cls)
  /\ (forall c1 c2,
        classified 
        (sent (diffAndReplace false DefaultConfig snapA snapNew [(7, nginxNew)] rangeA 0))
        snapA snapNew 7 c1 ->
        classified 
        (sent (diffAndReplace false DefaultConfig snapA snapNew [(7, nginxNew)] rangeA 0))
        snapA snapNew 7 c2 ->
        c1 = c2)
  /\ (classified 
        (sent (diffAndReplace false DefaultConfig snapA snapNew [(7, nginxNew)] rangeA 0))
        snapA snapNew 7 ClassCreated
      <-> 7 ∈ dom snapNew /\ 7 ∉ dom snapA)
  /\ (classified 
        (sent (diffAndReplace false DefaultConfig snapA snapNew [(7, nginxNew)] rangeA 0))
        snapA snapNew 7 ClassTerminated
      <-> 7 ∈ dom snapA /\ 7 ∉ dom snapNew)
  /\ (classified 
        (sent (diffAndReplace false DefaultConfig snapA snapNew [(7, nginxNew)] rangeA 0))
        snapA snapNew 7 ClassUnchangedNoMod
      -> 7 ∈ dom snapA /\ 7 ∈ dom snapNew)
  /\ (classified 
        (sent (diffAndReplace false DefaultConfig snapA snapNew [(7, nginxNew)] rangeA 0))
        snapA snapNew 7 ClassUnchangedModified
      <-> exists oldInfo newInfo ts,
            snapA !! 7 = Some oldInfo /\ snapNew !! 7 = Some newInfo
            /\ value (detectModifications false DefaultConfig oldInfo newInfo ts) <> []).
Proof.
  assert (H1 : snapshot_ok false DefaultConfig snapA)
    by (apply snapshot_ok_singleton; vm_compute; reflexivity).
  assert (H2 : snapshot_ok false DefaultConfig snapNew)
    by (apply snapshot_ok_singleton; vm_compute; reflexivity).
  assert (H3 : range_of snapNew [(7, nginxNew)]) by apply range_of_singleton.
  assert (H4 : range_of snapA rangeA) by apply range_of_singleton.
  split; [exact H1|]. split; [exact H2|]. split; [exact H3|]. split; [exact H4|].
  exact (snapshot_partition false DefaultConfig snapA snapNew [(7, nginxNew)] rangeA 0
           H1 H2 H3 H4 7).
Defined.

(** ** The invariant along the poll loop *)

Lemma snapshot_ok_empty (windows : bool) (cfg : MonitoringConfig) :
  snapshot_ok windows cfg ∅.
Proof. intros pid info Hl. rewrite lookup_empty in Hl. discriminate. Qed.

Lemma tick_ok (windows : bool) (cfg : MonitoringConfig)
      (currentProcesses : gmap Z ProcessInfo)
      (enum : list process.Process * option goerror)
      (rangeNew rangeOld : list (Z * ProcessInfo)) (t : Time) :
  snapshot_ok windows cfg currentProcesses ->
  snapshot_ok windows cfg (value (tick windows cfg currentProcesses enum rangeNew rangeOld t)).
Proof.
  intros Hok. unfold tick.
  destruct (getRunningProcesses windows cfg enum) as [[snapshot|] [err|]] eqn:Hrun;
    try exact Hok.
  rewrite diffAndReplace_value.
  apply (getRunningProcesses_ok windows cfg enum). now rewrite Hrun.
Qed.

(** Every snapshot that [Monitor] retains, started from the empty map of
    [NewProcessCollector], satisfies the snapshot invariant. *)
Lemma Monitor_ok (windows : bool) (cfg : MonitoringConfig) (sel : list Select)
      (currentProcesses : gmap Z ProcessInfo) (t : Time) :
  snapshot_ok windows cfg currentProcesses ->
  snapshot_ok windows cfg (fst (value (Monitor windows cfg sel currentProcesses t))).
Proof.
  revert currentProcesses t. induction sel as [| [| enum rangeNew rangeOld] rest IH];
    intros currentProcesses t Hok; try exact Hok.
  cbn [Monitor]. rewrite value_bind. apply IH. now apply tick_ok.
Qed.

(* ===================================================================== *)
(** * Further properties: the poll loop                                  *)
(* ===================================================================== *)

Section PollLoop.
Variable windows : bool.
Variable cfg : MonitoringConfig.

Lemma tick_run (currentProcesses : gmap Z ProcessInfo)
      (enum : list process.Process * option goerror)
      (rangeNew rangeOld : list (Z * ProcessInfo)) (t : Time) :
  (exists newSnapshot,
      getRunningProcesses windows cfg enum = (Some newSnapshot, None)
      /\ tick windows cfg currentProcesses enum rangeNew rangeOld t
         = diffAndReplace windows cfg currentProcesses newSnapshot rangeNew rangeOld t)
  \/ (snd (getRunningProcesses windows cfg enum) <> None
      /\ tick windows cfg currentProcesses enum rangeNew rangeOld t = (currentProcesses, t, [])).
Proof.
  unfold tick. destruct enum as [procs [[msg]|]]; cbn [getRunningProcesses snd].
  - right. split; [discriminate | reflexivity].
  - left. eexists. split; reflexivity.
Qed.

(** An induction principle for the events of the poll loop: a property
    of events that every diff cycle between snapshots satisfying an
    invariant ensures, where the invariant holds of every snapshot that
    [getRunningProcesses] builds, holds of every event of a run. *)
Lemma Monitor_sent_ind (Inv : gmap Z ProcessInfo -> Prop) (P : ProcessEvent -> Prop) :
  (forall enum newSnapshot,
      getRunningProcesses windows cfg enum = (Some newSnapshot, None) -> Inv newSnapshot) ->
  (forall prev cur rangeNew rangeOld t e,
      Inv prev -> Inv cur -> range_of cur rangeNew -> range_of prev rangeOld ->
      e ∈ sent (diffAndReplace windows cfg prev cur rangeNew rangeOld t) -> P e) ->
  forall sel currentProcesses t e,
    Inv currentProcesses -> ranges_ok windows cfg currentProcesses sel ->
    e ∈ sent (Monitor windows cfg sel currentProcesses t) -> P e.
Proof.
  intros Hbuild Hcycle sel.
  induction sel as [| [| enum rangeNew rangeOld] rest IH]; intros cur t e Hinv Hr He.
  - inversion He.
  - inversion He.
  - cbn [Monitor] in He. rewrite sent_bind in He. cbn [ranges_ok] in Hr.
    destruct (tick_run cur enum rangeNew rangeOld t) as [(new & Hrun & Htick) | (Herr & Htick)].
    + rewrite Hrun in Hr. destruct Hr as (HrN & HrO & Hrest).
      rewrite Htick in He. apply elem_of_app in He. destruct He as [He | He].
      * exact (Hcycle cur new rangeNew rangeOld t e Hinv (Hbuild _ _ Hrun) HrN HrO He).
      * rewrite diffAndReplace_value in He.
        exact (IH new _ e (Hbuild _ _ Hrun) Hrest He).
    + rewrite Htick in He. cbn [sent value clockAfter fst snd app] in He.
      apply (IH cur t e Hinv); [|exact He].
      destruct (getRunningProcesses windows cfg enum) as [[new|] [err|]];
        cbn [snd] in Herr; try congruence; exact Hr.
Qed.
End PollLoop.

(** X2.  The snapshot retained by the poll loop of a new collector is keyed
    by PID and filter-closed, after any sequence of ticks, failed
    enumerations and iteration orders. *)
Theorem Monitor_retains_closed_snapshot
  (windows : bool) (cfg : MonitoringConfig) (sel : list Select) (t : Time) :
  snapshot_ok windows cfg (fst (value (Monitor windows cfg sel NewProcessCollector t))).
Proof. apply Monitor_ok, snapshot_ok_empty. Qed.

(** X3.  No event of the poll loop is about a record that the filter
    rejects: a created or modified event carries a record of the new
    snapshot that the filter accepts, a terminated event one of the
    retained snapshot. *)
Theorem Monitor_events_pass_filter
  (windows : bool) (cfg : MonitoringConfig) (sel : list Select)
  (currentProcesses : gmap Z ProcessInfo) (t : Time) (e : ProcessEvent) :
  ranges_ok windows cfg currentProcesses sel ->
  e ∈ sent (Monitor windows cfg sel currentProcesses t) ->
  ShouldMonitorProcess windows cfg (EvProcess e) = true.
Proof.
  intros Hr He.
  apply (Monitor_sent_ind windows cfg (fun _ => True)
           (fun e => ShouldMonitorProcess windows cfg (EvProcess e) = true))
    with (sel := sel) (currentProcesses := currentProcesses) (t := t); auto.
  clear. intros prev cur rangeNew rangeOld t e _ _ HrN HrO He.
  apply diffAndReplace_sent_inv in He; [|assumption..].
  destruct He as [pid info ts _ _ Hf -> | pid o n ts modif _ _ Hf _ _ -> | pid info ts _ _ Hf ->];
    exact Hf.
Qed.

Lemma getRunningProcesses_procs2 (windows : bool) :
  getRunningProcesses windows DefaultConfig (procs2, None) = (Some {[ 10 := info10 ]}, None).
Proof.
  destruct windows; vm_compute; reflexivity.
Qed.

Lemma ranges_ok_oneTick : ranges_ok false DefaultConfig NewProcessCollector oneTick.
Proof.
  unfold oneTick. cbn [ranges_ok]. rewrite getRunningProcesses_procs2.
  split; [apply range_of_singleton|]. split; [|exact I].
  unfold range_of, NewProcessCollector. now rewrite map_to_list_empty.
Qed.

Lemma Monitor_events_pass_filter_witness :
  ranges_ok false DefaultConfig NewProcessCollector oneTick
  /\ plainEvent ProcessCreated 0 info10
       ∈ sent (Monitor false DefaultConfig oneTick NewProcessCollector 0)
  /\ ShouldMonitorProcess false DefaultConfig (EvProcess (plainEvent ProcessCreated 0 info10)) = true.
Proof.
  assert (Hr := ranges_ok_oneTick).
  assert (He : plainEvent ProcessCreated 0 info10
                 ∈ sent (Monitor false DefaultConfig oneTick NewProcessCollector 0)).
  { unfold oneTick. cbn [Monitor]. rewrite sent_bind. apply elem_of_app. left.
    unfold tick. rewrite getRunningProcesses_procs2, diffAndReplace_sent.
    apply elem_of_app. left. cbn [forEach]. rewrite sent_bind. apply elem_of_app. left.
    rewrite checkNew_sent. unfold NewProcessCollector. rewrite lookup_empty.
    replace (ShouldMonitorProcess false DefaultConfig info10) with true
      by (vm_compute; reflexivity).
    left. }
  split; [exact Hr|]. split; [exact He|].
  exact (Monitor_events_pass_filter false DefaultConfig oneTick NewProcessCollector 0 _ Hr He).
Defined.

(** ** The shape of a diff cycle *)

Section Cycle.
Variable windows : bool.
Variable cfg : MonitoringConfig.

Lemma forEach_checkNew_types (prev : gmap Z ProcessInfo) (l : list (Z * ProcessInfo)) (t : Time) :
  Forall (fun e => EvType e <> ProcessTerminated)
         (sent (forEach l (checkNew windows cfg prev) t)).
Proof.
  revert t. induction l as [| [pid info] l IH]; intros t; [constructor|].
  rewrite forEach_cons. apply Forall_app. split; [|apply IH].
  rewrite checkNew_sent.
  destruct (prev !! pid); destruct (ShouldMonitorProcess windows cfg info);
    try constructor; try discriminate; try constructor.
  apply Forall_forall. intros e He. apply list_elem_of_In, in_map_iff in He.
  destruct He as (modif & <- & _). discriminate.
Qed.

Lemma forEach_checkOld_types (cur : gmap Z ProcessInfo) (l : list (Z * ProcessInfo)) (t : Time) :
  Forall (fun e => EvType e = ProcessTerminated)
         (sent (forEach l (checkOld windows cfg cur) t)).
Proof.
  revert t. induction l as [| [pid info] l IH]; intros t; [constructor|].
  rewrite forEach_cons. apply Forall_app. split; [|apply IH].
  rewrite checkOld_sent.
  destruct (cur !! pid); destruct (ShouldMonitorProcess windows cfg info);
    repeat constructor.
Qed.

(** A loop of [checkOld] over entries that are all gone and all pass
    the filter. *)
Lemma forEach_checkOld_all (cur : gmap Z ProcessInfo) (l : list (Z * ProcessInfo)) (t : Time) :
  (forall pid info, (pid, info) ∈ l ->
     cur !! pid = None /\ ShouldMonitorProcess windows cfg info = true) ->
  forEach l (checkOld windows cfg cur) t
  = (tt, t + Z.of_nat (length l), stamped ProcessTerminated t l).
Proof.
  revert t. induction l as [| [pid info] l IH]; intros t Hall.
  - cbn. now rewrite Z.add_0_r.
  - cbn [forEach]. unfold bind.
    destruct (Hall pid info ltac:(left)) as [Hgone Hf].
    unfold checkOld at 1. rewrite Hgone, Hf. unfold bind. cbn [timeNow send].
    rewrite IH by (intros; apply Hall; now right).
    cbn [stamped length app]. f_equal. f_equal. lia.
Qed.

(** A loop of [checkNew] over entries that are all new and all pass the
    filter. *)
Lemma forEach_checkNew_all (prev : gmap Z ProcessInfo) (l : list (Z * ProcessInfo)) (t : Time) :
  (forall pid info, (pid, info) ∈ l ->
     prev !! pid = None /\ ShouldMonitorProcess windows cfg info = true) ->
  forEach l (checkNew windows cfg prev) t
  = (tt, t + Z.of_nat (length l), stamped ProcessCreated t l).
Proof.
  revert t. induction l as [| [pid info] l IH]; intros t Hall.
  - cbn. now rewrite Z.add_0_r.
  - cbn [forEach]. unfold bind.
    destruct (Hall pid info ltac:(left)) as [Hnew Hf].
    unfold checkNew at 1. rewrite Hnew, Hf. unfold bind. cbn [timeNow send].
    rewrite IH by (intros; apply Hall; now right).
    cbn [stamped length app]. f_equal. f_equal. lia.
Qed.

Lemma range_of_empty (l : list (Z * ProcessInfo)) : range_of ∅ l -> l = [].
Proof.
  unfold range_of. rewrite map_to_list_empty. apply Permutation_nil_r.
Qed.
End Cycle.

(** X4.  Within one diff cycle every created and every modified event is
    sent before the first terminated event, whatever the snapshots and
    the iteration orders. *)
Theorem diff_cycle_terminated_last
  (windows : bool) (cfg : MonitoringConfig) (prev cur : gmap Z ProcessInfo)
  (rangeNew rangeOld : list (Z * ProcessInfo)) (t : Time) :
  exists evsNew evsOld,
    sent (diffAndReplace windows cfg prev cur rangeNew rangeOld t) = evsNew ++ evsOld
    /\ Forall (fun e => EvType e <> ProcessTerminated) evsNew
    /\ Forall (fun e => EvType e = ProcessTerminated) evsOld.
Proof.
  eexists _, _. split; [apply diffAndReplace_sent|].
  split; [apply forEach_checkNew_types | apply forEach_checkOld_types].
Qed.

(** X5.  An enumeration that succeeds with no process at all is taken at its
    word: the tick reports every retained process as terminated, one
    event per process in iteration order, and replaces the retained
    snapshot by the empty map. *)
Theorem empty_enumeration_terminates_all
  (windows : bool) (cfg : MonitoringConfig) (prev : gmap Z ProcessInfo)
  (rangeNew rangeOld : list (Z * ProcessInfo)) (t : Time) :
  snapshot_ok windows cfg prev ->
  range_of ∅ rangeNew -> range_of prev rangeOld ->
  tick windows cfg prev ([], None) rangeNew rangeOld t
  = (∅, t + Z.of_nat (size prev), stamped ProcessTerminated t rangeOld).
Proof.
  intros Hok HrN HrO. apply range_of_empty in HrN. subst rangeNew.
  unfold tick. cbn [getRunningProcesses fold_left]. unfold diffAndReplace, bind.
  cbn [forEach ret].
  rewrite (forEach_checkOld_all windows cfg ∅ rangeOld t).
  - cbn [app]. rewrite app_nil_r.
    replace (length rangeOld) with (size prev); [reflexivity|].
    unfold range_of in HrO. rewrite HrO. symmetry. apply length_map_to_list.
  - intros pid info Hin. apply (range_of_elem _ _ _ _ HrO) in Hin.
    split; [apply lookup_empty | apply (Hok pid info Hin)].
Qed.

Lemma empty_enumeration_terminates_all_witness :
  snapshot_ok false DefaultConfig snapA
  /\ range_of ∅ [] /\ range_of snapA rangeA
  /\ tick false DefaultConfig snapA ([], None) [] rangeA 0
     = (∅, 0 + Z.of_nat (size snapA), stamped ProcessTerminated 0 rangeA).
Proof.
  assert (H1 : snapshot_ok false DefaultConfig snapA)
    by (apply snapshot_ok_singleton; vm_compute; reflexivity).
  assert (H2 : range_of (∅ : gmap Z ProcessInfo) [])
    by (unfold range_of; now rewrite map_to_list_empty).
  assert (H3 : range_of snapA rangeA) by apply range_of_singleton.
  split; [exact H1|]. split; [exact H2|]. split; [exact H3|].
  exact (empty_enumeration_terminates_all false DefaultConfig snapA [] rangeA 0 H1 H2 H3).
Defined.

(** X6.  The first successful tick of a new collector reports every process
    of the new snapshot as created, one event per process in iteration
    order, and nothing else, and retains the new snapshot. *)
Theorem first_tick_creates_all
  (windows : bool) (cfg : MonitoringConfig)
  (procs : list process.Process) (newSnapshot : gmap Z ProcessInfo)
  (rangeNew rangeOld : list (Z * ProcessInfo)) (t : Time) :
  getRunningProcesses windows cfg (procs, None) = (Some newSnapshot, None) ->
  range_of newSnapshot rangeNew -> range_of NewProcessCollector rangeOld ->
  tick windows cfg NewProcessCollector (procs, None) rangeNew rangeOld t
  = (newSnapshot, t + Z.of_nat (size newSnapshot), stamped ProcessCreated t rangeNew).
Proof.
  intros Hrun HrN HrO. apply range_of_empty in HrO. subst rangeOld.
  assert (Hok : snapshot_ok windows cfg newSnapshot)
    by (apply (getRunningProcesses_ok windows cfg (procs, None)); now rewrite Hrun).
  unfold tick. rewrite Hrun. unfold diffAndReplace, bind.
  rewrite (forEach_checkNew_all windows cfg NewProcessCollector rangeNew t).
  - cbn [forEach ret app]. rewrite app_nil_r.
    replace (length rangeNew) with (size newSnapshot); [reflexivity|].
    unfold range_of in HrN. rewrite HrN. symmetry. apply length_map_to_list.
  - intros pid info Hin. apply (range_of_elem _ _ _ _ HrN) in Hin.
    split; [apply lookup_empty | apply (Hok pid info Hin)].
Qed.

Lemma first_tick_creates_all_witness :
  getRunningProcesses false DefaultConfig (procs2, None) = (Some {[ 10 := info10 ]}, None)
  /\ range_of {[ 10 := info10 ]} [(10, info10)]
  /\ range_of NewProcessCollector []
  /\ tick false DefaultConfig NewProcessCollector (procs2, None) [(10, info10)] [] 0
     = ({[ 10 := info10 ]}, 0 + Z.of_nat (size ({[ 10 := info10 ]} : gmap Z ProcessInfo)),
        stamped ProcessCreated 0 [(10, info10)]).
Proof.
  assert (H1 := getRunningProcesses_procs2 false).
  assert (H2 : range_of {[ 10 := info10 ]} [(10, info10)]) by apply range_of_singleton.
  assert (H3 : range_of NewProcessCollector [])
    by (unfold range_of, NewProcessCollector; now rewrite map_to_list_empty).
  split; [exact H1|]. split; [exact H2|]. split; [exact H3|].
  exact (first_tick_creates_all false DefaultConfig procs2 _ [(10, info10)] [] 0 H1 H2 H3).
Defined.

(* ===================================================================== *)
(** * Further properties: enumeration                                    *)
(* ===================================================================== *)

Section Snapshot.
Variable windows : bool.
Variable cfg : MonitoringConfig.

Lemma fold_addProcess_entry (procs : list process.Process) (acc : gmap Z ProcessInfo)
      (pid : Z) (info : ProcessInfo) :
  fold_left (addProcess windows cfg) procs acc !! pid = Some info ->
  acc !! pid = Some info
  \/ exists p, p ∈ procs /\ process.Pid p = pid /\ info = fst (getProcessInfo p)
               /\ ShouldMonitorProcess windows cfg info = true.
Proof.
  revert acc. induction procs as [| q procs IH]; intros acc Hl; [now left|].
  cbn [fold_left] in Hl. apply IH in Hl. destruct Hl as [Hl | (p & Hp & Hpid & Hinfo & Hf)].
  - rewrite addProcess_lookup in Hl. case_decide as Heq; [|now left].
    destruct (ShouldMonitorProcess windows cfg (fst (getProcessInfo q))) eqn:Hf; [|now left].
    injection Hl as <-. right. exists q. repeat split; [left | exact Heq | exact Hf].
  - right. exists p. repeat split; [now right | assumption..].
Qed.
End Snapshot.

(** X8.  A successful enumeration gives a snapshot whose keys are exactly the
    PIDs of the handles whose record passes the filter, each entry being
    the record of such a handle; it holds at most one entry per handle,
    and none for an empty enumeration. *)
Theorem getRunningProcesses_entries
  (windows : bool) (cfg : MonitoringConfig) (procs : list process.Process) :
  exists snapshot,
    getRunningProcesses windows cfg (procs, None) = (Some snapshot, None)
    /\ (forall pid,
          is_Some (snapshot !! pid) <->
          exists p, p ∈ procs /\ process.Pid p = pid
                    /\ ShouldMonitorProcess windows cfg (fst (getProcessInfo p)) = true)
    /\ (forall pid info,
          snapshot !! pid = Some info ->
          exists p, p ∈ procs /\ process.Pid p = pid /\ info = fst (getProcessInfo p))
    /\ (size snapshot <= length procs)%nat
    /\ (procs = [] -> snapshot = ∅).
Proof.
  eexists. split; [reflexivity|]. split; [|split; [|split]].
  - intros pid. split.
    + intros [info Hl]. apply fold_addProcess_entry in Hl.
      destruct Hl as [Hl | (p & Hp & Hpid & -> & Hf)]; [rewrite lookup_empty in Hl; discriminate|].
      eauto.
    + intros (p & Hp & <- & Hf). now apply fold_addProcess_included.
  - intros pid info Hl. apply fold_addProcess_entry in Hl.
    destruct Hl as [Hl | (p & Hp & Hpid & Hinfo & _)]; [rewrite lookup_empty in Hl; discriminate|].
    eauto.
  - assert (Hgen : forall (l : list process.Process) (acc : gmap Z ProcessInfo),
               (size (fold_left (addProcess windows cfg) l acc) <= size acc + length l)%nat).
    { induction l as [| q l IH]; intros acc; cbn [fold_left length]; [lia|].
      specialize (IH (addProcess windows cfg acc q)).
      assert (size (addProcess windows cfg acc q) <= S (size acc))%nat; [|lia].
      unfold addProcess. cbn [getProcessInfo].
      destruct (ShouldMonitorProcess windows cfg _); [|lia].
      destruct (acc !! process.Pid q) eqn:Hq.
      - rewrite map_size_insert_Some by eauto. lia.
      - rewrite map_size_insert_None by assumption. lia. }
    specialize (Hgen procs ∅). rewrite map_size_empty in Hgen. exact Hgen.
  - intros ->. reflexivity.
Qed.

(** ** Fields that the collector never fills *)

(** X9.  [getProcessInfo] fills [NumThreads] but never [ThreadCount] or
    [HandleCount], which are the fields that [detectModifications]
    compares.  So, with thresholds of at least 1, the poll loop of a new
    collector never sends a [ThreadCountChange] or a [HandleCountChange]
    event, whatever the processes do. *)
Theorem Monitor_never_reports_thread_or_handle_changes
  (windows : bool) (cfg : MonitoringConfig) (sel : list Select) (t : Time) (e : ProcessEvent) :
  (MonitorThreads cfg = true -> 1 <= ThreadChangeThreshold cfg) ->
  (MonitorHandles cfg = true -> 1 <= HandleChangeThreshold cfg) ->
  ranges_ok windows cfg NewProcessCollector sel ->
  e ∈ sent (Monitor windows cfg sel NewProcessCollector t) ->
  EvModType e <> ThreadCountChange /\ EvModType e <> HandleCountChange.
Proof.
  intros Ht Hh Hr He.
  apply (Monitor_sent_ind windows cfg
           (fun m => forall pid info, m !! pid = Some info ->
                       ThreadCount info = 0 /\ HandleCount info = 0)
           (fun e => EvModType e <> ThreadCountChange /\ EvModType e <> HandleCountChange))
    with (sel := sel) (currentProcesses := NewProcessCollector) (t := t); try assumption.
  - intros [procs [err|]] new Hrun; cbn [getRunningProcesses] in Hrun; [destruct err; discriminate|].
    injection Hrun as <-. intros pid info Hl. apply fold_addProcess_entry in Hl.
    destruct Hl as [Hl | (p & _ & _ & -> & _)]; [rewrite lookup_empty in Hl; discriminate|].
    split; reflexivity.
  - clear - Ht Hh. intros prev cur rangeNew rangeOld t e Hprev Hcur HrN HrO He.
    apply diffAndReplace_sent_inv in He; [|assumption..].
    destruct He as [pid info ts _ _ _ -> | pid o n ts modif Hp Hc _ _ Hin -> | pid info ts _ _ _ ->];
      cbn [plainEvent modifiedEvent EvModType]; [split; discriminate | | split; discriminate].
    destruct (Hprev pid o Hp) as [Hto Hho]. destruct (Hcur pid n Hc) as [Htn Hhn].
    rewrite fieldChecks_parts in Hin. rewrite Hto, Htn, Hho, Hhn in Hin.
    change (absDiff (wrap32 (0 - 0))) with 0 in Hin.
    assert (Hthr : MonitorThreads cfg && (ThreadChangeThreshold cfg <=? 0) = false).
    { destruct (MonitorThreads cfg); [|reflexivity]. cbn [andb].
      apply Z.leb_gt. specialize (Ht eq_refl). lia. }
    assert (Hhan : MonitorHandles cfg && (HandleChangeThreshold cfg <=? 0) = false).
    { destruct (MonitorHandles cfg); [|reflexivity]. cbn [andb].
      apply Z.leb_gt. specialize (Hh eq_refl). lia. }
    rewrite Hthr, Hhan in Hin. cbn [app] in Hin.
    rewrite !elem_of_app in Hin.
    destruct Hin as [Hin | [Hin | Hin]];
      match type of Hin with
      | _ ∈ (if ?c then _ else _) => destruct c
      end;
      try (inversion Hin; fail);
      apply list_elem_of_singleton in Hin; subst modif; split; discriminate.
  - intros pid info Hl. unfold NewProcessCollector in Hl. rewrite lookup_empty in Hl. discriminate.
Qed.

Lemma Monitor_never_reports_thread_or_handle_changes_witness :
  1 <= ThreadChangeThreshold DefaultConfig
  /\ 1 <= HandleChangeThreshold DefaultConfig
  /\ ranges_ok false DefaultConfig NewProcessCollector oneTick
  /\ plainEvent ProcessCreated 0 info10
       ∈ sent (Monitor false DefaultConfig oneTick NewProcessCollector 0)
  /\ EvModType (plainEvent ProcessCreated 0 info10) <> ThreadCountChange
  /\ EvModType (plainEvent ProcessCreated 0 info10) <> HandleCountChange.
Proof.
  assert (Ht : 1 <= ThreadChangeThreshold DefaultConfig) by (vm_compute; discriminate).
  assert (Hh : 1 <= HandleChangeThreshold DefaultConfig) by (vm_compute; discriminate).
  assert (Hr := ranges_ok_oneTick).
  assert (He : plainEvent ProcessCreated 0 info10
                 ∈ sent (Monitor false DefaultConfig oneTick NewProcessCollector 0))
    by (vm_compute; left).
  split; [exact Ht|]. split; [exact Hh|]. split; [exact Hr|]. split; [exact He|].
  exact (Monitor_never_reports_thread_or_handle_changes false DefaultConfig oneTick 0 _
           (fun _ => Ht) (fun _ => Hh) Hr He).
Defined.

(* ===================================================================== *)
(** * Further properties: [detectModifications]                          *)
(* ===================================================================== *)

(** X10.  The report of [detectModifications]: nothing is sent on the
    channel; the records come in the fixed order command line, threads,
    handles, memory, working directory, each type at most once and no
    other type; every record carries the one timestamp read at the start
    and the PID of the new record; the clock is read once, and not at
    all when the collector's own predicate rejects the new record, in
    which case the report is empty. *)
Theorem detectModifications_report_shape
  (windows : bool) (cfg : MonitoringConfig) (old new : ProcessInfo) (t : Time) :
  let r := detectModifications windows cfg old new t in
  sent r = []
  /\ sublist (map ModType (value r))
       [CommandLineChange; ThreadCountChange; HandleCountChange;
        MemoryModification; WorkingDirectoryChange]
  /\ (forall modif, modif ∈ value r -> Timestamp modif = t /\ ProcessID modif = PID new)
  /\ clockAfter r = (if shouldMonitorProcess windows cfg new then t + 1 else t)
  /\ (shouldMonitorProcess windows cfg new = false -> value r = []).
Proof.
  cbn zeta. split; [apply detectModifications_sent|].
  rewrite detectModifications_value. unfold detectModifications.
  destruct (shouldMonitorProcess windows cfg new); cbn [negb].
  - rewrite fieldChecks_parts.
    split; [|split; [|split; [reflexivity | discriminate]]].
    + destruct (MonitorCommandLine cfg && negb (String.eqb (CommandLine old) (CommandLine new)));
      destruct (MonitorThreads cfg && _); destruct (MonitorHandles cfg && _);
      destruct (MonitorMemory cfg && _); destruct (MonitorWorkingDir cfg && _);
      cbn [app map ModType]; repeat constructor.
    + intros modif Hin. rewrite !elem_of_app in Hin.
      destruct Hin as [Hin | [Hin | [Hin | [Hin | Hin]]]];
        match type of Hin with
        | _ ∈ (if ?c then _ else _) => destruct c
        end;
        try (inversion Hin; fail);
        apply list_elem_of_singleton in Hin; subst modif; split; reflexivity.
  - split; [repeat constructor|]. split; [intros modif Hin; inversion Hin|].
    split; reflexivity.
Qed.

(** X11.  A command-line change is reported exactly when the collector's own
    predicate accepts the new record, the check is enabled and the two
    strings differ; the same holds for the working directory.  The
    record holds the old and the new string. *)
Theorem detectModifications_string_changes
  (windows : bool) (cfg : MonitoringConfig) (old new : ProcessInfo) (t : Time) :
  let mods := value (detectModifications windows cfg old new t) in
  ((exists modif, modif ∈ mods /\ ModType modif = CommandLineChange)
     <-> shouldMonitorProcess windows cfg new = true /\ MonitorCommandLine cfg = true
         /\ CommandLine old <> CommandLine new)
  /\ ((exists modif, modif ∈ mods /\ ModType modif = WorkingDirectoryChange)
     <-> shouldMonitorProcess windows cfg new = true /\ MonitorWorkingDir cfg = true
         /\ Cwd old <> Cwd new)
  /\ (forall modif, modif ∈ mods -> ModType modif = CommandLineChange ->
        OldValue modif = VString (CommandLine old)
        /\ NewValue modif = VString (CommandLine new))
  /\ (forall modif, modif ∈ mods -> ModType modif = WorkingDirectoryChange ->
        OldValue modif = VString (Cwd old) /\ NewValue modif = VString (Cwd new)).
Proof.
  cbn zeta. rewrite detectModifications_value.
  destruct (shouldMonitorProcess windows cfg new).
  2:{ split; [|split; [|split]].
      - split; [intros (m & Hin & _); inversion Hin | intros [H _]; discriminate H].
      - split; [intros (m & Hin & _); inversion Hin | intros [H _]; discriminate H].
      - intros m Hin; inversion Hin.
      - intros m Hin; inversion Hin. }
  rewrite fieldChecks_parts.
  assert (Hsplit : forall modif ty,
    modif ∈ (if MonitorCommandLine cfg && negb (String.eqb (CommandLine old) (CommandLine new))
             then [ {| Timestamp := t; ProcessID := PID new; ModType := CommandLineChange;
                       OldValue := VString (CommandLine old); NewValue := VString (CommandLine new);
                       Description := "Command line modified" |} ] else [])
            ++ (if MonitorThreads cfg && (ThreadChangeThreshold cfg <=? absDiff (wrap32 (ThreadCount new - ThreadCount old)))
                then [ {| Timestamp := t; ProcessID := PID new; ModType := ThreadCountChange;
                          OldValue := VInt32 (ThreadCount old); NewValue := VInt32 (ThreadCount new);
                          Description := "Thread count changed by " +:+ pretty (absDiff (wrap32 (ThreadCount new - ThreadCount old))) |} ] else [])
            ++ (if MonitorHandles cfg && (HandleChangeThreshold cfg <=? absDiff (wrap32 (HandleCount new - HandleCount old)))
                then [ {| Timestamp := t; ProcessID := PID new; ModType := HandleCountChange;
                          OldValue := VInt32 (HandleCount old); NewValue := VInt32 (HandleCount new);
                          Description := "Handle count changed by " +:+ pretty (absDiff (wrap32 (HandleCount new - HandleCount old))) |} ] else [])
            ++ (if MonitorMemory cfg && memChanged cfg (MemoryUsage old) (MemoryUsage new)
                then [ {| Timestamp := t; ProcessID := PID new; ModType := MemoryModification;
                          OldValue := VUint64 (MemoryUsage old); NewValue := VUint64 (MemoryUsage new);
                          Description := "Significant memory usage change" |} ] else [])
            ++ (if MonitorWorkingDir cfg && negb (String.eqb (Cwd old) (Cwd new))
                then [ {| Timestamp := t; ProcessID := PID new; ModType := WorkingDirectoryChange;
                          OldValue := VString (Cwd old); NewValue := VString (Cwd new);
                          Description := "Working directory changed" |} ] else []) ->
    ModType modif = ty ->
    (ty = CommandLineChange ->
       MonitorCommandLine cfg && negb (String.eqb (CommandLine old) (CommandLine new)) = true
       /\ OldValue modif = VString (CommandLine old)
       /\ NewValue modif = VString (CommandLine new))
    /\ (ty = WorkingDirectoryChange ->
       MonitorWorkingDir cfg && negb (String.eqb (Cwd old) (Cwd new)) = true
       /\ OldValue modif = VString (Cwd old) /\ NewValue modif = VString (Cwd new))).
  { intros modif ty Hin Hty. rewrite !elem_of_app in Hin.
    destruct Hin as [Hin | [Hin | [Hin | [Hin | Hin]]]];
      match type of Hin with
      | _ ∈ (if ?c then _ else _) => destruct c eqn:Hc
      end;
      try (inversion Hin; fail);
      apply list_elem_of_singleton in Hin; subst modif; cbn [ModType] in Hty; subst ty;
      split; intros Heq; try discriminate Heq; repeat split; reflexivity. }
  assert (Hneq : forall a b : string, negb (String.eqb a b) = true <-> a <> b).
  { intros a b. rewrite negb_true_iff. apply String.eqb_neq. }
  split; [|split; [|split]].
  - split.
    + intros (modif & Hin & Hty). destruct (Hsplit modif _ Hin Hty) as [H _].
      destruct (H eq_refl) as [Hc _]. apply andb_prop in Hc. destruct Hc as [Hm Hs].
      apply Hneq in Hs. auto.
    + intros (_ & Hm & Hs). apply Hneq in Hs. rewrite Hm, Hs. cbn [andb].
      eexists. split; [rewrite !elem_of_app; left; apply list_elem_of_singleton; reflexivity
                      | reflexivity].
  - split.
    + intros (modif & Hin & Hty). destruct (Hsplit modif _ Hin Hty) as [_ H].
      destruct (H eq_refl) as [Hc _]. apply andb_prop in Hc. destruct Hc as [Hm Hs].
      apply Hneq in Hs. auto.
    + intros (_ & Hm & Hs). apply Hneq in Hs. rewrite Hm, Hs. cbn [andb].
      eexists. split; [rewrite !elem_of_app; do 4 right; apply list_elem_of_singleton; reflexivity
                      | reflexivity].
  - intros modif Hin Hty. destruct (Hsplit modif _ Hin Hty) as [H _].
    destruct (H eq_refl) as (_ & Ho & Hn). auto.
  - intros modif Hin Hty. destruct (Hsplit modif _ Hin Hty) as [_ H].
    destruct (H eq_refl) as (_ & Ho & Hn). auto.
Qed.

(** X12.  When the handle counts of the two records differ by less than 2^31
    in absolute value, a [HandleCountChange] is reported exactly when
    the collector's own predicate accepts the new record, the check is
    enabled and the absolute difference reaches the threshold; the
    description then gives the absolute difference in decimal. *)
Theorem handle_change_reported_iff
  (windows : bool) (cfg : MonitoringConfig) (old new : ProcessInfo) (t : Time) :
  - 2 ^ 31 < HandleCount new - HandleCount old < 2 ^ 31 ->
  let mods := value (detectModifications windows cfg old new t) in
  ((exists modif, modif ∈ mods /\ ModType modif = HandleCountChange)
     <-> shouldMonitorProcess windows cfg new = true /\ MonitorHandles cfg = true
         /\ HandleChangeThreshold cfg <= Z.abs (HandleCount new - HandleCount old))
  /\ (forall modif, modif ∈ mods -> ModType modif = HandleCountChange ->
        Description modif
        = "Handle count changed by " +:+ pretty (Z.abs (HandleCount new - HandleCount old))
        /\ OldValue modif = VInt32 (HandleCount old)
        /\ NewValue modif = VInt32 (HandleCount new)).
Proof.
  intros Hrange. cbn zeta. rewrite detectModifications_value.
  destruct (shouldMonitorProcess windows cfg new).
  2:{ split.
      - split; [intros (m & Hin & _); inversion Hin | intros [H _]; discriminate H].
      - intros m Hin; inversion Hin. }
  rewrite fieldChecks_parts.
  rewrite (wrap32_id (HandleCount new - HandleCount old)) by lia.
  rewrite (absDiff_exact (HandleCount new - HandleCount old)) by lia.
  split.
  - split.
    + intros (modif & Hin & Hty). rewrite !elem_of_app in Hin.
      destruct Hin as [Hin | [Hin | [Hin | [Hin | Hin]]]];
        match type of Hin with
        | _ ∈ (if ?c then _ else _) => destruct c eqn:Hc
        end;
        try (inversion Hin; fail);
        apply list_elem_of_singleton in Hin; subst modif; try discriminate Hty.
      apply andb_prop in Hc. destruct Hc as [Hm Hle]. apply Z.leb_le in Hle. auto.
    + intros (_ & Hm & Hle). apply Z.leb_le in Hle. rewrite Hm, Hle. cbn [andb].
      eexists. split; [rewrite !elem_of_app; do 2 right; left;
                       apply list_elem_of_singleton; reflexivity | reflexivity].
  - intros modif Hin Hty. rewrite !elem_of_app in Hin.
    destruct Hin as [Hin | [Hin | [Hin | [Hin | Hin]]]];
      match type of Hin with
      | _ ∈ (if ?c then _ else _) => destruct c eqn:Hc
      end;
      try (inversion Hin; fail);
      apply list_elem_of_singleton in Hin; subst modif; try discriminate Hty.
    repeat split; reflexivity.
Qed.

(* ===================================================================== *)
(** * Further properties: the memory check                               *)
(* ===================================================================== *)

Lemma fieldChecks_has_memory (cfg : MonitoringConfig) (ts : Time) (old new : ProcessInfo) :
  (exists modif, modif ∈ fieldChecks cfg ts old new /\ ModType modif = MemoryModification)
  <-> MonitorMemory cfg = true /\ memChanged cfg (MemoryUsage old) (MemoryUsage new) = true.
Proof.
  split.
  - intros (modif & Hin & Hty). rewrite fieldChecks_parts in Hin.
    rewrite !elem_of_app in Hin.
    destruct Hin as [Hin | [Hin | [Hin | [Hin | Hin]]]];
      match type of Hin with
      | _ ∈ (if ?c then _ else _) => destruct c eqn:Hc
      end;
      try (inversion Hin; fail);
      apply list_elem_of_singleton in Hin; subst modif; try discriminate Hty.
    apply andb_prop in Hc. exact Hc.
  - intros H. destruct (proj2 (fieldChecks_memory cfg ts old new) H) as (modif & Hin & Hty & _).
    eauto.
Qed.

Lemma lt_nan_r (x : spec_float) : f64.lt x S754_nan = false.
Proof. unfold f64.lt, SFltb, SFcompare. destruct x; reflexivity. Qed.

Lemma gt_nan_r (x : spec_float) : f64.gt x S754_nan = false.
Proof. reflexivity. Qed.

(** X13.  With a NaN memory threshold, which [Validate] lets through, the
    memory comparison is false for every pair of sizes: no
    [MemoryModification] record is ever produced, whatever the memory
    usage does. *)
Theorem nan_threshold_disables_memory_check
  (windows : bool) (cfg : MonitoringConfig) (old new : ProcessInfo) (t : Time) :
  f64.val (MemoryChangeThreshold cfg) = S754_nan ->
  memChanged cfg (MemoryUsage old) (MemoryUsage new) = false
  /\ forall modif, modif ∈ value (detectModifications windows cfg old new t) ->
                   ModType modif <> MemoryModification.
Proof.
  intros Hnan.
  assert (Hmem : forall o n, memChanged cfg o n = false).
  { intros o n. unfold memChanged. rewrite Hnan.
    change (f64.sub f64.one S754_nan) with S754_nan.
    change (f64.add f64.one S754_nan) with S754_nan.
    rewrite lt_nan_r, gt_nan_r. reflexivity. }
  split; [apply Hmem|].
  intros modif Hin Hty. rewrite detectModifications_value in Hin.
  destruct (shouldMonitorProcess windows cfg new); [|inversion Hin].
  assert (Hex : exists m, m ∈ fieldChecks cfg t old new /\ ModType m = MemoryModification)
    by eauto.
  apply fieldChecks_has_memory in Hex. destruct Hex as [_ Hc].
  rewrite Hmem in Hc. discriminate Hc.
Qed.

Lemma nan_threshold_disables_memory_check_witness :
  f64.val (MemoryChangeThreshold cfgNaN) = S754_nan
  /\ Validate cfgNaN = None
  /\ memChanged cfgNaN (MemoryUsage nginxOld) (MemoryUsage nginxNew) = false
  /\ forall modif, modif ∈ value (detectModifications false cfgNaN nginxOld nginxNew 0) ->
                   ModType modif <> MemoryModification.
Proof.
  split; [reflexivity|]. split; [reflexivity|].
  exact (nan_threshold_disables_memory_check false cfgNaN nginxOld nginxNew 0 eq_refl).
Defined.

(** [1 - x] for [x] in (0, 1): a finite positive number. *)
Lemma one_minus_threshold_below (m : positive) (e : Z) :
  -1074 <= e <= -52 -> Z.pos m < 2 ^ (- e) ->
  exists m' e', f64.sub f64.one (S754_finite false m e) = S754_finite false m' e'.
Proof.
  intros He Hm. unfold f64.sub, f64.one, SFsub.
  rewrite Z.min_r by lia. cbn [cond_Zopp].
  rewrite !shl_align_fst by lia.
  rewrite Z.sub_diag, Z.mul_1_r.
  change (Z.pos 4503599627370496) with (2 ^ 52).
  rewrite <- Z.pow_add_r by lia.
  replace (52 + (-52 - e)) with (- e) by lia.
  destruct (2 ^ (- e) - Z.pos m) as [| M | M] eqn:HM; try lia.
  unfold binary_normalize.
  pose proof (digits2_pos_bounds M) as [Hlo Hhi].
  assert (Hd : Z.pos (digits2_pos M) <= - e).
  { destruct (Z_le_gt_dec (Z.pos (digits2_pos M)) (- e)); [assumption|].
    assert (2 ^ (- e) <= 2 ^ (Z.pos (digits2_pos M) - 1)) by (apply Z.pow_le_mono_r; lia). lia. }
  destruct (Z_le_gt_dec (fexp64 (Z.pos (digits2_pos M) + e)) e) as [Hex | Hsh].
  - rewrite (binary_round_exact false M e (fexp64 (Z.pos (digits2_pos M) + e)));
      [| reflexivity | lia | rewrite fexp64_eq; lia].
    eexists _, _. reflexivity.
  - rewrite fexp64_eq in Hsh.
    destruct (binary_round_shift false M e (Z.pos (digits2_pos M) + e - 53))
      as (m' & e' & Heq & _); [lia..|].
    exists m', e'. assumption.
Qed.

(** The only canonical binary64 number [m * 2^e] with [m = 2^(-e)] is
    [1.0]. *)
Lemma threshold_one_canonical (x : float64) (m : positive) (e : Z) :
  f64.val x = S754_finite false m e ->
  -1074 <= e <= -52 -> Z.pos m = 2 ^ (- e) ->
  f64.val x = f64.one.
Proof.
  destruct x as [v Hv]. cbn [f64.val]. intros -> He Hm.
  cbn [valid_binary] in Hv. unfold bounded, canonical_mantissa in Hv.
  apply andb_prop in Hv. destruct Hv as [Hcan _].
  apply Z.eqb_eq in Hcan. rewrite fexp64_eq in Hcan.
  assert (Hdig : Z.pos (digits2_pos m) = - e + 1).
  { apply digits2_pos_unique. rewrite Hm.
    replace (- e + 1 - 1) with (- e) by lia.
    rewrite Z.pow_add_r by lia.
    assert (0 < 2 ^ (- e)) by (apply Z.pow_pos_nonneg; lia). lia. }
  rewrite Hdig in Hcan.
  assert (e = -52) by lia. subst e.
  change (2 ^ (- -52)) with (Z.pos 4503599627370496) in Hm.
  apply Pos2Z.inj in Hm. subst m. reflexivity.
Qed.

(** X14.  A process whose memory usage falls to zero: the quotient is [0],
    which lies below [1 - threshold] for every threshold in (0, 1) and
    not for the threshold [1.0].  So, with the memory check enabled, a
    threshold in (0, 1] and a new record that the collector's own
    predicate accepts, the fall is reported exactly when the threshold
    is not [1.0]. *)
Theorem memory_drop_to_zero_reported
  (windows : bool) (cfg : MonitoringConfig) (old new : ProcessInfo) (t : Time) :
  MonitorMemory cfg = true ->
  inUnitInterval (f64.val (MemoryChangeThreshold cfg)) = true ->
  shouldMonitorProcess windows cfg new = true ->
  0 < MemoryUsage old < 2 ^ 64 ->
  MemoryUsage new = 0 ->
  memRatio (MemoryUsage old) (MemoryUsage new) = f64.zero
  /\ ((exists modif, modif ∈ value (detectModifications windows cfg old new t)
                     /\ ModType modif = MemoryModification)
      <-> f64.val (MemoryChangeThreshold cfg) <> f64.one).
Proof.
  intros Hmon Hthr Hguard Hold Hnew.
  assert (Hratio : memRatio (MemoryUsage old) (MemoryUsage new) = f64.zero).
  { rewrite Hnew. unfold memRatio.
    destruct (of_Z_pos_finite _ Hold) as (m & e & ->). reflexivity. }
  split; [exact Hratio|].
  rewrite detectModifications_value, Hguard, fieldChecks_has_memory.
  unfold memChanged. rewrite Hratio.
  destruct (unit_interval_cases _ Hthr) as (m & e & Hx & He & Hm).
  destruct (Z.eq_dec (Z.pos m) (2 ^ (- e))) as [Heq | Hne].
  - pose proof (threshold_one_canonical _ m e Hx He Heq) as Hone. rewrite Hone.
    split; [intros [_ H]; vm_compute in H; discriminate H | intros H; now elim H].
  - split; [intros _ Hone; rewrite Hx in Hone; injection Hone as -> ->; apply Hne; reflexivity|].
    intros _. split; [assumption|]. rewrite Hx.
    destruct (one_minus_threshold_below m e He) as (m' & e' & ->); [lia|].
    reflexivity.
Qed.

(* ===================================================================== *)
(** * Further properties: the two filter predicates                      *)
(* ===================================================================== *)

(** ** Case folding *)

Lemma allBytePairs_spec (P : ascii -> ascii -> bool) :
  allBytePairs P = true -> forall a b, P a b = true.
Proof.
  intros H a b. unfold allBytePairs in H.
  rewrite forallb_forall in H.
  assert (Ha : In (nat_of_ascii a) (seq 0 256)).
  { apply in_seq. pose proof (nat_ascii_bounded a). lia. }
  specialize (H _ Ha). rewrite forallb_forall in H.
  assert (Hb : In (nat_of_ascii b) (seq 0 256)).
  { apply in_seq. pose proof (nat_ascii_bounded b). lia. }
  specialize (H _ Hb). rewrite !ascii_nat_embedding in H. exact H.
Qed.

Lemma foldEq_lowerByte (a b : ascii) :
  strings.foldEq a b = Ascii.eqb (strings.lowerByte a) (strings.lowerByte b).
Proof.
  apply eqb_prop.
  apply (allBytePairs_spec
           (fun a b => Bool.eqb (strings.foldEq a b)
                         (Ascii.eqb (strings.lowerByte a) (strings.lowerByte b)))).
  vm_compute. reflexivity.
Qed.

(** On the bytes of the model, [EqualFold] compares the lower-cased
    strings. *)
Lemma EqualFold_ToLower (s t : string) :
  strings.EqualFold s t = String.eqb (strings.ToLower s) (strings.ToLower t).
Proof.
  revert t. induction s as [| a s IH]; intros [| b t]; cbn; try reflexivity.
  rewrite foldEq_lowerByte, IH.
  destruct (Ascii.eqb (strings.lowerByte a) (strings.lowerByte b)); reflexivity.
Qed.

Lemma isMeta_lowerByte (c : ascii) : isMeta (strings.lowerByte c) = isMeta c.
Proof.
  destruct c as [[] [] [] [] [] [] [] []]; reflexivity.
Qed.

Lemma literal_ToLower (s : string) : literal (strings.ToLower s) = literal s.
Proof.
  induction s as [| c s IH]; [reflexivity|].
  cbn [strings.ToLower literal]. now rewrite isMeta_lowerByte, IH.
Qed.

(** ** [filepath.Match] on a literal pattern *)

Section Literal.
Variable windows : bool.

Lemma isMeta_false (c : ascii) :
  isMeta c = false ->
  Ascii.eqb c "*" = false /\ Ascii.eqb c "?" = false
  /\ Ascii.eqb c "[" = false /\ Ascii.eqb c "\" = false.
Proof.
  unfold isMeta. intros H.
  apply orb_false_elim in H. destruct H as [H H4].
  apply orb_false_elim in H. destruct H as [H H3].
  apply orb_false_elim in H. destruct H as [H1 H2]. auto.
Qed.

Lemma scanIndex_literal (p : string) :
  literal p = true -> filepath.scanIndex windows false p = String.length p.
Proof.
  induction p as [| c p IH]; [reflexivity|].
  cbn [literal]. intros H. apply andb_prop in H. destruct H as [Hc Hp].
  apply negb_true_iff, isMeta_false in Hc. destruct Hc as (H1 & H2 & H3 & H4).
  cbn [filepath.scanIndex String.length]. rewrite H4, H3, H1.
  destruct (Ascii.eqb c "]"); now rewrite IH.
Qed.

Lemma take_bytes_all (p : string) : filepath.take_bytes (String.length p) p = p.
Proof. induction p as [| c p IH]; [reflexivity|]. cbn. now rewrite IH. Qed.

Lemma drop_bytes_all (p : string) : filepath.drop_bytes (String.length p) p = EmptyString.
Proof. induction p as [| c p IH]; [reflexivity|]. cbn. exact IH. Qed.

Lemma scanChunk_literal (p : string) :
  literal p = true -> filepath.scanChunk windows p = (false, p, EmptyString).
Proof.
  intros H. unfold filepath.scanChunk.
  assert (Hs : filepath.scanStars p false = (false, p)).
  { destruct p as [| c p]; [reflexivity|].
    cbn [literal] in H. apply andb_prop in H. destruct H as [Hc _].
    apply negb_true_iff, isMeta_false in Hc. destruct Hc as (H1 & _).
    cbn [filepath.scanStars]. now rewrite H1. }
  rewrite Hs, scanIndex_literal by assumption.
  now rewrite take_bytes_all, drop_bytes_all.
Qed.

Lemma matchChunkLoop_literal (chunk : string) :
  literal chunk = true ->
  forall (fuel : nat) (s : string) (failed : bool),
    (String.length chunk < fuel)%nat ->
    filepath.matchChunkLoop windows fuel chunk s failed =
    if failed then (EmptyString, false, None)
    else match stripPrefix chunk s with
         | Some t => (t, true, None)
         | None => (EmptyString, false, None)
         end.
Proof.
  induction chunk as [| c chunk IH]; intros Hlit fuel s failed Hfuel.
  - destruct fuel as [| fuel]; [cbn in Hfuel; lia|].
    cbn [filepath.matchChunkLoop stripPrefix]. reflexivity.
  - cbn [literal] in Hlit. apply andb_prop in Hlit. destruct Hlit as [Hc Hlit].
    apply negb_true_iff, isMeta_false in Hc. destruct Hc as (H1 & H2 & H3 & H4).
    destruct fuel as [| fuel]; [cbn in Hfuel; lia|].
    cbn [String.length] in Hfuel.
    cbn [filepath.matchChunkLoop]. rewrite H3, H2, H4. cbn [andb].
    destruct failed; cbn [negb andb].
    + rewrite IH by (assumption || lia). reflexivity.
    + destruct s as [| d s]; cbn [filepath.is_empty stripPrefix].
      * rewrite IH by (assumption || lia). reflexivity.
      * rewrite IH by (assumption || lia).
        destruct (Ascii.eqb c d); reflexivity.
Qed.

Lemma stripPrefix_eqb (p s : string) :
  String.eqb p s = match stripPrefix p s with
                   | Some EmptyString => true
                   | _ => false
                   end.
Proof.
  revert s. induction p as [| c p IH]; intros [| d s]; cbn [String.eqb stripPrefix];
    try reflexivity.
  destruct (Ascii.eqb c d); [apply IH | reflexivity].
Qed.

(** A literal pattern matches its own text only, and is never
    malformed. *)
Lemma Match_literal (p name : string) :
  literal p = true ->
  filepath.Match windows p name = (String.eqb p name, None).
Proof.
  intros Hlit. unfold filepath.Match.
  destruct p as [| c q].
  - cbn. destruct name; reflexivity.
  - cbn [filepath.MatchLoop].
    rewrite scanChunk_literal by assumption. cbn [andb].
    unfold filepath.matchChunk. rewrite matchChunkLoop_literal by (assumption || lia).
    rewrite stripPrefix_eqb.
    destruct (stripPrefix (String c q) name) as [t|]; [|reflexivity].
    destruct t as [| d t]; cbn [filepath.is_empty andb orb negb].
    + cbn [String.length filepath.MatchLoop]. reflexivity.
    + reflexivity.
Qed.

Lemma anyMatch_literal (patterns : list string) (name : string) :
  forallb literal patterns = true ->
  anyMatch windows patterns (strings.ToLower name) = anyEqualFold patterns name.
Proof.
  induction patterns as [| p ps IH]; [reflexivity|].
  cbn [forallb anyMatch anyEqualFold]. intros H. apply andb_prop in H. destruct H as [Hp Hps].
  rewrite Match_literal by (now rewrite literal_ToLower). cbn [fst].
  rewrite EqualFold_ToLower, (String.eqb_sym (strings.ToLower name)).
  now rewrite IH.
Qed.
End Literal.

Lemma anyUser_anyEqualFold (users : list string) (username : string) :
  anyUser users (strings.ToLower username) = anyEqualFold users username.
Proof.
  induction users as [| u us IH]; [reflexivity|].
  cbn [anyUser anyEqualFold].
  rewrite EqualFold_ToLower, (String.eqb_sym (strings.ToLower username)).
  now rewrite IH.
Qed.

(** X15.  On ASCII text (the name and the user of the process and the
    entries of the three lists), the filter and the collector's own
    predicate give the same verdict when no entry of the two process
    lists contains a glob metacharacter, as in the default
    configuration: each then rejects exactly the names equal, up to
    case, to an excluded entry, the names equal to no included entry
    when there are included entries, and the users equal, up to case,
    to an excluded user.  Beyond ASCII the two Go predicates can
    differ, [strings.EqualFold] folding more than [strings.ToLower]
    lowers. *)
Theorem filters_agree_on_literal_lists
  (windows : bool) (cfg : MonitoringConfig) (info : ProcessInfo) :
  isASCII (Name info) = true ->
  isASCII (Username info) = true ->
  forallb isASCII (ExcludedProcesses cfg) = true ->
  forallb isASCII (IncludedProcesses cfg) = true ->
  forallb isASCII (ExcludedUsers cfg) = true ->
  forallb literal (ExcludedProcesses cfg) = true ->
  forallb literal (IncludedProcesses cfg) = true ->
  shouldMonitorProcess windows cfg info = ShouldMonitorProcess windows cfg info
  /\ ShouldMonitorProcess windows cfg info
     = negb (anyEqualFold (ExcludedProcesses cfg) (Name info))
       && (match IncludedProcesses cfg with
           | [] => true
           | _ => anyEqualFold (IncludedProcesses cfg) (Name info)
           end)
       && negb (anyEqualFold (ExcludedUsers cfg) (Username info)).
Proof.
  intros _ _ _ _ _ He Hi.
  unfold shouldMonitorProcess, ShouldMonitorProcess.
  rewrite excludedByPattern_anyMatch.
  rewrite !anyMatch_literal by assumption. rewrite anyUser_anyEqualFold.
  destruct (anyEqualFold (ExcludedProcesses cfg) (Name info)); [split; reflexivity|].
  destruct (IncludedProcesses cfg) as [| i incl] eqn:Hinc.
  - cbn [length Nat.ltb Nat.leb andb negb].
    destruct (anyEqualFold (ExcludedUsers cfg) (Username info)); split; reflexivity.
  - rewrite <- Hinc.
    replace (0 <? length (IncludedProcesses cfg))%nat with true
      by (rewrite Hinc; reflexivity).
    destruct (anyEqualFold (IncludedProcesses cfg) (Name info)); cbn [andb negb];
      [|split; reflexivity].
    destruct (anyEqualFold (ExcludedUsers cfg) (Username info)); split; reflexivity.
Qed.

Lemma filters_agree_on_literal_lists_witness :
  isASCII (Name nginxNew) = true
  /\ isASCII (Username nginxNew) = true
  /\ forallb isASCII (ExcludedProcesses DefaultConfig) = true
  /\ forallb isASCII (IncludedProcesses DefaultConfig) = true
  /\ forallb isASCII (ExcludedUsers DefaultConfig) = true
  /\ forallb literal (ExcludedProcesses DefaultConfig) = true
  /\ forallb literal (IncludedProcesses DefaultConfig) = true
  /\ shouldMonitorProcess true DefaultConfig nginxNew
     = ShouldMonitorProcess true DefaultConfig nginxNew
  /\ ShouldMonitorProcess true DefaultConfig nginxNew
     = negb (anyEqualFold (ExcludedProcesses DefaultConfig) (Name nginxNew))
       && (match IncludedProcesses DefaultConfig with
           | [] => true
           | _ => anyEqualFold (IncludedProcesses DefaultConfig) (Name nginxNew)
           end)
       && negb (anyEqualFold (ExcludedUsers DefaultConfig) (Username nginxNew)).
Proof.
  split; [reflexivity|]. split; [reflexivity|]. split; [reflexivity|].
  split; [reflexivity|]. split; [reflexivity|]. split; [reflexivity|].
  split; [reflexivity|].
  exact (filters_agree_on_literal_lists true DefaultConfig nginxNew
           eq_refl eq_refl eq_refl eq_refl eq_refl eq_refl eq_refl).
Defined.

(** ** What the lists of a configuration mean to the filters *)

Lemma anyEqualFold_true (entries : list string) (s : string) :
  anyEqualFold entries s = true <->
  exists entry, entry ∈ entries /\ strings.EqualFold s entry = true.
Proof.
  induction entries as [| x xs IH]; cbn [anyEqualFold].
  - split; [discriminate | intros (e & He & _); inversion He].
  - destruct (strings.EqualFold s x) eqn:Hx.
    + split; [|reflexivity]. intros _. exists x. split; [left | assumption].
    + rewrite IH. split.
      * intros (e & He & Hm). exists e. split; [now right | assumption].
      * intros (e & He & Hm). apply elem_of_cons in He. destruct He as [-> | He].
        -- congruence.
        -- exists e. split; assumption.
Qed.

Lemma bool_ext (a b : bool) : (a = true <-> b = true) -> a = b.
Proof. destruct a, b; intros [H1 H2]; try reflexivity; [now rewrite H1 | now rewrite H2]. Qed.

Lemma nonempty_same_elements {A} (l1 l2 : list A) :
  (forall x, x ∈ l1 <-> x ∈ l2) -> (0 <? length l1)%nat = (0 <? length l2)%nat.
Proof.
  intros H. destruct l1 as [| a l1], l2 as [| b l2]; try reflexivity.
  - assert (Hb : b ∈ @nil A) by (apply H; left). inversion Hb.
  - assert (Ha : a ∈ @nil A) by (apply H; left). inversion Ha.
Qed.

(** X16.  Both predicates read a configuration only through the entries of
    its three lists: two configurations whose lists hold the same
    entries, in any order and with any repetition, give the same verdict
    on every process, whatever their other fields. *)
Theorem filters_ignore_order_and_repetition
  (windows : bool) (cfg1 cfg2 : MonitoringConfig) (info : ProcessInfo) :
  (forall entry, entry ∈ ExcludedProcesses cfg1 <-> entry ∈ ExcludedProcesses cfg2) ->
  (forall entry, entry ∈ IncludedProcesses cfg1 <-> entry ∈ IncludedProcesses cfg2) ->
  (forall entry, entry ∈ ExcludedUsers cfg1 <-> entry ∈ ExcludedUsers cfg2) ->
  ShouldMonitorProcess windows cfg1 info = ShouldMonitorProcess windows cfg2 info
  /\ shouldMonitorProcess windows cfg1 info = shouldMonitorProcess windows cfg2 info.
Proof.
  intros He Hi Hu.
  assert (HM : forall l1 l2 n, (forall x : string, x ∈ l1 <-> x ∈ l2) ->
                 anyMatch windows l1 n = anyMatch windows l2 n).
  { intros l1 l2 n H. apply bool_ext. rewrite !anyMatch_true.
    split; intros (x & Hx & Hm); exists x; (split; [apply H; exact Hx | exact Hm]). }
  assert (HU : forall l1 l2 n, (forall x : string, x ∈ l1 <-> x ∈ l2) ->
                 anyUser l1 n = anyUser l2 n).
  { intros l1 l2 n H. apply bool_ext. rewrite !anyUser_true.
    split; intros (x & Hx & Hm); exists x; (split; [apply H; exact Hx | exact Hm]). }
  assert (HF : forall l1 l2 n, (forall x : string, x ∈ l1 <-> x ∈ l2) ->
                 anyEqualFold l1 n = anyEqualFold l2 n).
  { intros l1 l2 n H. apply bool_ext. rewrite !anyEqualFold_true.
    split; intros (x & Hx & Hm); exists x; (split; [apply H; exact Hx | exact Hm]). }
  unfold ShouldMonitorProcess, shouldMonitorProcess.
  rewrite !excludedByPattern_anyMatch.
  rewrite (HM _ _ (strings.ToLower (Name info)) He).
  rewrite (HM _ _ (strings.ToLower (Name info)) Hi).
  rewrite (HU _ _ (strings.ToLower (Username info)) Hu).
  rewrite (HF _ _ (Name info) He), (HF _ _ (Name info) Hi), (HF _ _ (Username info) Hu).
  rewrite (nonempty_same_elements _ _ Hi).
  split; reflexivity.
Qed.

(** X17.  An entry on which [filepath.Match] reports a malformed pattern
    counts as not matching.  Put on the exclusion list, it changes no
    verdict of the filter; as the only entry of the inclusion list, it
    makes the filter reject the process. *)
Theorem malformed_pattern_never_matches
  (windows : bool) (cfg : MonitoringConfig) (info : ProcessInfo) (pattern : string) :
  snd (filepath.Match windows (strings.ToLower pattern) (strings.ToLower (Name info)))
    <> None ->
  ShouldMonitorProcess windows
    (withFilter cfg (pattern :: ExcludedProcesses cfg) (IncludedProcesses cfg)
       (ExcludedUsers cfg)) info
  = ShouldMonitorProcess windows cfg info
  /\ ShouldMonitorProcess windows
       (withFilter cfg (ExcludedProcesses cfg) [pattern] (ExcludedUsers cfg)) info
     = false.
Proof.
  intros Herr.
  assert (Hno : fst (filepath.Match windows (strings.ToLower pattern)
                       (strings.ToLower (Name info))) = false).
  { destruct (snd (filepath.Match windows (strings.ToLower pattern)
                     (strings.ToLower (Name info)))) as [e|] eqn:Hs; [|congruence].
    exact (Match_error windows _ _ e Hs). }
  unfold ShouldMonitorProcess. cbn [withFilter ExcludedProcesses IncludedProcesses ExcludedUsers].
  cbn [anyMatch length Nat.ltb Nat.leb]. rewrite Hno. cbn [negb andb].
  split; [reflexivity|].
  destruct (anyMatch windows (ExcludedProcesses cfg) (strings.ToLower (Name info)));
    reflexivity.
Qed.

Lemma malformed_pattern_never_matches_witness :
  snd (filepath.Match false (strings.ToLower "[") (strings.ToLower (Name nginxNew))) <> None
  /\ ShouldMonitorProcess false
       (withFilter DefaultConfig ("[" :: ExcludedProcesses DefaultConfig)
          (IncludedProcesses DefaultConfig) (ExcludedUsers DefaultConfig)) nginxNew
     = ShouldMonitorProcess false DefaultConfig nginxNew
  /\ ShouldMonitorProcess false
       (withFilter DefaultConfig (ExcludedProcesses DefaultConfig) ["["]
          (ExcludedUsers DefaultConfig)) nginxNew
     = false.
Proof.
  assert (H : snd (filepath.Match false (strings.ToLower "[")
                     (strings.ToLower (Name nginxNew))) <> None)
    by (vm_compute; discriminate).
  split; [exact H|].
  exact (malformed_pattern_never_matches false DefaultConfig nginxNew "[" H).
Defined.

Lemma filters_ignore_order_and_repetition_witness :
  ShouldMonitorProcess true DefaultConfig nginxNew
  = ShouldMonitorProcess true
      (withFilter DefaultConfig ["RuntimeBroker.exe"; "svchost.exe"; "svchost.exe"]
         [] ["root"; "root"]) nginxNew
  /\ shouldMonitorProcess true DefaultConfig nginxNew
     = shouldMonitorProcess true
         (withFilter DefaultConfig ["RuntimeBroker.exe"; "svchost.exe"; "svchost.exe"]
            [] ["root"; "root"]) nginxNew.
Proof.
  apply (filters_ignore_order_and_repetition true DefaultConfig
           (withFilter DefaultConfig ["RuntimeBroker.exe"; "svchost.exe"; "svchost.exe"]
              [] ["root"; "root"]) nginxNew).
  - intros entry. cbn [withFilter DefaultConfig ExcludedProcesses].
    rewrite !elem_of_cons, !elem_of_nil. tauto.
  - intros entry. reflexivity.
  - intros entry. cbn [withFilter DefaultConfig ExcludedUsers].
    rewrite !elem_of_cons, !elem_of_nil. tauto.
Defined.

(* ===================================================================== *)
(** * Further properties: events of a cycle and of a run                 *)
(* ===================================================================== *)


(** X19.  A process whose record is the same in the retained and in the new
    snapshot causes no event in the diff cycle, whatever happens to the
    other processes, under a configuration that [Validate] accepts and
    whose enabled integer thresholds are at least 1. *)
Theorem unchanged_process_is_silent
  (windows : bool) (cfg : MonitoringConfig) (prev cur : gmap Z ProcessInfo)
  (rangeNew rangeOld : list (Z * ProcessInfo)) (t : Time) (pid : Z) (info : ProcessInfo) :
  Validate cfg = None ->
  (MonitorThreads cfg = true -> 1 <= ThreadChangeThreshold cfg) ->
  (MonitorHandles cfg = true -> 1 <= HandleChangeThreshold cfg) ->
  snapshot_ok windows cfg prev -> snapshot_ok windows cfg cur ->
  range_of cur rangeNew -> range_of prev rangeOld ->
  prev !! pid = Some info -> cur !! pid = Some info ->
  forall e, e ∈ sent (diffAndReplace windows cfg prev cur rangeNew rangeOld t) ->
            PID (EvProcess e) <> pid.
Proof.
  intros Hv Ht Hh Hprev Hcur HrN HrO Hp Hc e He Hpid.
  apply diffAndReplace_sent_inv in He; [|assumption..].
  destruct He as [pid' info' ts Hc' Hp' _ -> | pid' o n ts modif Hp' Hc' _ _ Hin -> | pid' info' ts Hp' Hc' _ ->];
    cbn [plainEvent modifiedEvent EvProcess] in Hpid.
  - destruct (Hcur _ _ Hc') as [Hk _]. assert (pid' = pid) by congruence. subst pid'. congruence.
  - destruct (Hcur _ _ Hc') as [Hk _]. assert (pid' = pid) by congruence. subst pid'.
    assert (o = info) by congruence. assert (n = info) by congruence. subst o n.
    rewrite fieldChecks_same in Hin by assumption. inversion Hin.
  - destruct (Hprev _ _ Hp') as [Hk _]. assert (pid' = pid) by congruence. subst pid'. congruence.
Qed.

(* ===================================================================== *)
(** * Further properties: loading a configuration                        *)
(* ===================================================================== *)

Lemma Validate_bounds (c : MonitoringConfig) :
  Validate c = None ->
  100 * Millisecond <= PollInterval c
  /\ 0 <= ThreadChangeThreshold c /\ 0 <= HandleChangeThreshold c.
Proof.
  unfold Validate.
  destruct (PollInterval c <? Millisecond * 100) eqn:Hp; [discriminate|].
  destruct (f64.le _ _ || f64.gt _ _); [discriminate|].
  destruct (f64.le _ _ || f64.gt _ _); [discriminate|].
  destruct (ThreadChangeThreshold c <? 0) eqn:Ht; [discriminate|].
  destruct (HandleChangeThreshold c <? 0) eqn:Hh; [discriminate|].
  intros _. apply Z.ltb_ge in Hp, Ht, Hh. lia.
Qed.

(** X20.  [LoadConfig] returns either a configuration and no error, or no
    configuration and an error.  It returns a configuration exactly
    when the file was read, the decoding onto the default configuration
    succeeded and [Validate] accepts the outcome, which is the
    configuration returned: its poll interval is at least 100ms and its
    two integer thresholds are not negative.  A file whose decoding
    leaves the defaults untouched loads as the default configuration.
    Otherwise the error message starts with the words of the step that
    failed. *)
Theorem LoadConfig_outcomes
  (ReadFile : string -> string * option goerror)
  (Unmarshal : string -> MonitoringConfig -> MonitoringConfig * option goerror)
  (path : string) :
  (forall c, LoadConfig ReadFile Unmarshal path = (Some c, None) <->
             exists file, ReadFile path = (file, None)
                          /\ Unmarshal file DefaultConfig = (c, None)
                          /\ Validate c = None)
  /\ (forall c err, LoadConfig ReadFile Unmarshal path = (Some c, err) ->
        err = None
        /\ 100 * Millisecond <= PollInterval c
        /\ 0 <= ThreadChangeThreshold c /\ 0 <= HandleChangeThreshold c)
  /\ (forall err, LoadConfig ReadFile Unmarshal path = (None, err) ->
        exists prefix msg,
          err = Some (Errorf (prefix +:+ msg))
          /\ (prefix = "error reading config file: " /\ snd (ReadFile path) = Some (Errorf msg)
              \/ prefix = "error parsing config file: "
                 /\ snd (Unmarshal (fst (ReadFile path)) DefaultConfig) = Some (Errorf msg)
              \/ prefix = "invalid configuration: "
                 /\ Validate (fst (Unmarshal (fst (ReadFile path)) DefaultConfig))
                    = Some (Errorf msg)))
  /\ (forall file, ReadFile path = (file, None) ->
        Unmarshal file DefaultConfig = (DefaultConfig, None) ->
        LoadConfig ReadFile Unmarshal path = (Some DefaultConfig, None)).
Proof.
  unfold LoadConfig.
  destruct (ReadFile path) as [file [[rmsg]|]] eqn:Hread; cbn [fst snd wrapError].
  { split; [|split; [|split]].
    - intros c. split; [discriminate | intros (f & Hf & _); discriminate Hf].
    - intros c err H. discriminate H.
    - intros err H. injection H as <-. exists "error reading config file: ", rmsg.
      split; [reflexivity | left; split; reflexivity].
    - intros f Hf. discriminate Hf. }
  destruct (Unmarshal file DefaultConfig) as [c' [[umsg]|]] eqn:Hparse; cbn [fst snd wrapError].
  { split; [|split; [|split]].
    - intros c. split; [discriminate|].
      intros (f & Hf & Hu & _). injection Hf as <-. rewrite Hparse in Hu. discriminate Hu.
    - intros c err H. discriminate H.
    - intros err H. injection H as <-. exists "error parsing config file: ", umsg.
      split; [reflexivity | right; left; split; reflexivity].
    - intros f Hf Hu. injection Hf as <-. rewrite Hparse in Hu. discriminate Hu. }
  destruct (Validate c') as [[vmsg]|] eqn:Hval; cbn [wrapError].
  { split; [|split; [|split]].
    - intros c. split; [discriminate|].
      intros (f & Hf & Hu & Hv). injection Hf as <-. rewrite Hparse in Hu.
      injection Hu as <-. rewrite Hval in Hv. discriminate Hv.
    - intros c err H. discriminate H.
    - intros err H. injection H as <-. exists "invalid configuration: ", vmsg.
      split; [reflexivity | right; right; split; reflexivity].
    - intros f Hf Hu. injection Hf as <-. rewrite Hparse in Hu. injection Hu as ->.
      rewrite Validate_DefaultConfig in Hval. discriminate Hval. }
  split; [|split; [|split]].
  - intros c. split.
    + intros H. injection H as <-. exists file. auto.
    + intros (f & Hf & Hu & _). injection Hf as <-. rewrite Hparse in Hu.
      injection Hu as <-. reflexivity.
  - intros c err H. injection H as <- <-. split; [reflexivity|]. now apply Validate_bounds.
  - intros err H. discriminate H.
  - intros f Hf Hu. injection Hf as <-. rewrite Hparse in Hu. injection Hu as ->. reflexivity.
Qed.

(* ===================================================================== *)
(** * Further properties: concrete runs                                  *)
(* ===================================================================== *)

Lemma handle_change_reported_iff_witness :
  - 2 ^ 31 < HandleCount procH20 - HandleCount procH5 < 2 ^ 31
  /\ ((exists modif, modif ∈ value (detectModifications false DefaultConfig procH5 procH20 0)
                     /\ ModType modif = HandleCountChange)
      <-> shouldMonitorProcess false DefaultConfig procH20 = true
          /\ MonitorHandles DefaultConfig = true
          /\ HandleChangeThreshold DefaultConfig
             <= Z.abs (HandleCount procH20 - HandleCount procH5))
  /\ (forall modif, modif ∈ value (detectModifications false DefaultConfig procH5 procH20 0) ->
        ModType modif = HandleCountChange ->
        Description modif
        = "Handle count changed by "
          +:+ pretty (Z.abs (HandleCount procH20 - HandleCount procH5))
        /\ OldValue modif = VInt32 (HandleCount procH5)
        /\ NewValue modif = VInt32 (HandleCount procH20)).
Proof.
  assert (H : - 2 ^ 31 < HandleCount procH20 - HandleCount procH5 < 2 ^ 31)
    by (vm_compute; split; reflexivity).
  split; [exact H|].
  exact (handle_change_reported_iff false DefaultConfig procH5 procH20 0 H).
Defined.

Lemma memory_drop_to_zero_reported_witness :
  MonitorMemory DefaultConfig = true
  /\ inUnitInterval (f64.val (MemoryChangeThreshold DefaultConfig)) = true
  /\ shouldMonitorProcess false DefaultConfig procA0 = true
  /\ 0 < MemoryUsage procA < 2 ^ 64
  /\ MemoryUsage procA0 = 0
  /\ memRatio (MemoryUsage procA) (MemoryUsage procA0) = f64.zero
  /\ ((exists modif, modif ∈ value (detectModifications false DefaultConfig procA procA0 0)
                     /\ ModType modif = MemoryModification)
      <-> f64.val (MemoryChangeThreshold DefaultConfig) <> f64.one).
Proof.
  assert (H1 : MonitorMemory DefaultConfig = true) by reflexivity.
  assert (H2 : inUnitInterval (f64.val (MemoryChangeThreshold DefaultConfig)) = true)
    by (vm_compute; reflexivity).
  assert (H3 : shouldMonitorProcess false DefaultConfig procA0 = true)
    by (vm_compute; reflexivity).
  assert (H4 : 0 < MemoryUsage procA < 2 ^ 64) by (vm_compute; split; reflexivity).
  assert (H5 : MemoryUsage procA0 = 0) by reflexivity.
  split; [exact H1|]. split; [exact H2|]. split; [exact H3|]. split; [exact H4|].
  split; [exact H5|].
  exact (memory_drop_to_zero_reported false DefaultConfig procA procA0 0 H1 H2 H3 H4 H5).
Defined.




Lemma unchanged_process_is_silent_witness :
  Validate DefaultConfig = None
  /\ 1 <= ThreadChangeThreshold DefaultConfig
  /\ 1 <= HandleChangeThreshold DefaultConfig
  /\ snapshot_ok false DefaultConfig snapA
  /\ range_of snapA rangeA
  /\ snapA !! 100 = Some procA
  /\ forall e, e ∈ sent (diffAndReplace false DefaultConfig snapA snapA rangeA rangeA 0) ->
               PID (EvProcess e) <> 100.
Proof.
  assert (Hv : Validate DefaultConfig = None) by reflexivity.
  assert (Ht : 1 <= ThreadChangeThreshold DefaultConfig) by (vm_compute; discriminate).
  assert (Hh : 1 <= HandleChangeThreshold DefaultConfig) by (vm_compute; discriminate).
  assert (Hs : snapshot_ok false DefaultConfig snapA)
    by (apply snapshot_ok_singleton; vm_compute; reflexivity).
  assert (Hr : range_of snapA rangeA) by apply range_of_singleton.
  assert (Hl : snapA !! 100 = Some procA) by (vm_compute; reflexivity).
  split; [exact Hv|]. split; [exact Ht|]. split; [exact Hh|]. split; [exact Hs|].
  split; [exact Hr|]. split; [exact Hl|].
  exact (unchanged_process_is_silent false DefaultConfig snapA snapA rangeA rangeA 0 100 procA
           Hv (fun _ => Ht) (fun _ => Hh) Hs Hs Hr Hr Hl Hl).
Defined.
